(** * react-virtual-scroll: list virtualisation hooks

    A shallow embedding of the two virtual-list hooks of the repository and
    the properties of their range computation, size resolution and
    scroll-state debounce.

    - [DynamicHeight] embeds [useFixedSizeList] (the variable-height hook of
      [examples/DynamicHeight]): [validateProps], [getItemHeight], the single
      forward pass of the range [useMemo], [measureElement] and the
      'isScrolling' effect.
    - [Simple] embeds [useFixedListSize] (the fixed-height hook): its O(1)
      range [useMemo] and its scroll effect.
    - [Component], [SimpleComponent] and [DynamicHeightEasy] embed the two
      components that call the hooks, the item fixtures, and the revision
      of [useFixedSizeList] before the measurement cache.

    JavaScript numbers are modelled by [Z]: pixel quantities and indices are
    taken to be integers in the range where double arithmetic is exact.
    [-1] is the "not found yet" sentinel of the source, so indices are [Z]
    and not [nat]. What is stated about order, about which rows and which
    heights are used and about sums accumulated in the order of the loop
    does not depend on that; the closed forms and exact differences are
    facts about integer inputs, and are stated as such. *)

From Stdlib Require Import Ascii.
From stdpp Require Import base numbers list strings gmap.

Open Scope Z_scope.

(** ** Exceptions

    [throw new Error(msg)] and the [TypeError] raised by calling
    [undefined] are results of type [Exn + A]. *)

Inductive Exn : Type :=
  | Error (msg : string)
  | TypeError.

Definition M (A : Type) : Type := (Exn + A)%type.

Definition ret {A} (a : A) : M A := inr a.
Definition throw {A} (e : Exn) : M A := inl e.
Definition bind {A B} (m : M A) (k : A -> M B) : M B :=
  match m with
  | inl e => inl e
  | inr a => k a
  end.

Notation "'let*' x ':=' m 'in' k" := (bind m (fun x => k))
  (at level 10, x name, m at level 100, k at level 200).

(** ** The DOM as the hooks see it

    [window.setTimeout] and [window.clearTimeout] over a virtual clock. A
    pending timer is its id and the time at which it is due; ids are the
    positive integers, handed out in order. *)

Module Timers.

Record t : Type := mk {
  clock : Z;
  nextId : Z;
  pending : list (Z * Z)
}.

Definition init : t := {| clock := 0; nextId := 1; pending := [] |}.

Definition setTimeout (delay : Z) (w : t) : Z * t :=
  (nextId w,
   {| clock := clock w;
      nextId := nextId w + 1;
      pending := pending w ++ [(nextId w, clock w + Z.max 0 delay)] |}).

Definition clearTimeout (id : Z) (w : t) : t :=
  {| clock := clock w;
     nextId := nextId w;
     pending := filter (fun p => fst p ≠ id) (pending w) |}.

(** Timers that are due once the clock has reached [now]. *)
Definition due (now : Z) (w : t) : list (Z * Z) :=
  filter (fun p => snd p <= now) (pending w).

(** Let [dt] time-units pass: the due timers leave the queue (their
    callbacks are run by the caller). *)
Definition advance (dt : Z) (w : t) : t :=
  {| clock := clock w + dt;
     nextId := nextId w;
     pending := filter (fun p => ¬ (snd p <= clock w + dt)) (pending w) |}.

End Timers.

(** The scroll handlers that the hooks register. *)
Inductive Listener : Type :=
  | SyncScrollTop        (* DynamicHeight, 'Syncing the scrolling position' *)
  | ConfigureIsScrolling (* DynamicHeight, 'Configure isScrolling' *)
  | SimpleHandleScroll.  (* Simple, 'Scroll handler' *)

Global Instance Listener_eq_dec : EqDecision Listener.
Proof. solve_decision. Defined.

(** One mounted hook and the part of the browser it touches. The only
    callback ever given to [setTimeout] is [() => setIsScrolling(false)], so
    the queue stores no callbacks. [timeoutId] is the [let timeoutId] of the
    effect closure. [staleCalls] counts the state-setter calls made once
    the component is gone. *)
Record World : Type := {
  timers : Timers.t;
  elementScrollTop : Z;
  elementListeners : list Listener;
  windowListeners : list Listener;
  mounted : bool;
  scrollTopState : Z;
  isScrolling : bool;
  timeoutId : option Z;
  staleCalls : nat
}.

Definition initialWorld : World :=
  {| timers := Timers.init;
     elementScrollTop := 0;
     elementListeners := [];
     windowListeners := [];
     mounted := true;
     scrollTopState := 0;
     isScrolling := false;
     timeoutId := None;
     staleCalls := 0 |}.

Definition withTimers (tm : Timers.t) (w : World) : World :=
  {| timers := tm;
     elementScrollTop := elementScrollTop w;
     elementListeners := elementListeners w;
     windowListeners := windowListeners w;
     mounted := mounted w;
     scrollTopState := scrollTopState w;
     isScrolling := isScrolling w;
     timeoutId := timeoutId w;
     staleCalls := staleCalls w |}.

Definition withTimeoutId (v : option Z) (w : World) : World :=
  {| timers := timers w;
     elementScrollTop := elementScrollTop w;
     elementListeners := elementListeners w;
     windowListeners := windowListeners w;
     mounted := mounted w;
     scrollTopState := scrollTopState w;
     isScrolling := isScrolling w;
     timeoutId := v;
     staleCalls := staleCalls w |}.

Definition withListeners (el win : list Listener) (w : World) : World :=
  {| timers := timers w;
     elementScrollTop := elementScrollTop w;
     elementListeners := el;
     windowListeners := win;
     mounted := mounted w;
     scrollTopState := scrollTopState w;
     isScrolling := isScrolling w;
     timeoutId := timeoutId w;
     staleCalls := staleCalls w |}.

(** React state setters: a setter called after unmount changes nothing and
    is a stale call. *)
Definition setIsScrolling (v : bool) (w : World) : World :=
  {| timers := timers w;
     elementScrollTop := elementScrollTop w;
     elementListeners := elementListeners w;
     windowListeners := windowListeners w;
     mounted := mounted w;
     scrollTopState := scrollTopState w;
     isScrolling := if mounted w then v else isScrolling w;
     timeoutId := timeoutId w;
     staleCalls := if mounted w then staleCalls w else S (staleCalls w) |}.

Definition setScrollTop (v : Z) (w : World) : World :=
  {| timers := timers w;
     elementScrollTop := elementScrollTop w;
     elementListeners := elementListeners w;
     windowListeners := windowListeners w;
     mounted := mounted w;
     scrollTopState := if mounted w then v else scrollTopState w;
     isScrolling := isScrolling w;
     timeoutId := timeoutId w;
     staleCalls := if mounted w then staleCalls w else S (staleCalls w) |}.

(** [target.addEventListener("scroll", h)] (a handler already registered
    is not added twice) and [target.removeEventListener("scroll", h)]. *)
Definition addListener (h : Listener) (ls : list Listener) : list Listener :=
  if bool_decide (h ∈ ls) then ls else ls ++ [h].

Definition removeListener (h : Listener) (ls : list Listener) : list Listener :=
  filter (fun l => l ≠ h) ls.

Definition windowSetTimeout (delay : Z) (w : World) : Z * World :=
  let '(id, tm) := Timers.setTimeout delay (timers w) in (id, withTimers tm w).

Definition windowClearTimeout (id : Z) (w : World) : World :=
  withTimers (Timers.clearTimeout id (timers w)) w.

(** What the outside does to a mounted hook. *)
Inductive Event : Type :=
  | Scroll (position : Z)   (* the element scrolls and notifies *)
  | Elapse (dt : Z)         (* time passes *)
  | Unmount.                (* React tears the component down *)

Section Run.

(** The body of each handler and the effect cleanups, per hook. *)
Variable handle : Listener -> World -> World.
Variable cleanup : World -> World.

Definition dispatchScroll (position : Z) (w : World) : World :=
  let w1 :=
    {| timers := timers w;
       elementScrollTop := position;
       elementListeners := elementListeners w;
       windowListeners := windowListeners w;
       mounted := mounted w;
       scrollTopState := scrollTopState w;
       isScrolling := isScrolling w;
       timeoutId := timeoutId w;
       staleCalls := staleCalls w |} in
  foldl (fun acc h => handle h acc) w1 (elementListeners w).

Definition elapse (dt : Z) (w : World) : World :=
  let fired := Timers.due (Timers.clock (timers w) + dt) (timers w) in
  let w1 := withTimers (Timers.advance dt (timers w)) w in
  foldl (fun acc _ => setIsScrolling false acc) w1 fired.

Definition unmount (w : World) : World :=
  let w1 := cleanup w in
  {| timers := timers w1;
     elementScrollTop := elementScrollTop w1;
     elementListeners := elementListeners w1;
     windowListeners := windowListeners w1;
     mounted := false;
     scrollTopState := scrollTopState w1;
     isScrolling := isScrolling w1;
     timeoutId := timeoutId w1;
     staleCalls := staleCalls w1 |}.

Definition step (w : World) (e : Event) : World :=
  match e with
  | Scroll position => dispatchScroll position w
  | Elapse dt => elapse dt w
  | Unmount => unmount w
  end.

Definition run (es : list Event) (w : World) : World := foldl step w es.

End Run.

(** JavaScript truthiness of a [number | null] variable: [null] and [0] are
    falsy. *)
Definition truthy (v : option Z) : bool :=
  match v with
  | None => false
  | Some n => negb (n =? 0)
  end.

(** Truthiness of an optional function prop: [undefined] is falsy. *)
Definition supplied {A} (f : option A) : bool :=
  match f with
  | None => false
  | Some _ => true
  end.

(** [Array.prototype.slice(start, end)] on integer arguments. *)
Definition relativeIndex (len k : Z) : Z :=
  if k <? 0 then Z.max (len + k) 0 else Z.min k len.

Definition slice {A} (l : list A) (start stop : Z) : list A :=
  let len := Z.of_nat (length l) in
  let k := relativeIndex len start in
  let final := relativeIndex len stop in
  take (Z.to_nat (Z.max (final - k) 0)) (drop (Z.to_nat k) l).

(** ** examples/DynamicHeight: [useFixedSizeList]

    The latest revision of the hook, with [validateProps], the measurement
    cache and [measureElement]. The revision before it runs the same loop
    with a height function that takes no index and no cache; it is the
    case [itemHeight := Some (fun _ => h)] here. *)

Module DynamicHeight.

Definition ELEMENTS_QUANTITY : nat := 1000.
Definition DEFAULT_OVERSCAN : Z := 3.
Definition SCROLLING_DELAY : Z := 150.

(** [UseFixedSizeListProps]. Optional props are [option]s;
    [getScrollElement] is modelled by whether it returns an element. *)
Record UseFixedSizeListProps : Type := {
  itemHeight : option (Z -> Z);
  elementsQuantity : nat;
  getItemKey : Z -> Z;
  estimateItemHeight : option (unit -> Z);
  getScrollElement : bool;
  scrollingDelay : option Z;
  overscan : option Z
}.

Definition validateProps (props : UseFixedSizeListProps) : M unit :=
  if negb (supplied (itemHeight props))
     && negb (supplied (estimateItemHeight props))
  then throw (Error "Please, provide either 'itemHeight' or 'estimateItemHeight' prop")
  else ret tt.

(** A row descriptor of the pass. *)
Record Row : Type := {
  key : Z;
  height : Z;
  offsetTop : Z;
  index : Z
}.

Section RangeMemo.

Variable props : UseFixedSizeListProps.
(** React state read by the memo. *)
Variable measurementCache : gmap Z Z.
Variable scrollTop : Z.
Variable listHeight : Z.

Definition overscan' : Z := default DEFAULT_OVERSCAN (overscan props).

Definition getItemHeight (index : Z) : M Z :=
  match itemHeight props with
  | Some f => ret (f index)
  | None =>
      let key := getItemKey props index in
      match measurementCache !! key with
      | Some h => ret h
      | None =>
          match estimateItemHeight props with
          | Some est => ret (est tt)
          | None => throw TypeError
          end
      end
  end.

(** The mutable locals of the pass. [allRows] starts as
    [new Array(elementsQuantity).fill(0)]: [None] is the filler. *)
Record PassState : Type := {
  startIndex : Z;
  endIndex : Z;
  totalHeight : Z;
  allRows : list (option Row)
}.

Definition scrolledTopArea : Z := scrollTop.
Definition scrolledBottomArea : Z := scrolledTopArea + listHeight.

Definition initialState : PassState :=
  {| startIndex := -1;
     endIndex := -1;
     totalHeight := 0;
     allRows := replicate (elementsQuantity props) None |}.

(** One iteration of the [for] loop. *)
Definition loopBody (index : Z) (st : PassState) : M PassState :=
  let key := getItemKey props index in
  let* h := getItemHeight index in
  let row := {| key := key; height := h;
                offsetTop := totalHeight st; index := index |} in
  let allRows1 := <[Z.to_nat index := Some row]> (allRows st) in
  let totalHeight1 := totalHeight st + height row in
  let startIndex1 :=
    if (startIndex st =? -1) && (scrolledTopArea <? offsetTop row + height row)
    then Z.max 0 (index - overscan')
    else startIndex st in
  let endIndex1 :=
    if (endIndex st =? -1) && (scrolledBottomArea <=? offsetTop row + height row)
    then Z.min (Z.of_nat (elementsQuantity props) - 1) (index + overscan')
    else endIndex st in
  ret {| startIndex := startIndex1; endIndex := endIndex1;
         totalHeight := totalHeight1; allRows := allRows1 |}.

(** [for (let index = 0; index < elementsQuantity; index++)], by the
    number of iterations that remain. *)
Fixpoint forLoop (remaining : nat) (index : Z) (st : PassState) : M PassState :=
  match remaining with
  | O => ret st
  | S r => let* st1 := loopBody index st in forLoop r (index + 1) st1
  end.

Definition pass : M PassState :=
  forLoop (elementsQuantity props) 0 initialState.

(** What the memo returns. *)
Record Range : Type := {
  virtualItems : list (option Row);
  r_startIndex : Z;
  r_endIndex : Z;
  r_totalHeight : Z
}.

Definition rangeMemo : M Range :=
  let* st := pass in
  ret {| virtualItems := slice (allRows st) (startIndex st) (endIndex st + 1);
         r_startIndex := startIndex st;
         r_endIndex := endIndex st;
         r_totalHeight := totalHeight st |}.

End RangeMemo.

(** [parseInt(s, 10)]: leading white space, an optional sign, then the
    longest run of decimal digits; [None] is [NaN]. *)
Definition isWhiteSpace (c : ascii) : bool :=
  let n := Z.of_nat (nat_of_ascii c) in
  (n =? 32) || ((9 <=? n) && (n <=? 13)).

Fixpoint skipWhiteSpace (s : string) : string :=
  match s with
  | String c s' => if isWhiteSpace c then skipWhiteSpace s' else s
  | EmptyString => s
  end.

Definition digitOf (c : ascii) : option Z :=
  let n := Z.of_nat (nat_of_ascii c) in
  if (48 <=? n) && (n <=? 57) then Some (n - 48) else None.

Fixpoint digits (s : string) (acc : option Z) : option Z :=
  match s with
  | String c s' =>
      match digitOf c with
      | Some d => digits s' (Some (10 * default 0 acc + d))
      | None => acc
      end
  | EmptyString => acc
  end.

Definition parseInt (s : string) : option Z :=
  match skipWhiteSpace s with
  | String "-"%char s' => Z.opp <$> digits s' None
  | String "+"%char s' => digits s' None
  | s' => digits s' None
  end.

(** What [measureElement] reads of a DOM element: its [data-index]
    attribute ([None] when absent) and the height of its bounding box,
    here a whole number of pixels (a browser can report a fraction; what
    is proved of measured heights is worded so as not to depend on exact
    sums). *)
Record Element : Type := {
  dataIndex : option string;
  rectHeight : Z
}.

(** [measureElement]: the new value of the [measurementCache] state. The
    [console.error] of the [NaN] branch leaves the state alone. *)
Definition measureElement (props : UseFixedSizeListProps)
    (element : option Element) (cache : gmap Z Z) : gmap Z Z :=
  match element with
  | None => cache
  | Some el =>
      let indexAttribute := default EmptyString (dataIndex el) in
      match parseInt indexAttribute with
      | None => cache
      | Some index =>
          let size := rectHeight el in
          let key := getItemKey props index in
          <[key := size]> cache
      end
  end.

(** The 'Configure isScrolling' effect. *)
Definition handleScroll (props : UseFixedSizeListProps) (w : World) : World :=
  let w1 := setIsScrolling true w in
  let w2 :=
    if truthy (timeoutId w1)
    then windowClearTimeout (default 0 (timeoutId w1)) w1
    else w1 in
  let '(id, w3) := windowSetTimeout SCROLLING_DELAY w2 in
  withTimeoutId (Some id) w3.

(** The 'Syncing the scrolling position' effect's handler. *)
Definition syncScrollTop (w : World) : World :=
  setScrollTop (elementScrollTop w) w.

Definition handle (props : UseFixedSizeListProps) (h : Listener) (w : World) : World :=
  match h with
  | SyncScrollTop => syncScrollTop w
  | ConfigureIsScrolling => handleScroll props w
  | SimpleHandleScroll => w
  end.

(** Running the two scroll effects on mount; each returns early when
    there is no scroll element. *)
Definition mountEffects (props : UseFixedSizeListProps) (w : World) : World :=
  if getScrollElement props then
    let w1 := setScrollTop (elementScrollTop w) w in
    let w2 := withListeners (addListener SyncScrollTop (elementListeners w1))
                            (windowListeners w1) w1 in
    let w3 := withTimeoutId None w2 in
    withListeners (addListener ConfigureIsScrolling (elementListeners w3))
                  (windowListeners w3) w3
  else w.

(** The cleanups the effects returned; none when they returned early. *)
Definition cleanupEffects (props : UseFixedSizeListProps) (w : World) : World :=
  if getScrollElement props then
    let w1 := withListeners (removeListener SyncScrollTop (elementListeners w))
                            (windowListeners w) w in
    withListeners (removeListener ConfigureIsScrolling (elementListeners w1))
                  (windowListeners w1) w1
  else w.

Definition runHook (props : UseFixedSizeListProps) (es : list Event) : World :=
  run (handle props) (cleanupEffects props) es (mountEffects props initialWorld).

(** The hook, as far as the range goes: validation first, then the memo. *)
Definition useFixedSizeList (props : UseFixedSizeListProps)
    (measurementCache : gmap Z Z) (scrollTop listHeight : Z) : M Range :=
  let* _ := validateProps props in
  rangeMemo props measurementCache scrollTop listHeight.

End DynamicHeight.

(** ** The fixed-height hook: [useFixedListSize] *)

Module Simple.

Record IItem : Type := {
  id : Z;
  content : Z
}.

Definition items : list IItem :=
  (fun idx => {| id := idx; content := idx |}) <$> seqZ 0 10000.

Record UseFixedListSizeProps : Type := {
  elementQuantity : Z;
  elementHeight : Z;
  overscan : option Z;
  scrollingDelay : option Z;
  getScrollElement : bool
}.

Definition DEFAULT_OVERSCAN : Z := 3.
Definition DEFAULT_SCROLLING_DELAY : Z := 100.

Definition overscan' (props : UseFixedListSizeProps) : Z :=
  default DEFAULT_OVERSCAN (overscan props).
Definition scrollingDelay' (props : UseFixedListSizeProps) : Z :=
  default DEFAULT_SCROLLING_DELAY (scrollingDelay props).

(** [Math.round(a / b)] on integers, [b] not zero: the nearest integer,
    halves rounded up. *)
Definition roundDiv (a b : Z) : Z := (2 * a + b) / (2 * b).

Record VirtualItem : Type := {
  v_offsetTop : Z;
  v_id : Z;
  v_content : Z
}.

(** The 'Calculations' memo; [list] and [scrollTop] are React state. *)
Definition rangeMemo (props : UseFixedListSizeProps) (list : list IItem)
    (scrollTop : Z) : Z * Z * Datatypes.list VirtualItem :=
  let CONTAINER_HEIGHT := elementHeight props * elementHeight props in
  let RANGE_START := scrollTop in
  let RANGE_END := scrollTop + CONTAINER_HEIGHT in
  let START_INDEX := roundDiv RANGE_START (elementHeight props) in
  let END_INDEX := roundDiv RANGE_END (elementHeight props) in
  let START_INDEX := Z.max 0 (START_INDEX - overscan' props) in
  let END_INDEX := Z.min (Z.of_nat (length list)) (END_INDEX + overscan' props) in
  let virtualItems :=
    (fun i => {| v_offsetTop := i * elementHeight props; v_id := i; v_content := i |})
      <$> seqZ START_INDEX (END_INDEX - START_INDEX + 1) in
  (START_INDEX, END_INDEX, virtualItems).

Definition totalHeight (props : UseFixedListSizeProps) : Z :=
  elementHeight props * elementQuantity props.

(** 'Scroll handler'. *)
Definition handleScroll (props : UseFixedListSizeProps) (w : World) : World :=
  let scrollTop := elementScrollTop w in
  let w0 := setScrollTop scrollTop w in
  let w1 := setIsScrolling true w0 in
  let w2 :=
    if truthy (timeoutId w1)
    then windowClearTimeout (default 0 (timeoutId w1)) w1
    else w1 in
  let '(id, w3) := windowSetTimeout (scrollingDelay' props) w2 in
  withTimeoutId (Some id) w3.

Definition handle (props : UseFixedListSizeProps) (h : Listener) (w : World) : World :=
  match h with
  | SimpleHandleScroll => handleScroll props w
  | _ => w
  end.

(** The layout effect: early return without a scroll element; otherwise
    one call of the handler, then the subscription. *)
Definition mountEffect (props : UseFixedListSizeProps) (w : World) : World :=
  if getScrollElement props then
    let w1 := withTimeoutId None w in
    let w2 := handleScroll props w1 in
    withListeners (addListener SimpleHandleScroll (elementListeners w2))
                  (windowListeners w2) w2
  else w.

(** Its cleanup removes the handler from [window]. *)
Definition cleanupEffect (props : UseFixedListSizeProps) (w : World) : World :=
  if getScrollElement props then
    withListeners (elementListeners w)
                  (removeListener SimpleHandleScroll (windowListeners w)) w
  else w.

Definition runHook (props : UseFixedListSizeProps) (es : list Event) : World :=
  run (handle props) (cleanupEffect props) es (mountEffect props initialWorld).

End Simple.

(** ** Reference quantities of the specification *)

(** The sum of the heights of items [0 .. k-1]. *)
Fixpoint prefixSum (hf : Z -> Z) (k : nat) : Z :=
  match k with
  | O => 0
  | S k' => prefixSum hf k' + hf (Z.of_nat k')
  end.

(** [Number.MAX_SAFE_INTEGER]: up to it, sums and comparisons of integers
    are exact in the doubles of the source. *)
Definition MAX_SAFE_INTEGER : Z := 2 ^ 53 - 1.

(** [Math.ceil(a / b)] on integers, [b] positive. *)
Definition ceilDiv (a b : Z) : Z := - ((- a) / b).

(** The O(1) fixed-height range as the specification words it:
    [(startIndex, endIndex, totalHeight)]. *)
Definition fastPath (itemCount height scrollOffset viewportSize overscan : Z)
    : Z * Z * Z :=
  (Z.max 0 (scrollOffset / height - overscan),
   Z.min (itemCount - 1) (ceilDiv (scrollOffset + viewportSize) height + overscan),
   itemCount * height).

(** The height the size resolver answers for an index, when it answers. *)
Definition resolvedHeight (props : DynamicHeight.UseFixedSizeListProps)
    (cache : gmap Z Z) (i : Z) : Z :=
  match DynamicHeight.getItemHeight props cache i with
  | inr h => h
  | inl _ => 0
  end.

(** [allRows[i]] when it holds a row. *)
Definition rowOf (st : DynamicHeight.PassState) (i : nat)
    : option DynamicHeight.Row :=
  default None (DynamicHeight.allRows st !! i).

(** ** Configurations used as examples *)

Module Examples.
Import DynamicHeight.

(** The props the [DynamicHeight] demo component passes: estimate 16, the
    item id as key. *)
Definition demoProps : UseFixedSizeListProps :=
  {| itemHeight := None;
     elementsQuantity := ELEMENTS_QUANTITY;
     getItemKey := fun index => index;
     estimateItemHeight := Some (fun _ => 16);
     getScrollElement := true;
     scrollingDelay := None;
     overscan := None |}.

(** A Fixed strategy: every item has height [h]. *)
Definition fixedProps (n : nat) (h o : Z) : UseFixedSizeListProps :=
  {| itemHeight := Some (fun _ => h);
     elementsQuantity := n;
     getItemKey := fun index => index;
     estimateItemHeight := None;
     getScrollElement := true;
     scrollingDelay := None;
     overscan := Some o |}.

(** Both an explicit height function and an estimate. *)
Definition bothProps : UseFixedSizeListProps :=
  {| itemHeight := Some (fun index => 40 + index);
     elementsQuantity := 10;
     getItemKey := fun index => index;
     estimateItemHeight := Some (fun _ => 16);
     getScrollElement := true;
     scrollingDelay := None;
     overscan := None |}.

(** The rendered element of item 5, measured 50 high. *)
Definition element5 : Element :=
  {| dataIndex := Some "5"%string; rectHeight := 50 |}.

(** The demo props with a debounce window of 500 time-units asked for. *)
Definition delayedProps : UseFixedSizeListProps :=
  {| itemHeight := None;
     elementsQuantity := ELEMENTS_QUANTITY;
     getItemKey := fun index => index;
     estimateItemHeight := Some (fun _ => 16);
     getScrollElement := true;
     scrollingDelay := Some 500;
     overscan := None |}.

(** The demo props before the scroll element exists. *)
Definition unmountedProps : UseFixedSizeListProps :=
  {| itemHeight := None;
     elementsQuantity := ELEMENTS_QUANTITY;
     getItemKey := fun index => index;
     estimateItemHeight := Some (fun _ => 16);
     getScrollElement := false;
     scrollingDelay := None;
     overscan := None |}.

(** Props of the fixed-height hook. *)
Definition simpleProps (quantity h : Z) (delay : option Z)
    : Simple.UseFixedListSizeProps :=
  {| Simple.elementQuantity := quantity;
     Simple.elementHeight := h;
     Simple.overscan := Some 3;
     Simple.scrollingDelay := delay;
     Simple.getScrollElement := true |}.

End Examples.

(** [i] is the first index at which [P] holds. *)
Definition firstAt (P : nat -> Prop) (i : nat) : Prop :=
  P i ∧ ∀ j, (j < i)%nat -> ¬ P j.

(** ** The pass, iteration by iteration

    For a resolver that answers [hf]: the row written at an index, the
    locals after one more iteration, and what holds of them after [k]
    iterations. *)

Section PassInvariant.
Import DynamicHeight.

Variable props : UseFixedSizeListProps.
Variables scrollTop listHeight : Z.
Variable hf : Z -> Z.

Let n := elementsQuantity props.
Let o := overscan' props.
Let bottom := scrollTop + listHeight.

(** The row the pass writes at index [i]. *)
Definition rowAt (i : nat) : Row :=
  {| key := getItemKey props (Z.of_nat i);
     height := hf (Z.of_nat i);
     offsetTop := prefixSum hf i;
     index := Z.of_nat i |}.

(** The state after the iteration at index [k], from the state before. *)
Definition afterIteration (k : nat) (st : PassState) : PassState :=
  {| startIndex :=
       if (startIndex st =? -1) && (scrollTop <? totalHeight st + hf (Z.of_nat k))
       then Z.max 0 (Z.of_nat k - o) else startIndex st;
     endIndex :=
       if (endIndex st =? -1) && (bottom <=? totalHeight st + hf (Z.of_nat k))
       then Z.min (Z.of_nat n - 1) (Z.of_nat k + o) else endIndex st;
     totalHeight := totalHeight st + hf (Z.of_nat k);
     allRows :=
       <[k := Some {| key := getItemKey props (Z.of_nat k);
                      height := hf (Z.of_nat k);
                      offsetTop := totalHeight st;
                      index := Z.of_nat k |}]> (allRows st) |}.

(** What holds of the locals once indices [0 .. k-1] are done. *)
Record Inv (k : nat) (st : PassState) : Prop := {
  inv_total : totalHeight st = prefixSum hf k;
  inv_length : length (allRows st) = n;
  inv_rows : ∀ i, (i < k)%nat -> allRows st !! i = Some (Some (rowAt i));
  inv_start_none :
    startIndex st = -1 -> ∀ j, (j < k)%nat -> prefixSum hf (S j) <= scrollTop;
  inv_start_some :
    startIndex st ≠ -1 ->
    ∃ i, (i < k)%nat ∧ firstAt (fun j => scrollTop < prefixSum hf (S j)) i
         ∧ startIndex st = Z.max 0 (Z.of_nat i - o);
  inv_end_none :
    (∀ j, (j < k)%nat -> prefixSum hf (S j) < bottom) -> endIndex st = -1;
  inv_end_some :
    0 <= o ->
    (endIndex st = -1 ∧ ∀ j, (j < k)%nat -> prefixSum hf (S j) < bottom)
    ∨ ∃ i, (i < k)%nat ∧ firstAt (fun j => bottom <= prefixSum hf (S j)) i
           ∧ endIndex st = Z.min (Z.of_nat n - 1) (Z.of_nat i + o)
}.

End PassInvariant.

(** ** The debounce step

    What both scroll handlers do to the flag and the timer, for a window
    of [delay]. *)
Definition restartTimer (delay : Z) (w : World) : World :=
  let w1 := setIsScrolling true w in
  let w2 :=
    if truthy (timeoutId w1)
    then windowClearTimeout (default 0 (timeoutId w1)) w1
    else w1 in
  let '(id, w3) := windowSetTimeout delay w2 in
  withTimeoutId (Some id) w3.

(** Timer ids are positive and every pending timer is the one the closure
    variable names. *)
Definition OneTimer (w : World) : Prop :=
  0 < Timers.nextId (timers w)
  ∧ ∀ p, p ∈ Timers.pending (timers w) -> timeoutId w = Some p.1 ∧ p.1 ≠ 0.

(** ** The rest of the repository

    The components that call the hooks, the item fixtures, and the
    revision of [useFixedSizeList] that came before the measurement
    cache. *)

(** [Array.prototype.map] with a callback that may throw: the first throw
    ends the call. *)
Fixpoint mapM {A B} (f : A -> M B) (l : list A) : M (list B) :=
  match l with
  | [] => ret []
  | x :: l' => let* y := f x in let* ys := mapM f l' in ret (y :: ys)
  end.

(** [array[i]] for an integer [i]: [None] is [undefined]. *)
Definition at_index {A} (l : list A) (i : Z) : option A :=
  if i <? 0 then None else l !! Z.to_nat i.

(** [String(n)] for an integer [n] with
    [- MAX_SAFE_INTEGER <= n <= MAX_SAFE_INTEGER], as React writes a numeric
    attribute: the decimal digits, behind a minus sign when negative. This
    is where the row indices live, an array having fewer than [2 ^ 32]
    elements; from [10 ^ 21] on JavaScript prints an exponent, which this
    function does not, so nothing is stated about it outside the range.
    The digits are produced last first; a number below [2 ^ fuel] needs no
    more than [fuel] rounds. *)
Definition digitChar (d : Z) : ascii := ascii_of_nat (Z.to_nat (48 + d)).

Fixpoint decimalDigits (fuel : nat) (n : Z) (acc : string) : string :=
  match fuel with
  | O => acc
  | S fuel' =>
      let acc' := String (digitChar (n mod 10)) acc in
      if n <? 10 then acc' else decimalDigits fuel' (n / 10) acc'
  end.

Definition numberToString (n : Z) : string :=
  if n <? 0
  then String "-"%char (decimalDigits (S (Z.to_nat (Z.log2 (- n)))) (- n) EmptyString)
  else decimalDigits (S (Z.to_nat (Z.log2 n))) n EmptyString.

(** *** The [DynamicHeight] component *)

Module Component.

Record IItem : Type := {
  id : Z;
  content : Z
}.

(** [createItems], in the version whose content is the index (the other
    fills the content with generated text). *)
Definition createItems (amountOfItems : nat) : list IItem :=
  imap (fun idx _ => {| id := Z.of_nat idx; content := Z.of_nat idx |})
       (replicate amountOfItems 0).

(** [handleReverseButtonClick]: the new value of the [items] state. *)
Definition handleReverseButtonClick (items : list IItem) : list IItem :=
  reverse items.

(** The [getItemKey] callback the component hands to the hook:
    [items[index].id], which throws on an index without an item. *)
Definition getItemKey (items : list IItem) (index : Z) : M Z :=
  match at_index items index with
  | Some item => ret (id item)
  | None => throw TypeError
  end.

(** What the component renders for one virtual item, as far as the hook
    and the measurement care: the React key, the [data-index] attribute
    and the vertical translation. *)
Record RenderedRow : Type := {
  rr_key : Z;
  rr_dataIndex : string;
  rr_translateY : Z;
  rr_content : Z
}.

(** The callback of [virtualItems.map]. A filler entry of the table has no
    [index], finds no item, and [item.id] throws. *)
Definition renderRow (items : list IItem)
    (virtualItem : option DynamicHeight.Row) : M RenderedRow :=
  match virtualItem with
  | None => throw TypeError
  | Some row =>
      match at_index items (DynamicHeight.index row) with
      | None => throw TypeError
      | Some item =>
          ret {| rr_key := id item;
                 rr_dataIndex := numberToString (DynamicHeight.index row);
                 rr_translateY := DynamicHeight.offsetTop row;
                 rr_content := content item |}
      end
  end.

Definition render (items : list IItem)
    (virtualItems : list (option DynamicHeight.Row)) : M (list RenderedRow) :=
  mapM (renderRow items) virtualItems.

(** The DOM element of a rendered row, laid out [measured] high. *)
Definition elementOf (r : RenderedRow) (measured : Z) : DynamicHeight.Element :=
  {| DynamicHeight.dataIndex := Some (rr_dataIndex r);
     DynamicHeight.rectHeight := measured |}.

(** The props describe the component's call of the hook for [items]: as
    many elements as items, and its [getItemKey] on their indices. *)
Definition KeysOf (items : list IItem)
    (props : DynamicHeight.UseFixedSizeListProps) : Prop :=
  DynamicHeight.elementsQuantity props = length items
  ∧ ∀ i, (i < length items)%nat ->
      getItemKey items (Z.of_nat i)
      = inr (DynamicHeight.getItemKey props (Z.of_nat i)).

End Component.

(** *** [useFixedSizeList] before the measurement cache

    [itemHeight] takes no argument and need not return the same value
    twice (the demo draws it at random): it is modelled by the sequence of
    the values it returns, the pass counting its calls. *)

Module DynamicHeightEasy.

Definition ITEM_HEIGHT : Z := 40.
Definition ELEMENTS_QUANTITY : nat := 1000.
Definition DEFAULT_OVERSCAN : Z := 3.
Definition SCROLLING_DELAY : Z := 150.

Record UseFixedSizeListProps : Type := {
  itemHeight : nat -> Z;
  elementsQuantity : nat;
  getScrollElement : bool;
  scrollingDelay : option Z;
  overscan : option Z
}.

Record Row : Type := {
  height : Z;
  offsetTop : Z;
  index : Z
}.

Record PassState : Type := {
  calls : nat;
  startIndex : Z;
  endIndex : Z;
  totalHeight : Z;
  allRows : list (option Row)
}.

Section RangeMemo.

Variable props : UseFixedSizeListProps.
Variable scrollTop : Z.
Variable listHeight : Z.

Definition overscan' : Z := default DEFAULT_OVERSCAN (overscan props).

Definition scrolledTopArea : Z := scrollTop.
Definition scrolledBottomArea : Z := scrolledTopArea + listHeight.

(** [callsBefore] is the number of calls of [itemHeight] made so far. *)
Definition initialState (callsBefore : nat) : PassState :=
  {| calls := callsBefore;
     startIndex := -1;
     endIndex := -1;
     totalHeight := 0;
     allRows := replicate (elementsQuantity props) None |}.

Definition loopBody (index : Z) (st : PassState) : PassState :=
  let row := {| height := itemHeight props (calls st);
                offsetTop := totalHeight st;
                index := index |} in
  let allRows1 := <[Z.to_nat index := Some row]> (allRows st) in
  let totalHeight1 := totalHeight st + height row in
  let startIndex1 :=
    if (startIndex st =? -1) && (scrolledTopArea <? offsetTop row + height row)
    then Z.max 0 (index - overscan')
    else startIndex st in
  let endIndex1 :=
    if (endIndex st =? -1) && (scrolledBottomArea <=? offsetTop row + height row)
    then Z.min (Z.of_nat (elementsQuantity props) - 1) (index + overscan')
    else endIndex st in
  {| calls := S (calls st);
     startIndex := startIndex1; endIndex := endIndex1;
     totalHeight := totalHeight1; allRows := allRows1 |}.

Fixpoint forLoop (remaining : nat) (index : Z) (st : PassState) : PassState :=
  match remaining with
  | O => st
  | S r => forLoop r (index + 1) (loopBody index st)
  end.

Definition pass (callsBefore : nat) : PassState :=
  forLoop (elementsQuantity props) 0 (initialState callsBefore).

Record Range : Type := {
  virtualItems : list (option Row);
  r_startIndex : Z;
  r_endIndex : Z;
  r_totalHeight : Z
}.

(** The memo's value and the number of calls of [itemHeight] after it. *)
Definition rangeMemo (callsBefore : nat) : Range * nat :=
  let st := pass callsBefore in
  ({| virtualItems := slice (allRows st) (startIndex st) (endIndex st + 1);
      r_startIndex := startIndex st;
      r_endIndex := endIndex st;
      r_totalHeight := totalHeight st |},
   calls st).

End RangeMemo.

(** The row of the later revision without its key. *)
Definition forgetKey (row : DynamicHeight.Row) : Row :=
  {| height := DynamicHeight.height row;
     offsetTop := DynamicHeight.offsetTop row;
     index := DynamicHeight.index row |}.

Definition forgetKeys (rows : list (option DynamicHeight.Row))
    : list (option Row) :=
  fmap (M:=list) (fmap (M:=option) forgetKey) rows.

(** The later revision's props that answer, for index [i], what the
    [i]-th call after [callsBefore] answers here. *)
Definition laterProps (props : UseFixedSizeListProps) (callsBefore : nat)
    (getItemKey : Z -> Z) : DynamicHeight.UseFixedSizeListProps :=
  {| DynamicHeight.itemHeight :=
       Some (fun i => itemHeight props (callsBefore + Z.to_nat i));
     DynamicHeight.elementsQuantity := elementsQuantity props;
     DynamicHeight.getItemKey := getItemKey;
     DynamicHeight.estimateItemHeight := None;
     DynamicHeight.getScrollElement := getScrollElement props;
     DynamicHeight.scrollingDelay := scrollingDelay props;
     DynamicHeight.overscan := overscan props |}.

End DynamicHeightEasy.

(** *** The [Simple] component *)

Module SimpleComponent.

(** What a rendered item shows. *)
Inductive Cell : Type :=
  | ScrollingPlaceholder
  | Content (c : Z).

(** The callback of [virtualItems.map]: the React key and the cell.
    [listItem.content] is read only when not scrolling, and throws when
    [list] has no item at the id. *)
Definition renderItem (list : list Simple.IItem) (isScrolling : bool)
    (virtualItem : Simple.VirtualItem) : M (Z * Cell) :=
  let listItem := at_index list (Simple.v_id virtualItem) in
  if isScrolling then ret (Simple.v_id virtualItem, ScrollingPlaceholder)
  else
    match listItem with
    | Some item => ret (Simple.v_id virtualItem, Content (Simple.content item))
    | None => throw TypeError
    end.

Definition render (list : list Simple.IItem) (isScrolling : bool)
    (virtualItems : Datatypes.list Simple.VirtualItem) : M (Datatypes.list (Z * Cell)) :=
  mapM (renderItem list isScrolling) virtualItems.

(** [handleClick]: the new value of the component's [list] state. *)
Definition handleClick (list : list Simple.IItem) : Datatypes.list Simple.IItem :=
  reverse list.

End SimpleComponent.

(** ** What stays true while a hook runs *)

(** At most one timer is pending, and it is the one the closure names. *)
Definition SingleTimer (w : World) : Prop :=
  OneTimer w ∧ (length (Timers.pending (timers w)) <= 1)%nat.

(** [useFixedSizeList] with a scroll element: subscribed and in step with
    the element while mounted, unsubscribed once torn down. *)
Definition Attached (w : World) : Prop :=
  (mounted w = true
   ∧ elementListeners w = [SyncScrollTop; ConfigureIsScrolling]
   ∧ scrollTopState w = elementScrollTop w)
  ∨ (mounted w = false ∧ elementListeners w = []).

(** ** More example configurations *)

Module MoreExamples.

(** Three generated items, the props of the component's call for them,
    and for them reversed. *)
Definition threeItems : list Component.IItem := Component.createItems 3.

Definition threeProps : DynamicHeight.UseFixedSizeListProps :=
  {| DynamicHeight.itemHeight := None;
     DynamicHeight.elementsQuantity := 3;
     DynamicHeight.getItemKey := fun index => index;
     DynamicHeight.estimateItemHeight := Some (fun _ => 16);
     DynamicHeight.getScrollElement := true;
     DynamicHeight.scrollingDelay := None;
     DynamicHeight.overscan := None |}.

Definition threePropsReversed : DynamicHeight.UseFixedSizeListProps :=
  {| DynamicHeight.itemHeight := None;
     DynamicHeight.elementsQuantity := 3;
     DynamicHeight.getItemKey := fun index => 2 - index;
     DynamicHeight.estimateItemHeight := Some (fun _ => 16);
     DynamicHeight.getScrollElement := true;
     DynamicHeight.scrollingDelay := None;
     DynamicHeight.overscan := None |}.

(** Heights that the random [itemHeight] of the demo could return. *)
Definition someHeights (k : nat) : Z := 40 + Z.of_nat (k mod 11).

(** A row of index 2 and the cache entry of a key no index has. *)
Definition row2 : DynamicHeight.Row :=
  {| DynamicHeight.key := 2;
     DynamicHeight.height := 16;
     DynamicHeight.offsetTop := 32;
     DynamicHeight.index := 2 |}.

Definition strayCache : gmap Z Z := {[5000 := 70]}.

Definition easyProps : DynamicHeightEasy.UseFixedSizeListProps :=
  {| DynamicHeightEasy.itemHeight := someHeights;
     DynamicHeightEasy.elementsQuantity := 20;
     DynamicHeightEasy.getScrollElement := true;
     DynamicHeightEasy.scrollingDelay := None;
     DynamicHeightEasy.overscan := None |}.

End MoreExamples.

(** * Properties *)

Lemma bind_inr {A B} (m : M A) (k : A -> M B) (b : B) :
  bind m k = inr b <-> ∃ a, m = inr a ∧ k a = inr b.
Proof.
  destruct m as [e|a]; simpl; split.
  - discriminate.
  - intros (a & Ha & _). discriminate.
  - eauto.
  - intros (a' & Ha & Hk). by injection Ha as ->.
Qed.

Lemma slice_subseteq {A} (l : list A) (start stop : Z) (x : A) :
  x ∈ slice l start stop -> x ∈ l.
Proof.
  unfold slice. intros Hx.
  apply subseteq_take in Hx. by apply subseteq_drop in Hx.
Qed.

Lemma slice_inclusive {A} (l : list A) (a b : Z) :
  0 <= a <= b -> b < Z.of_nat (length l) ->
  length (slice l a (b + 1)) = Z.to_nat (b - a + 1)
  ∧ ∀ k, (k < Z.to_nat (b - a + 1))%nat ->
      slice l a (b + 1) !! k = l !! (Z.to_nat a + k)%nat.
Proof.
  intros Hab Hb. unfold slice, relativeIndex.
  destruct (Z.ltb_spec a 0) as [?|_]; [lia|].
  destruct (Z.ltb_spec (b + 1) 0) as [?|_]; [lia|].
  replace (Z.min a (Z.of_nat (length l))) with a by lia.
  replace (Z.min (b + 1) (Z.of_nat (length l))) with (b + 1) by lia.
  replace (Z.max (b + 1 - a) 0) with (b - a + 1) by lia.
  split.
  - rewrite length_take, length_drop. lia.
  - intros k Hk. rewrite lookup_take_lt by done. apply lookup_drop.
Qed.

Lemma prefixSum_S (hf : Z -> Z) (k : nat) :
  prefixSum hf (S k) = prefixSum hf k + hf (Z.of_nat k).
Proof. reflexivity. Qed.

Lemma prefixSum_ext (f g : Z -> Z) (k : nat) :
  (∀ j, (j < k)%nat -> f (Z.of_nat j) = g (Z.of_nat j)) ->
  prefixSum f k = prefixSum g k.
Proof.
  induction k as [|k IH]; intros Hfg; simpl; [done|].
  rewrite IH by (intros j Hj; apply Hfg; lia).
  rewrite Hfg by lia. done.
Qed.

Lemma prefixSum_const (h : Z) (k : nat) :
  prefixSum (fun _ => h) k = Z.of_nat k * h.
Proof. induction k as [|k IH]; simpl; lia. Qed.

Arguments prefixSum : simpl never.

Module DynamicHeightFacts.
Import DynamicHeight.

Lemma validateProps_inr props :
  validateProps props = inr tt <->
  is_Some (itemHeight props) ∨ is_Some (estimateItemHeight props).
Proof.
  unfold validateProps.
  destruct (itemHeight props), (estimateItemHeight props); simpl;
    split; intros H; try done; try (left; by eauto); try (right; by eauto).
  destruct H as [[? ?]|[? ?]]; done.
Qed.

Lemma getItemHeight_resolved props cache i :
  validateProps props = inr tt ->
  getItemHeight props cache i = inr (resolvedHeight props cache i).
Proof.
  intros Hv%validateProps_inr. unfold resolvedHeight, getItemHeight.
  destruct (itemHeight props); [done|].
  destruct (cache !! getItemKey props i); [done|].
  destruct (estimateItemHeight props); [done|].
  destruct Hv as [[? ?]|[? ?]]; done.
Qed.

(** *** The forward pass, for a resolver that answers [hf] *)
Section Pass.

Variable props : UseFixedSizeListProps.
Variable cache : gmap Z Z.
Variables scrollTop listHeight : Z.
Variable hf : Z -> Z.
Hypothesis resolves : ∀ i, getItemHeight props cache i = inr (hf i).

Let n := elementsQuantity props.

Lemma loopBody_afterIteration (k : nat) (st : PassState) :
  loopBody props cache scrollTop listHeight (Z.of_nat k) st
  = inr (afterIteration props scrollTop listHeight hf k st).
Proof.
  unfold loopBody, afterIteration. rewrite resolves. simpl.
  rewrite Nat2Z.id. reflexivity.
Qed.

Lemma Inv_initial : Inv props scrollTop listHeight hf 0 (initialState props).
Proof.
  split; simpl; try done; try (intros; lia).
  - apply length_replicate.
  - intros _. left. split; [done|]. intros; lia.
Qed.

Lemma Inv_step (k : nat) (st : PassState) :
  (k < n)%nat ->
  Inv props scrollTop listHeight hf k st ->
  Inv props scrollTop listHeight hf (S k)
      (afterIteration props scrollTop listHeight hf k st).
Proof.
  intros Hk [Htot Hlen Hrows Hsn Hss Hen Hes].
  split; simpl.
  - by rewrite prefixSum_S, Htot.
  - by rewrite length_insert.
  - intros i Hi. destruct (decide (i = k)) as [->|Hne].
    + rewrite list_lookup_insert_eq by lia. unfold rowAt. by rewrite Htot.
    + rewrite list_lookup_insert_ne by done. apply Hrows. lia.
  - destruct (Z.eqb_spec (startIndex st) (-1)) as [Heq|Hne]; simpl.
    + destruct (Z.ltb_spec scrollTop (totalHeight st + hf (Z.of_nat k))).
      * intros Hmax. lia.
      * intros _ j Hj. destruct (decide (j = k)) as [->|Hjk].
        -- rewrite prefixSum_S. lia.
        -- apply Hsn; [done|lia].
    + intros Hs. done.
  - destruct (Z.eqb_spec (startIndex st) (-1)) as [Heq|Hne]; simpl.
    + destruct (Z.ltb_spec scrollTop (totalHeight st + hf (Z.of_nat k))).
      * intros _. exists k. split; [lia|]. split; [|done].
        split; [rewrite prefixSum_S; lia|].
        intros j Hj. specialize (Hsn Heq j Hj). lia.
      * intros Hs. done.
    + intros _. destruct (Hss Hne) as (i & Hi & Hf & Hv).
      exists i. split; [lia|done].
  - intros Hall.
    assert (endIndex st = -1) as -> by (apply Hen; intros; apply Hall; lia).
    specialize (Hall k ltac:(lia)). rewrite prefixSum_S in Hall.
    destruct (Z.leb_spec (scrollTop + listHeight) (totalHeight st + hf (Z.of_nat k))); simpl; [lia|done].
  - intros Ho. destruct (Hes Ho) as [[He Hall]|(i & Hi & Hf & Hv)].
    + rewrite He. simpl.
      destruct (Z.leb_spec (scrollTop + listHeight) (totalHeight st + hf (Z.of_nat k))).
      * right. exists k. split; [lia|]. split; [|done].
        split; [rewrite prefixSum_S; lia|].
        intros j Hj. specialize (Hall j Hj). lia.
      * left. split; [done|]. intros j Hj.
        destruct (decide (j = k)) as [->|Hjk];
          [rewrite prefixSum_S; lia|apply Hall; lia].
    + right. exists i. split; [lia|]. split; [done|].
      destruct (Z.eqb_spec (endIndex st) (-1)) as [Heq|Hne]; simpl; [lia|done].
Qed.

Lemma forLoop_Inv (r k : nat) (st : PassState) :
  (k + r = n)%nat -> Inv props scrollTop listHeight hf k st ->
  ∃ st', forLoop props cache scrollTop listHeight r (Z.of_nat k) st = inr st'
         ∧ Inv props scrollTop listHeight hf n st'.
Proof.
  revert k st. induction r as [|r IH]; intros k st Hkr HI; simpl.
  - exists st. split; [done|]. by replace n with k by lia.
  - rewrite loopBody_afterIteration. simpl.
    replace (Z.of_nat k + 1) with (Z.of_nat (S k)) by lia.
    apply IH; [lia|]. apply Inv_step; [lia|done].
Qed.

Lemma pass_Inv :
  ∃ st, pass props cache scrollTop listHeight = inr st ∧ Inv props scrollTop listHeight hf n st.
Proof. unfold pass. apply (forLoop_Inv n 0); [lia|apply Inv_initial]. Qed.

End Pass.

End DynamicHeightFacts.

(** *** Size resolution and the rows of a pass *)

Module RangeFacts.
Import DynamicHeight DynamicHeightFacts.

(** A validated hook returns, and its pass satisfies the invariant for
    the resolved heights. *)
Lemma useFixedSizeList_returns props cache scrollTop listHeight :
  validateProps props = inr tt ->
  ∃ st,
    pass props cache scrollTop listHeight = inr st
    ∧ Inv props scrollTop listHeight (resolvedHeight props cache)
          (elementsQuantity props) st
    ∧ useFixedSizeList props cache scrollTop listHeight
      = inr {| virtualItems := slice (allRows st) (startIndex st) (endIndex st + 1);
               r_startIndex := startIndex st;
               r_endIndex := endIndex st;
               r_totalHeight := totalHeight st |}.
Proof.
  intros Hv.
  destruct (pass_Inv props cache scrollTop listHeight (resolvedHeight props cache))
    as (st & Hp & HI).
  { intros i. by apply getItemHeight_resolved. }
  exists st. split; [done|]. split; [done|].
  unfold useFixedSizeList, rangeMemo. rewrite Hv, Hp. reflexivity.
Qed.

Lemma Inv_rowOf props scrollTop listHeight hf st (i : nat) :
  Inv props scrollTop listHeight hf (elementsQuantity props) st ->
  (i < elementsQuantity props)%nat ->
  rowOf st i = Some (rowAt props hf i).
Proof. intros HI Hi. unfold rowOf. by rewrite (inv_rows _ _ _ _ _ _ HI i Hi). Qed.

Lemma Inv_row_elem props scrollTop listHeight hf st row :
  Inv props scrollTop listHeight hf (elementsQuantity props) st ->
  Some row ∈ allRows st ->
  ∃ i, (i < elementsQuantity props)%nat ∧ row = rowAt props hf i.
Proof.
  intros HI (i & Hi)%list_elem_of_lookup.
  assert (i < elementsQuantity props)%nat as Hlt.
  { rewrite <- (inv_length _ _ _ _ _ _ HI). by eapply lookup_lt_Some. }
  exists i. split; [done|].
  rewrite (inv_rows _ _ _ _ _ _ HI i Hlt) in Hi. by injection Hi as <-.
Qed.

(** The pass reads the cache only through [getItemHeight]. *)
Lemma forLoop_resolver_ext props cache cache' scrollTop listHeight r i st :
  (∀ j, getItemHeight props cache j = getItemHeight props cache' j) ->
  forLoop props cache scrollTop listHeight r i st
  = forLoop props cache' scrollTop listHeight r i st.
Proof.
  intros Hext. revert i st. induction r as [|r IH]; intros i st; simpl; [done|].
  unfold loopBody. rewrite Hext.
  destruct (getItemHeight props cache' i) as [e|h]; simpl; [done|]. apply IH.
Qed.

Lemma prefixSum_shift (f g : Z -> Z) (i j : nat) :
  (∀ k, (k < j)%nat -> k ≠ i -> g (Z.of_nat k) = f (Z.of_nat k)) ->
  prefixSum g j
  = prefixSum f j + (if bool_decide (i < j)%nat
                     then g (Z.of_nat i) - f (Z.of_nat i) else 0).
Proof.
  induction j as [|j IH]; intros Hfg.
  - rewrite bool_decide_eq_false_2 by lia. simpl. reflexivity.
  - rewrite !prefixSum_S, IH by (intros; apply Hfg; lia).
    destruct (decide (i = j)) as [->|Hne].
    + rewrite (bool_decide_eq_false_2 (j < j)%nat) by lia.
      rewrite (bool_decide_eq_true_2 (j < S j)%nat) by lia. lia.
    + rewrite (Hfg j) by lia.
      destruct (decide (i < j)%nat).
      * rewrite !bool_decide_eq_true_2 by lia. lia.
      * rewrite !bool_decide_eq_false_2 by lia. lia.
Qed.

End RangeFacts.

Module SizeResolver.
Import DynamicHeight DynamicHeightFacts RangeFacts Examples.

(** C7. Setup throws the configuration error exactly when neither
    [itemHeight] nor [estimateItemHeight] is supplied: [validateProps]
    throws in that case and only then, and so does the hook that starts
    with it, whatever its state; with at least one of the two supplied
    the hook returns a range. *)
Theorem validateProps_throws_iff props :
  (validateProps props
     = inl (Error "Please, provide either 'itemHeight' or 'estimateItemHeight' prop")
   <-> itemHeight props = None ∧ estimateItemHeight props = None)
  ∧ (validateProps props = inr tt
     <-> ¬ (itemHeight props = None ∧ estimateItemHeight props = None))
  ∧ ∀ cache scrollTop listHeight,
      ((∃ e, useFixedSizeList props cache scrollTop listHeight = inl e)
       <-> itemHeight props = None ∧ estimateItemHeight props = None)
      ∧ ((∃ r, useFixedSizeList props cache scrollTop listHeight = inr r)
         <-> ¬ (itemHeight props = None ∧ estimateItemHeight props = None)).
Proof.
  assert (validateProps props = inr tt
          <-> ¬ (itemHeight props = None ∧ estimateItemHeight props = None)) as Hok.
  { unfold validateProps.
    destruct (itemHeight props), (estimateItemHeight props); simpl;
      split; try done; try (intros _ [? ?]; done).
    intros H. destruct H. done. }
  assert (validateProps props
            = inl (Error "Please, provide either 'itemHeight' or 'estimateItemHeight' prop")
          <-> itemHeight props = None ∧ estimateItemHeight props = None) as Hthrow.
  { unfold validateProps.
    destruct (itemHeight props), (estimateItemHeight props); simpl;
      split; try done; intros [? ?]; done. }
  split; [done|]. split; [done|].
  intros cache scrollTop listHeight.
  assert ((∃ r, useFixedSizeList props cache scrollTop listHeight = inr r)
          <-> ¬ (itemHeight props = None ∧ estimateItemHeight props = None)) as Hret.
  { rewrite <- Hok. split.
    - intros (r & Hr). unfold useFixedSizeList in Hr.
      apply bind_inr in Hr as ([] & Hv & _). done.
    - intros Hv.
      destruct (useFixedSizeList_returns props cache scrollTop listHeight Hv)
        as (st & _ & _ & Hr).
      eauto. }
  split; [|done]. split.
  - intros (e & He). apply Hthrow.
    unfold useFixedSizeList in He.
    destruct (validateProps props) as [e'|[]] eqn:Hv.
    + unfold validateProps in Hv |- *.
      destruct (negb _ && negb _); [done|discriminate].
    + destruct (useFixedSizeList_returns props cache scrollTop listHeight Hv)
        as (st & _ & _ & Hr).
      unfold useFixedSizeList in Hr. rewrite Hv in Hr.
      simpl in He, Hr. congruence.
  - intros Hn%Hthrow. unfold useFixedSizeList. rewrite Hn. simpl. eauto.
Qed.

(** C3. In every pass of a validated hook, [allRows[i]] is the row of
    index [i], its height is the resolver's answer and its [offsetTop] is
    the sum of the heights of the items before it, so [offsetTop] is 0 at
    index 0 and grows by the height of the previous row; the rows handed
    back are rows of that table; [totalHeight] is the sum of all
    heights. *)
Theorem offsetTop_is_prefix_sum props cache scrollTop listHeight :
  validateProps props = inr tt ->
  ∃ st r,
    pass props cache scrollTop listHeight = inr st
    ∧ useFixedSizeList props cache scrollTop listHeight = inr r
    ∧ (∀ i, (i < elementsQuantity props)%nat ->
         ∃ row, rowOf st i = Some row
                ∧ index row = Z.of_nat i
                ∧ height row = resolvedHeight props cache (Z.of_nat i)
                ∧ offsetTop row = prefixSum (resolvedHeight props cache) i)
    ∧ (∀ row, rowOf st 0 = Some row -> offsetTop row = 0)
    ∧ (∀ i prev row, rowOf st i = Some prev -> rowOf st (S i) = Some row ->
         offsetTop row = offsetTop prev + height prev)
    ∧ (∀ row, Some row ∈ virtualItems r ->
         offsetTop row
         = prefixSum (resolvedHeight props cache) (Z.to_nat (index row)))
    ∧ r_totalHeight r
      = prefixSum (resolvedHeight props cache) (elementsQuantity props).
Proof.
  intros Hv.
  destruct (useFixedSizeList_returns props cache scrollTop listHeight Hv)
    as (st & Hp & HI & Hr).
  eexists st, _. split; [exact Hp|]. split; [exact Hr|].
  assert (∀ i row, rowOf st i = Some row ->
            (i < elementsQuantity props)%nat
            ∧ row = rowAt props (resolvedHeight props cache) i) as Hrow.
  { intros i row Hi. unfold rowOf in Hi.
    destruct (allRows st !! i) as [[row'|]|] eqn:Hl; simpl in Hi; try done.
    injection Hi as ->.
    assert (i < elementsQuantity props)%nat as Hlt.
    { rewrite <- (inv_length _ _ _ _ _ _ HI). by eapply lookup_lt_Some. }
    split; [done|].
    rewrite (inv_rows _ _ _ _ _ _ HI i Hlt) in Hl. by injection Hl as <-. }
  repeat split.
  - intros i Hi. exists (rowAt props (resolvedHeight props cache) i).
    split; [by eapply Inv_rowOf|done].
  - intros row (_ & ->)%Hrow. reflexivity.
  - intros i prev row (_ & ->)%Hrow (_ & ->)%Hrow. simpl.
    apply prefixSum_S.
  - simpl. intros row Hin%slice_subseteq.
    destruct (Inv_row_elem _ _ _ _ _ _ HI Hin) as (i & _ & ->). simpl.
    by rewrite Nat2Z.id.
  - simpl. apply (inv_total _ _ _ _ _ _ HI).
Qed.

Lemma offsetTop_is_prefix_sum_witness :
  validateProps demoProps = inr tt
  ∧ ∃ st r,
      pass demoProps ∅ 0 600 = inr st
      ∧ useFixedSizeList demoProps ∅ 0 600 = inr r
      ∧ (∀ i, (i < elementsQuantity demoProps)%nat ->
           ∃ row, rowOf st i = Some row
                  ∧ index row = Z.of_nat i
                  ∧ height row = resolvedHeight demoProps ∅ (Z.of_nat i)
                  ∧ offsetTop row = prefixSum (resolvedHeight demoProps ∅) i)
      ∧ (∀ row, rowOf st 0 = Some row -> offsetTop row = 0)
      ∧ (∀ i prev row, rowOf st i = Some prev -> rowOf st (S i) = Some row ->
           offsetTop row = offsetTop prev + height prev)
      ∧ (∀ row, Some row ∈ virtualItems r ->
           offsetTop row
           = prefixSum (resolvedHeight demoProps ∅) (Z.to_nat (index row)))
      ∧ r_totalHeight r
        = prefixSum (resolvedHeight demoProps ∅) (elementsQuantity demoProps).
Proof.
  split; [reflexivity|].
  apply (offsetTop_is_prefix_sum demoProps ∅ 0 600). reflexivity.
Defined.

(** C10. With both [itemHeight] and [estimateItemHeight] supplied, setup
    accepts the props, every height query is answered by [itemHeight], and
    the hook returns the same range, rows and total height for any two
    measurement caches, so in particular before and after any measurement
    report. *)
Theorem itemHeight_overrides_cache props f est cache cache' scrollTop listHeight :
  itemHeight props = Some f ->
  estimateItemHeight props = Some est ->
  validateProps props = inr tt
  ∧ (∀ i, getItemHeight props cache i = inr (f i))
  ∧ useFixedSizeList props cache scrollTop listHeight
    = useFixedSizeList props cache' scrollTop listHeight
  ∧ ∀ element,
      useFixedSizeList props (measureElement props element cache) scrollTop listHeight
      = useFixedSizeList props cache scrollTop listHeight.
Proof.
  intros Hf Hest.
  assert (∀ c i, getItemHeight props c i = inr (f i)) as Hget.
  { intros c i. unfold getItemHeight. by rewrite Hf. }
  assert (∀ c c', useFixedSizeList props c scrollTop listHeight
                  = useFixedSizeList props c' scrollTop listHeight) as Hsame.
  { intros c c'. unfold useFixedSizeList, rangeMemo, pass.
    rewrite (forLoop_resolver_ext props c c'); [done|].
    intros j. by rewrite !Hget. }
  split; [|split; [|split]].
  - apply validateProps_inr. left. rewrite Hf. by eexists.
  - apply Hget.
  - apply Hsame.
  - intros element. apply Hsame.
Qed.

Lemma itemHeight_overrides_cache_witness :
  itemHeight bothProps = Some (fun index => 40 + index)
  ∧ estimateItemHeight bothProps = Some (fun _ => 16)
  ∧ validateProps bothProps = inr tt
  ∧ (∀ i, getItemHeight bothProps ∅ i = inr (40 + i))
  ∧ useFixedSizeList bothProps ∅ 0 600
    = useFixedSizeList bothProps {[5 := 50]} 0 600
  ∧ ∀ element,
      useFixedSizeList bothProps (measureElement bothProps element ∅) 0 600
      = useFixedSizeList bothProps ∅ 0 600.
Proof.
  split; [reflexivity|]. split; [reflexivity|].
  apply (itemHeight_overrides_cache bothProps (fun index => 40 + index)
           (fun _ => 16) ∅ {[5 := 50]} 0 600); reflexivity.
Defined.

(** C6. Without [itemHeight], the height of an index is the cached
    measurement of its key when there is one and the estimate otherwise.
    Measuring the element of any index [i] of the list, the last one
    included, makes the hook use the measured height for [i] in every
    later call, whatever the scroll position and viewport: the hook
    returns, its [totalHeight] is the sum of the heights resolved with the
    new cache, row [i] of the table has the measured height and the row
    after it, when there is one, starts that much below row [i]; the same
    holds of the rows the hook hands back, which do hold row [i] (and row
    [i + 1]) when the returned range covers it. The key of [i] belonging
    to no other index, only the height of row [i] changes: every row
    starts at the sum of the heights before it with the measured height in
    place [i], so the rows up to [i] stay where they were and no row after
    it moves up when the measured height is the larger, or down when it is
    the smaller. *)
Theorem measured_height_replaces_estimate props est cache element (i : nat)
    scrollTop listHeight :
  itemHeight props = None ->
  estimateItemHeight props = Some est ->
  parseInt (default EmptyString (dataIndex element)) = Some (Z.of_nat i) ->
  (i < elementsQuantity props)%nat ->
  (∀ j, getItemHeight props cache j
        = inr (default (est tt) (cache !! getItemKey props j)))
  ∧ getItemHeight props (measureElement props (Some element) cache) (Z.of_nat i)
    = inr (rectHeight element)
  ∧ ∃ st st' r r',
      pass props cache scrollTop listHeight = inr st
      ∧ pass props (measureElement props (Some element) cache) scrollTop listHeight
        = inr st'
      ∧ useFixedSizeList props cache scrollTop listHeight = inr r
      ∧ useFixedSizeList props (measureElement props (Some element) cache)
          scrollTop listHeight = inr r'
      ∧ r_totalHeight r'
        = prefixSum (resolvedHeight props (measureElement props (Some element) cache))
            (elementsQuantity props)
      ∧ (∃ row,
           rowOf st' i = Some row
           ∧ height row = rectHeight element
           ∧ ((S i < elementsQuantity props)%nat ->
              ∃ next, rowOf st' (S i) = Some next
                      ∧ offsetTop next = offsetTop row + rectHeight element))
      ∧ (∀ row, Some row ∈ virtualItems r' -> index row = Z.of_nat i ->
           height row = rectHeight element)
      ∧ (∀ row next, Some row ∈ virtualItems r' -> Some next ∈ virtualItems r' ->
           index row = Z.of_nat i -> index next = Z.of_nat (S i) ->
           offsetTop next = offsetTop row + rectHeight element)
      ∧ (0 <= r_startIndex r' <= Z.of_nat i ->
         Z.of_nat i <= r_endIndex r' < Z.of_nat (elementsQuantity props) ->
         ∃ row, Some row ∈ virtualItems r'
                ∧ index row = Z.of_nat i
                ∧ height row = rectHeight element
                ∧ (Z.of_nat (S i) <= r_endIndex r' ->
                   ∃ next, Some next ∈ virtualItems r'
                           ∧ index next = Z.of_nat (S i)
                           ∧ offsetTop next = offsetTop row + rectHeight element))
      ∧ ((∀ j, (j < elementsQuantity props)%nat ->
            getItemKey props (Z.of_nat j) = getItemKey props (Z.of_nat i) -> j = i) ->
         ∀ j, (j < elementsQuantity props)%nat ->
           ∃ before after,
             rowOf st j = Some before ∧ rowOf st' j = Some after
             ∧ height after
               = (if decide (j = i) then rectHeight element else height before)
             ∧ offsetTop after
               = prefixSum (fun k => if decide (k = Z.of_nat i)
                                     then rectHeight element
                                     else resolvedHeight props cache k) j
             ∧ ((j <= i)%nat -> offsetTop after = offsetTop before)
             ∧ (resolvedHeight props cache (Z.of_nat i) <= rectHeight element ->
                offsetTop before <= offsetTop after)
             ∧ (rectHeight element <= resolvedHeight props cache (Z.of_nat i) ->
                offsetTop after <= offsetTop before)).
Proof.
  intros Hf Hest Hparse Hi.
  assert (validateProps props = inr tt) as Hv.
  { apply validateProps_inr. right. rewrite Hest. by eexists. }
  assert (∀ c j, getItemHeight props c j
                 = inr (default (est tt) (c !! getItemKey props j))) as Hget.
  { intros c j. unfold getItemHeight. rewrite Hf, Hest.
    by destruct (c !! getItemKey props j). }
  assert (measureElement props (Some element) cache
          = <[getItemKey props (Z.of_nat i) := rectHeight element]> cache) as Hm.
  { unfold measureElement. by rewrite Hparse. }
  rewrite Hm.
  set (cache' := <[getItemKey props (Z.of_nat i) := rectHeight element]> cache).
  assert (resolvedHeight props cache' (Z.of_nat i) = rectHeight element) as Hnew.
  { unfold resolvedHeight, cache'. by rewrite Hget, lookup_insert_eq. }
  split; [apply Hget|]. split.
  { rewrite Hget. unfold cache'. by rewrite lookup_insert_eq. }
  destruct (useFixedSizeList_returns props cache scrollTop listHeight Hv)
    as (st & Hp & HI & Hr).
  destruct (useFixedSizeList_returns props cache' scrollTop listHeight Hv)
    as (st' & Hp' & HI' & Hr').
  assert (∀ row, Some row ∈ slice (allRows st') (startIndex st') (endIndex st' + 1) ->
            ∃ j, (j < elementsQuantity props)%nat
                 ∧ row = rowAt props (resolvedHeight props cache') j) as Hback.
  { intros row Hin%slice_subseteq. by eapply Inv_row_elem. }
  eexists st, st', _, _.
  split; [exact Hp|]. split; [exact Hp'|]. split; [exact Hr|]. split; [exact Hr'|].
  simpl. split; [apply (inv_total _ _ _ _ _ _ HI')|]. split.
  { exists (rowAt props (resolvedHeight props cache') i).
    split; [by eapply Inv_rowOf|]. split; [exact Hnew|].
    intros HSi. exists (rowAt props (resolvedHeight props cache') (S i)).
    split; [by eapply Inv_rowOf|]. simpl. by rewrite prefixSum_S, Hnew. }
  split.
  { intros row (j & _ & ->)%Hback Hj. simpl in Hj |- *.
    apply Nat2Z.inj in Hj as ->. exact Hnew. }
  split.
  { intros row next (j & _ & ->)%Hback (k & _ & ->)%Hback Hj Hk. simpl in Hj, Hk |- *.
    apply Nat2Z.inj in Hj as ->. apply Nat2Z.inj in Hk as ->.
    by rewrite prefixSum_S, Hnew. }
  split.
  { intros Hstart Hend.
    assert (∀ j, Z.of_nat i <= Z.of_nat j <= endIndex st' ->
              Some (rowAt props (resolvedHeight props cache') j)
              ∈ slice (allRows st') (startIndex st') (endIndex st' + 1)) as Hin.
    { intros j Hj.
      destruct (slice_inclusive (allRows st') (startIndex st') (endIndex st'))
        as [_ Hlook]; [lia| |].
      { rewrite (inv_length _ _ _ _ _ _ HI'). lia. }
      apply list_elem_of_lookup. exists (j - Z.to_nat (startIndex st'))%nat.
      rewrite Hlook by lia.
      replace (Z.to_nat (startIndex st') + (j - Z.to_nat (startIndex st')))%nat
        with j by lia.
      apply (inv_rows _ _ _ _ _ _ HI'). lia. }
    exists (rowAt props (resolvedHeight props cache') i).
    split; [apply Hin; lia|]. split; [done|]. split; [exact Hnew|].
    intros HSi. exists (rowAt props (resolvedHeight props cache') (S i)).
    split; [apply Hin; lia|]. split; [done|].
    simpl. by rewrite prefixSum_S, Hnew. }
  intros Hinj.
  assert (∀ k, (k < elementsQuantity props)%nat ->
            resolvedHeight props cache' (Z.of_nat k)
            = if decide (Z.of_nat k = Z.of_nat i) then rectHeight element
              else resolvedHeight props cache (Z.of_nat k)) as Hheights.
  { intros k Hk. destruct (decide (Z.of_nat k = Z.of_nat i)) as [Heq|Hne].
    - apply Nat2Z.inj in Heq as ->. exact Hnew.
    - unfold resolvedHeight. rewrite !Hget. unfold cache'.
      rewrite lookup_insert_ne; [done|].
      intros Hkey. apply Hne. f_equal. symmetry in Hkey. by apply Hinj. }
  intros j Hj.
  exists (rowAt props (resolvedHeight props cache) j),
         (rowAt props (resolvedHeight props cache') j).
  split; [by eapply Inv_rowOf|]. split; [by eapply Inv_rowOf|].
  assert (prefixSum (resolvedHeight props cache') j
          = prefixSum (resolvedHeight props cache) j
            + (if bool_decide (i < j)%nat
               then rectHeight element - resolvedHeight props cache (Z.of_nat i)
               else 0)) as Hshift.
  { rewrite <- Hnew. apply prefixSum_shift.
    intros k Hk Hne. rewrite Hheights by lia.
    destruct (decide (Z.of_nat k = Z.of_nat i)) as [Heq|_]; [|done].
    apply Nat2Z.inj in Heq. done. }
  simpl. split.
  { rewrite Hheights by done.
    destruct (decide (Z.of_nat j = Z.of_nat i)) as [Heq|Hne], (decide (j = i));
      try done; lia. }
  split.
  { apply prefixSum_ext. intros k Hk. apply Hheights. lia. }
  rewrite Hshift. case_bool_decide; repeat split; intros; lia.
Qed.

(** The scenario of the specification: estimate 16, item 5 measured 50. *)
Lemma measured_height_replaces_estimate_witness :
  itemHeight demoProps = None
  ∧ estimateItemHeight demoProps = Some (fun _ => 16)
  ∧ parseInt (default EmptyString (dataIndex element5)) = Some (Z.of_nat 5)
  ∧ (5 < elementsQuantity demoProps)%nat
  ∧ (∀ j, getItemHeight demoProps ∅ j
          = inr (default 16 ((∅ : gmap Z Z) !! getItemKey demoProps j)))
  ∧ getItemHeight demoProps (measureElement demoProps (Some element5) ∅) (Z.of_nat 5)
    = inr 50
  ∧ ∃ st st' r r',
      pass demoProps ∅ 0 600 = inr st
      ∧ pass demoProps (measureElement demoProps (Some element5) ∅) 0 600 = inr st'
      ∧ useFixedSizeList demoProps ∅ 0 600 = inr r
      ∧ useFixedSizeList demoProps (measureElement demoProps (Some element5) ∅) 0 600
        = inr r'
      ∧ r_totalHeight r'
        = prefixSum (resolvedHeight demoProps (measureElement demoProps (Some element5) ∅))
            (elementsQuantity demoProps)
      ∧ (∃ row,
           rowOf st' 5 = Some row
           ∧ height row = 50
           ∧ ((6 < elementsQuantity demoProps)%nat ->
              ∃ next, rowOf st' 6 = Some next
                      ∧ offsetTop next = offsetTop row + 50))
      ∧ (∀ row, Some row ∈ virtualItems r' -> index row = Z.of_nat 5 ->
           height row = 50)
      ∧ (∀ row next, Some row ∈ virtualItems r' -> Some next ∈ virtualItems r' ->
           index row = Z.of_nat 5 -> index next = Z.of_nat 6 ->
           offsetTop next = offsetTop row + 50)
      ∧ (0 <= r_startIndex r' <= Z.of_nat 5 ->
         Z.of_nat 5 <= r_endIndex r' < Z.of_nat (elementsQuantity demoProps) ->
         ∃ row, Some row ∈ virtualItems r'
                ∧ index row = Z.of_nat 5
                ∧ height row = 50
                ∧ (Z.of_nat 6 <= r_endIndex r' ->
                   ∃ next, Some next ∈ virtualItems r'
                           ∧ index next = Z.of_nat 6
                           ∧ offsetTop next = offsetTop row + 50))
      ∧ ((∀ j, (j < elementsQuantity demoProps)%nat ->
            getItemKey demoProps (Z.of_nat j) = getItemKey demoProps (Z.of_nat 5) ->
            j = 5%nat) ->
         ∀ j, (j < elementsQuantity demoProps)%nat ->
           ∃ before after,
             rowOf st j = Some before ∧ rowOf st' j = Some after
             ∧ height after = (if decide (j = 5%nat) then 50 else height before)
             ∧ offsetTop after
               = prefixSum (fun k => if decide (k = Z.of_nat 5) then 50
                                     else resolvedHeight demoProps ∅ k) j
             ∧ ((j <= 5)%nat -> offsetTop after = offsetTop before)
             ∧ (resolvedHeight demoProps ∅ (Z.of_nat 5) <= 50 ->
                offsetTop before <= offsetTop after)
             ∧ (50 <= resolvedHeight demoProps ∅ (Z.of_nat 5) ->
                offsetTop after <= offsetTop before)).
Proof.
  split; [reflexivity|]. split; [reflexivity|]. split; [reflexivity|].
  split; [unfold demoProps, ELEMENTS_QUANTITY; simpl; lia|].
  apply (measured_height_replaces_estimate demoProps (fun _ => 16) ∅ element5 5 0 600);
    [reflexivity|reflexivity|reflexivity|unfold demoProps, ELEMENTS_QUANTITY; simpl; lia].
Defined.

(** In that scenario the hook hands back rows 5 and 6: row 5 is 50 high
    and starts at 80, row 6 starts at 130. *)
Example measured_scenario_rows :
  ∃ r', useFixedSizeList demoProps (measureElement demoProps (Some element5) ∅) 0 600
        = inr r'
        ∧ virtualItems r' !! 5%nat
          = Some (Some {| key := 5; height := 50; offsetTop := 80; index := 5 |})
        ∧ virtualItems r' !! 6%nat
          = Some (Some {| key := 6; height := 16; offsetTop := 130; index := 6 |}).
Proof. eexists. split; [vm_compute; reflexivity|]. split; vm_compute; reflexivity. Qed.

End SizeResolver.


(** *** The visible range *)

Module RangeCalculator.
Import DynamicHeight DynamicHeightFacts RangeFacts Examples.

Lemma div_between (a h i : Z) :
  0 < h -> i * h <= a < (i + 1) * h -> a / h = i.
Proof.
  intros Hh Ha. symmetry. apply (Z.div_unique_pos a h i (a - i * h)); lia.
Qed.

Lemma ceilDiv_between (a h i : Z) :
  0 < h -> i * h < a <= (i + 1) * h -> ceilDiv a h = i + 1.
Proof.
  intros Hh Ha. unfold ceilDiv.
  rewrite (div_between (- a) h (- (i + 1))); lia.
Qed.

(** The slice taken once the bottom edge was never reached is empty. *)
Lemma slice_to_zero {A} (l : list A) (start : Z) : slice l start 0 = [].
Proof.
  unfold slice.
  assert (∀ len k, 0 <= len -> 0 <= relativeIndex len k) as Hnonneg.
  { intros len k Hlen. unfold relativeIndex. destruct (Z.ltb_spec k 0); lia. }
  assert (relativeIndex (Z.of_nat (length l)) 0 = 0) as ->.
  { unfold relativeIndex. simpl. lia. }
  specialize (Hnonneg (Z.of_nat (length l)) start ltac:(lia)).
  replace (Z.to_nat (Z.max (0 - relativeIndex (Z.of_nat (length l)) start) 0))
    with 0%nat by lia.
  reflexivity.
Qed.

(** C4. The scenario of the specification, as the pass computes it: 1000
    items of height 40, overscan 3, a viewport of 600 at offset 0. Row 14
    is the first whose bottom edge reaches 600, so the range ends at
    14 + 3 = 17; it starts at 0 and the total height is 40000. *)
Theorem scenario_1000_items :
  ∃ r, useFixedSizeList (fixedProps 1000 40 3) ∅ 0 600 = inr r
       ∧ r_startIndex r = 0
       ∧ r_endIndex r = 17
       ∧ r_totalHeight r = 40000.
Proof. eexists. split; [vm_compute; reflexivity|]. simpl. done. Qed.

(** C4 as the specification states it, with [endIndex = 18], does not
    hold of the hook. *)
Lemma scenario_1000_items_endIndex_not_18 :
  ¬ ∃ r, useFixedSizeList (fixedProps 1000 40 3) ∅ 0 600 = inr r
         ∧ r_startIndex r = 0
         ∧ r_endIndex r = 18
         ∧ r_totalHeight r = 40000.
Proof.
  intros (r & Hr & _ & He & _).
  vm_compute in Hr. injection Hr as <-. simpl in He. discriminate.
Qed.

(** With a constant height the table of offsets is a multiplication. *)
Lemma prefixSum_fixed props f h cache (k : nat) :
  itemHeight props = Some f -> (∀ i, f i = h) ->
  prefixSum (resolvedHeight props cache) k = Z.of_nat k * h.
Proof.
  intros Hf Hh. rewrite <- prefixSum_const. apply prefixSum_ext.
  intros j _. unfold resolvedHeight, getItemHeight. rewrite Hf. simpl. apply Hh.
Qed.

(** C2. Under a Fixed strategy whose height [h > 0], scroll offset and
    viewport size are integers, the content no taller than
    [MAX_SAFE_INTEGER], with the top edge inside the content and the bottom
    edge not past its end, the pass returns
    [startIndex = max(0, floor(scrollOffset/h) - overscan)] and
    [totalHeight = itemCount * h], as the fast path does, and
    [endIndex = min(itemCount-1, ceil((scrollOffset+viewportSize)/h) - 1 + overscan)]:
    the row that holds the bottom edge, not the one after it. For a height
    that is not an integer the pass adds rounded doubles and can leave the
    closed form by a row; such heights are outside this statement. *)
Theorem fixed_height_pass_closed_form props f (h : Z) cache (scrollTop listHeight : Z) :
  itemHeight props = Some f ->
  (∀ i, f i = h) ->
  0 < h ->
  Z.of_nat (elementsQuantity props) * h <= MAX_SAFE_INTEGER ->
  0 <= overscan' props ->
  0 <= scrollTop < Z.of_nat (elementsQuantity props) * h ->
  0 < scrollTop + listHeight <= Z.of_nat (elementsQuantity props) * h ->
  ∃ r, useFixedSizeList props cache scrollTop listHeight = inr r
       ∧ r_startIndex r
         = (fastPath (Z.of_nat (elementsQuantity props)) h scrollTop listHeight
              (overscan' props)).1.1
       ∧ r_endIndex r
         = Z.min (Z.of_nat (elementsQuantity props) - 1)
                 (ceilDiv (scrollTop + listHeight) h - 1 + overscan' props)
       ∧ r_totalHeight r
         = (fastPath (Z.of_nat (elementsQuantity props)) h scrollTop listHeight
              (overscan' props)).2.
Proof.
  intros Hf Hfh Hh _ Ho Htop Hbottom.
  assert (validateProps props = inr tt) as Hv.
  { apply validateProps_inr. left. rewrite Hf. by eexists. }
  destruct (useFixedSizeList_returns props cache scrollTop listHeight Hv)
    as (st & _ & HI & Hr).
  eexists. split; [exact Hr|]. simpl.
  pose proof (fun k => prefixSum_fixed props f h cache k Hf Hfh) as Hps.
  set (n := elementsQuantity props) in *.
  assert (0 < n)%nat as Hn by (destruct n; [lia|lia]).
  split; [|split].
  - destruct (decide (startIndex st = -1)) as [Hs|Hs].
    + pose proof (inv_start_none _ _ _ _ _ _ HI Hs (n - 1)%nat ltac:(lia)) as Hle.
      rewrite Hps in Hle. replace (S (n - 1)) with n in Hle by lia. lia.
    + destruct (inv_start_some _ _ _ _ _ _ HI Hs) as (i & Hi & [HP Hfirst] & ->).
      f_equal. f_equal. symmetry. apply div_between; [done|].
      rewrite Hps, Nat2Z.inj_succ in HP. split; [|lia].
      destruct i as [|i]; [lia|].
      specialize (Hfirst i ltac:(lia)). cbv beta in Hfirst.
      rewrite Hps in Hfirst. lia.
  - destruct (inv_end_some _ _ _ _ _ _ HI Ho) as [[_ Hall]|(i & Hi & [HP Hfirst] & ->)].
    + specialize (Hall (n - 1)%nat ltac:(lia)).
      rewrite Hps in Hall. replace (S (n - 1)) with n in Hall by lia. lia.
    + f_equal. cbv beta in HP. rewrite Hps, Nat2Z.inj_succ in HP.
      rewrite (ceilDiv_between (scrollTop + listHeight) h (Z.of_nat i)); [lia|done|].
      split; [|lia].
      destruct i as [|i]; [lia|].
      specialize (Hfirst i ltac:(lia)). cbv beta in Hfirst.
      rewrite Hps in Hfirst. lia.
  - rewrite (inv_total _ _ _ _ _ _ HI). apply Hps.
Qed.

Lemma fixed_height_pass_closed_form_witness :
  itemHeight (fixedProps 100 35 1) = Some (fun _ => 35)
  ∧ (∀ i : Z, (fun _ : Z => 35) i = 35)
  ∧ 0 < 35
  ∧ Z.of_nat (elementsQuantity (fixedProps 100 35 1)) * 35 <= MAX_SAFE_INTEGER
  ∧ 0 <= overscan' (fixedProps 100 35 1)
  ∧ 0 <= 70 < Z.of_nat (elementsQuantity (fixedProps 100 35 1)) * 35
  ∧ 0 < 70 + 105 <= Z.of_nat (elementsQuantity (fixedProps 100 35 1)) * 35
  ∧ ∃ r, useFixedSizeList (fixedProps 100 35 1) ∅ 70 105 = inr r
         ∧ r_startIndex r
           = (fastPath (Z.of_nat (elementsQuantity (fixedProps 100 35 1))) 35 70 105
                (overscan' (fixedProps 100 35 1))).1.1
         ∧ r_endIndex r
           = Z.min (Z.of_nat (elementsQuantity (fixedProps 100 35 1)) - 1)
                   (ceilDiv (70 + 105) 35 - 1 + overscan' (fixedProps 100 35 1))
         ∧ r_totalHeight r
           = (fastPath (Z.of_nat (elementsQuantity (fixedProps 100 35 1))) 35 70 105
                (overscan' (fixedProps 100 35 1))).2.
Proof.
  split; [reflexivity|]. split; [reflexivity|]. split; [lia|].
  split; [vm_compute; discriminate|].
  split; [vm_compute; discriminate|]. split; [vm_compute; split; [discriminate|reflexivity]|].
  split; [vm_compute; split; [reflexivity|discriminate]|].
  apply (fixed_height_pass_closed_form (fixedProps 100 35 1) (fun _ => 35) 35 ∅ 70 105).
  - reflexivity.
  - reflexivity.
  - lia.
  - vm_compute; discriminate.
  - vm_compute; discriminate.
  - vm_compute; split; [discriminate|reflexivity].
  - vm_compute; split; [reflexivity|discriminate].
Defined.

(** C2 as the specification states it fails on 100 items of height 35,
    overscan 1, offset 70 and a viewport of 105: the pass ends the range
    at 5, the fast path at 6. *)
Lemma fastPath_differs_from_pass :
  ∃ r, useFixedSizeList (fixedProps 100 35 1) ∅ 70 105 = inr r
       ∧ (r_startIndex r, r_endIndex r, r_totalHeight r) = (1, 5, 3500)
       ∧ fastPath 100 35 70 105 1 = (1, 6, 3500)
       ∧ (r_startIndex r, r_endIndex r, r_totalHeight r) ≠ fastPath 100 35 70 105 1.
Proof.
  eexists. split; [vm_compute; reflexivity|]. simpl.
  split; [reflexivity|]. split; [reflexivity|]. vm_compute. discriminate.
Qed.

(** Where the range is well formed: any heights, a non-negative overscan,
    the top edge above the end of the content and a non-empty viewport that
    does not reach past it. *)
Lemma range_within_bounds props cache scrollTop listHeight :
  validateProps props = inr tt ->
  0 <= overscan' props ->
  0 <= scrollTop < prefixSum (resolvedHeight props cache) (elementsQuantity props) ->
  0 < listHeight ->
  scrollTop + listHeight
    <= prefixSum (resolvedHeight props cache) (elementsQuantity props) ->
  ∃ r, useFixedSizeList props cache scrollTop listHeight = inr r
       ∧ 0 <= r_startIndex r <= r_endIndex r
       ∧ r_endIndex r <= Z.of_nat (elementsQuantity props) - 1.
Proof.
  intros Hv Ho Htop Hview Hbottom.
  destruct (useFixedSizeList_returns props cache scrollTop listHeight Hv)
    as (st & _ & HI & Hr).
  eexists. split; [exact Hr|]. simpl.
  assert (0 < elementsQuantity props)%nat as Hn.
  { destruct (elementsQuantity props); [|lia].
    unfold prefixSum in Htop, Hbottom. lia. }
  set (n := elementsQuantity props) in *.
  destruct (decide (startIndex st = -1)) as [Hs|Hs].
  { pose proof (inv_start_none _ _ _ _ _ _ HI Hs (n - 1)%nat ltac:(lia)) as Hle.
    replace (S (n - 1)) with n in Hle by lia. lia. }
  destruct (inv_start_some _ _ _ _ _ _ HI Hs) as (i & Hi & [HPi Hfi] & ->).
  destruct (inv_end_some _ _ _ _ _ _ HI Ho) as [[_ Hall]|(e & He & [HPe Hfe] & ->)].
  { specialize (Hall (n - 1)%nat ltac:(lia)).
    replace (S (n - 1)) with n in Hall by lia. lia. }
  assert (i <= e)%nat as Hie.
  { destruct (decide (i <= e)%nat) as [|Hgt]; [done|].
    exfalso. apply (Hfi e); [lia|]. cbv beta in HPe |- *. lia. }
  lia.
Qed.

(** C5. When no row's bottom edge reaches [scrollTop + listHeight], the
    [endIndex] the hook returns is the initial [-1], which for a list that
    has items is not [elementsQuantity - 1], and the slice it hands back is
    empty. *)
Theorem endIndex_unset_past_last_item props cache scrollTop listHeight :
  validateProps props = inr tt ->
  (∀ i, (i < elementsQuantity props)%nat ->
        prefixSum (resolvedHeight props cache) (S i) < scrollTop + listHeight) ->
  ∃ r, useFixedSizeList props cache scrollTop listHeight = inr r
       ∧ r_endIndex r = -1
       ∧ ((0 < elementsQuantity props)%nat ->
          r_endIndex r ≠ Z.of_nat (elementsQuantity props) - 1)
       ∧ virtualItems r = [].
Proof.
  intros Hv Hnever.
  destruct (useFixedSizeList_returns props cache scrollTop listHeight Hv)
    as (st & _ & HI & Hr).
  eexists. split; [exact Hr|]. simpl.
  pose proof (inv_end_none _ _ _ _ _ _ HI Hnever) as He.
  split; [done|]. split; [lia|]. rewrite He. simpl. apply slice_to_zero.
Qed.

Lemma endIndex_unset_past_last_item_witness :
  validateProps (fixedProps 3 40 3) = inr tt
  ∧ (∀ i, (i < elementsQuantity (fixedProps 3 40 3))%nat ->
          prefixSum (resolvedHeight (fixedProps 3 40 3) ∅) (S i) < 0 + 600)
  ∧ ∃ r, useFixedSizeList (fixedProps 3 40 3) ∅ 0 600 = inr r
         ∧ r_endIndex r = -1
         ∧ ((0 < elementsQuantity (fixedProps 3 40 3))%nat ->
            r_endIndex r ≠ Z.of_nat (elementsQuantity (fixedProps 3 40 3)) - 1)
         ∧ virtualItems r = [].
Proof.
  assert (∀ i, (i < elementsQuantity (fixedProps 3 40 3))%nat ->
               prefixSum (resolvedHeight (fixedProps 3 40 3) ∅) (S i) < 0 + 600) as H.
  { intros i Hi. simpl in Hi.
    destruct i as [|[|[|i]]]; [reflexivity|reflexivity|reflexivity|lia]. }
  split; [reflexivity|]. split; [exact H|].
  apply (endIndex_unset_past_last_item (fixedProps 3 40 3) ∅ 0 600);
    [reflexivity|exact H].
Defined.

(** C1. Three items of height 40 and overscan 3. Under a viewport of 600
    the bottom edge is never reached and [endIndex] is returned as [-1];
    scrolled to the end of the content (offset 120) the top edge is never
    reached and [startIndex] is returned as [-1]. With overscan 0 and an
    empty viewport on a row boundary the range comes back inverted. The
    fixed-height hook clamps [endIndex] to [list.length], one past the last
    index. *)
Theorem range_indices_escape_bounds :
  (∃ r, useFixedSizeList (fixedProps 3 40 3) ∅ 0 600 = inr r
        ∧ r_startIndex r = 0 ∧ r_endIndex r = -1)
  ∧ (∃ r, useFixedSizeList (fixedProps 3 40 3) ∅ 120 0 = inr r
          ∧ r_startIndex r = -1 ∧ r_endIndex r = 2)
  ∧ (∃ r, useFixedSizeList (fixedProps 10 40 0) ∅ 40 0 = inr r
          ∧ r_startIndex r = 1 ∧ r_endIndex r = 0)
  ∧ (Simple.rangeMemo (simpleProps 25 40 None) Simple.items 399990).1 = (9997, 10000)
  ∧ Z.of_nat (length Simple.items) = 10000.
Proof.
  split; [eexists; split; [vm_compute; reflexivity|by simpl]|].
  split; [eexists; split; [vm_compute; reflexivity|by simpl]|].
  split; [eexists; split; [vm_compute; reflexivity|by simpl]|].
  split; vm_compute; reflexivity.
Qed.

(** The fixed-height hook on the scenario of C4: it takes the square of
    the item height for the height of the container, so at offset 0 its
    range ends at [round(1600/40) + 3 = 43]; what it calls [totalHeight] is
    [elementHeight * elementQuantity]. *)
Lemma Simple_scenario :
  (Simple.rangeMemo (simpleProps 1000 40 None) Simple.items 0).1 = (0, 43)
  ∧ Simple.totalHeight (simpleProps 1000 40 None) = 40000.
Proof. split; vm_compute; reflexivity. Qed.

End RangeCalculator.


(** *** The scrolling flag and its timer *)

Module ScrollState.
Import Examples.

Lemma DynamicHeight_handleScroll_restartTimer props w :
  DynamicHeight.handleScroll props w
  = restartTimer DynamicHeight.SCROLLING_DELAY w.
Proof. reflexivity. Qed.

Lemma Simple_handleScroll_restartTimer props w :
  Simple.handleScroll props w
  = restartTimer (Simple.scrollingDelay' props) (setScrollTop (elementScrollTop w) w).
Proof. reflexivity. Qed.

Lemma filter_none {A} (P : A -> Prop) `{∀ x, Decision (P x)} (l : list A) :
  (∀ x, x ∈ l -> ¬ P x) -> filter P l = [].
Proof.
  induction l as [|x l IH]; intros Hl; [done|].
  rewrite filter_cons. destruct (decide (P x)) as [HP|_].
  - exfalso. apply (Hl x); [left|done].
  - apply IH. intros y Hy. apply Hl. by right.
Qed.

(** A scroll notification leaves exactly one pending timer, due one window
    after the notification, and raises the flag. *)
Lemma restartTimer_spec delay w :
  OneTimer w ->
  Timers.pending (timers (restartTimer delay w))
    = [(Timers.nextId (timers w), Timers.clock (timers w) + Z.max 0 delay)]
  ∧ timeoutId (restartTimer delay w) = Some (Timers.nextId (timers w))
  ∧ Timers.clock (timers (restartTimer delay w)) = Timers.clock (timers w)
  ∧ Timers.nextId (timers (restartTimer delay w)) = Timers.nextId (timers w) + 1
  ∧ mounted (restartTimer delay w) = mounted w
  ∧ (mounted w = true -> isScrolling (restartTimer delay w) = true).
Proof.
  intros [Hid Hone].
  assert (Timers.pending
            (timers (if truthy (timeoutId w)
                     then windowClearTimeout (default 0 (timeoutId w)) (setIsScrolling true w)
                     else setIsScrolling true w)) = []) as Hcleared.
  { destruct (timeoutId w) as [id|] eqn:Hto; simpl.
    - destruct (Z.eqb_spec id 0) as [->|Hne]; simpl.
      + destruct (Timers.pending (timers w)) as [|p l] eqn:Hp; [done|].
        destruct (Hone p ltac:(left)) as [Heq Hnz]. congruence.
      + apply filter_none. intros p Hp Hfst.
        destruct (Hone p Hp) as [Heq _]. congruence.
    - destruct (Timers.pending (timers w)) as [|p l] eqn:Hp; [done|].
      destruct (Hone p ltac:(left)) as [Heq _]. discriminate. }
  unfold restartTimer. simpl.
  destruct (truthy (timeoutId w)); simpl in *; rewrite ?Hcleared; simpl;
    repeat split; try done; intros ->; done.
Qed.

Lemma restartTimer_OneTimer delay w :
  OneTimer w -> OneTimer (restartTimer delay w).
Proof.
  intros Hw. destruct (restartTimer_spec delay w Hw) as (Hp & Hto & _ & Hn & _).
  destruct Hw as [Hid _]. split; [lia|].
  intros p. rewrite Hp, Hto. intros ->%list_elem_of_singleton. simpl.
  split; [done|lia].
Qed.

Lemma elapse_OneTimer dt w : OneTimer w -> OneTimer (elapse dt w).
Proof.
  intros [Hid Hone].
  assert (∀ fired w1, OneTimer w1 ->
            OneTimer (foldl (fun acc (_ : Z * Z) => setIsScrolling false acc) w1 fired))
    as Hfold.
  { intros fired. induction fired as [|x fired IH]; intros w1 Hw1; simpl; [done|].
    apply IH. exact Hw1. }
  unfold elapse. apply Hfold. split; [exact Hid|].
  simpl. intros p [_ Hp]%list_elem_of_filter. by apply Hone.
Qed.

Lemma elapse_timers dt w : timers (elapse dt w) = Timers.advance dt (timers w).
Proof.
  unfold elapse.
  assert (∀ fired w1,
            timers (foldl (fun acc (_ : Z * Z) => setIsScrolling false acc) w1 fired)
            = timers w1) as Hfold.
  { intros fired. induction fired as [|x fired IH]; intros w1; simpl; [done|].
    by rewrite IH. }
  by rewrite Hfold.
Qed.

(** The flag once [dt] has passed over a single pending timer. *)
Lemma elapse_single dt w id due :
  Timers.pending (timers w) = [(id, due)] ->
  mounted w = true ->
  isScrolling (elapse dt w)
  = (if bool_decide (due <= Timers.clock (timers w) + dt) then false else isScrolling w)
  ∧ Timers.pending (timers (elapse dt w))
    = (if bool_decide (due <= Timers.clock (timers w) + dt) then [] else [(id, due)])
  ∧ Timers.clock (timers (elapse dt w)) = Timers.clock (timers w) + dt.
Proof.
  intros Hp Hm. unfold elapse, Timers.due, Timers.advance. rewrite Hp.
  rewrite !filter_cons, !filter_nil. simpl.
  destruct (decide (due <= Timers.clock (timers w) + dt)) as [Hdue|Hdue];
    destruct (decide (¬ due <= Timers.clock (timers w) + dt)) as [Hnot|Hnot];
    try (exfalso; tauto).
  - rewrite bool_decide_eq_true_2 by done. simpl. by rewrite Hm.
  - rewrite bool_decide_eq_false_2 by done. done.
Qed.

(** Trailing debounce with a window of [delay]: after a notification the
    flag is up, and [dt] later it is still up exactly when [dt] is shorter
    than the window. *)
Lemma debounce_window delay w dt :
  OneTimer w -> mounted w = true ->
  isScrolling (restartTimer delay w) = true
  ∧ isScrolling (elapse dt (restartTimer delay w)) = bool_decide (dt < Z.max 0 delay).
Proof.
  intros Hw Hm.
  destruct (restartTimer_spec delay w Hw) as (Hp & _ & Hc & _ & Hm' & Hs).
  split; [by apply Hs|].
  destruct (elapse_single dt _ _ _ Hp ltac:(congruence)) as (-> & _).
  rewrite Hc, (Hs Hm).
  repeat case_bool_decide; try done; lia.
Qed.

(** A notification that arrives before expiry replaces the pending timer:
    one timer remains, due one window after the later notification. *)
Lemma debounce_restart delay w dt :
  OneTimer w ->
  Timers.pending (timers (restartTimer delay (elapse dt (restartTimer delay w))))
  = [(Timers.nextId (timers w) + 1, Timers.clock (timers w) + dt + Z.max 0 delay)].
Proof.
  intros Hw.
  pose proof (elapse_OneTimer dt _ (restartTimer_OneTimer delay w Hw)) as Hw'.
  destruct (restartTimer_spec delay _ Hw') as (-> & _).
  destruct (restartTimer_spec delay w Hw) as (_ & _ & Hc & Hn & _).
  rewrite elapse_timers. unfold Timers.advance.
  cbn [Timers.clock Timers.nextId]. by rewrite Hn, Hc.
Qed.

(** The window of [useFixedSizeList] is the constant, whatever the props. *)
Lemma DynamicHeight_window_is_constant props w dt :
  OneTimer w -> mounted w = true ->
  isScrolling (DynamicHeight.handleScroll props w) = true
  ∧ isScrolling (elapse dt (DynamicHeight.handleScroll props w))
    = bool_decide (dt < DynamicHeight.SCROLLING_DELAY).
Proof.
  intros Hw Hm. rewrite DynamicHeight_handleScroll_restartTimer.
  apply (debounce_window DynamicHeight.SCROLLING_DELAY w dt Hw Hm).
Qed.

Lemma DynamicHeight_run_ignores_scrollingDelay props delay events :
  DynamicHeight.runHook
    {| DynamicHeight.itemHeight := DynamicHeight.itemHeight props;
       DynamicHeight.elementsQuantity := DynamicHeight.elementsQuantity props;
       DynamicHeight.getItemKey := DynamicHeight.getItemKey props;
       DynamicHeight.estimateItemHeight := DynamicHeight.estimateItemHeight props;
       DynamicHeight.getScrollElement := DynamicHeight.getScrollElement props;
       DynamicHeight.scrollingDelay := delay;
       DynamicHeight.overscan := DynamicHeight.overscan props |} events
  = DynamicHeight.runHook props events.
Proof. reflexivity. Qed.

(** The window of [useFixedListSize] is its [scrollingDelay] prop. *)
Lemma Simple_window_is_scrollingDelay props w dt :
  OneTimer w -> mounted w = true ->
  isScrolling (Simple.handleScroll props w) = true
  ∧ isScrolling (elapse dt (Simple.handleScroll props w))
    = bool_decide (dt < Z.max 0 (Simple.scrollingDelay' props)).
Proof.
  intros Hw Hm. rewrite Simple_handleScroll_restartTimer.
  apply debounce_window; [|by simpl; rewrite Hm].
  destruct Hw as [Hid Hone]. split; [exact Hid|exact Hone].
Qed.

(** C8. [useFixedSizeList] asked for a window of 500: a scroll
    notification raises the flag at once and the flag is still up 149
    time-units later, but it drops after 150, the [SCROLLING_DELAY]
    constant, and a second notification at 100 moves the drop to 250; the
    500 asked for plays no part. [useFixedListSize] given the same 500
    keeps the flag up at 150 and at 499 and drops it at 500. *)
Theorem isScrolling_window_ignores_prop :
  DynamicHeight.scrollingDelay delayedProps = Some 500
  ∧ isScrolling (DynamicHeight.runHook delayedProps []) = false
  ∧ isScrolling (DynamicHeight.runHook delayedProps [Scroll 10]) = true
  ∧ isScrolling (DynamicHeight.runHook delayedProps [Scroll 10; Elapse 149]) = true
  ∧ isScrolling (DynamicHeight.runHook delayedProps [Scroll 10; Elapse 150]) = false
  ∧ isScrolling (DynamicHeight.runHook delayedProps
                   [Scroll 10; Elapse 100; Scroll 20; Elapse 149]) = true
  ∧ isScrolling (DynamicHeight.runHook delayedProps
                   [Scroll 10; Elapse 100; Scroll 20; Elapse 150]) = false
  ∧ isScrolling (Simple.runHook (simpleProps 25 35 (Some 500))
                   [Scroll 10; Elapse 150]) = true
  ∧ isScrolling (Simple.runHook (simpleProps 25 35 (Some 500))
                   [Scroll 10; Elapse 499]) = true
  ∧ isScrolling (Simple.runHook (simpleProps 25 35 (Some 500))
                   [Scroll 10; Elapse 500]) = false.
Proof. repeat split; vm_compute; reflexivity. Qed.

(** Setters called on an unmounted hook only count as stale calls. *)
Lemma stale_timer_callbacks (fired : list (Z * Z)) w :
  mounted w = false ->
  staleCalls (foldl (fun acc _ => setIsScrolling false acc) w fired)
  = (staleCalls w + length fired)%nat
  ∧ isScrolling (foldl (fun acc _ => setIsScrolling false acc) w fired)
    = isScrolling w.
Proof.
  revert w. induction fired as [|x fired IH]; intros w Hm; simpl.
  - split; [lia|done].
  - destruct (IH (setIsScrolling false w)) as [-> ->]; [by simpl|].
    simpl. rewrite Hm. split; [lia|done].
Qed.

Lemma removeListener_not_elem h ls : h ∉ removeListener h ls.
Proof. unfold removeListener. intros [Hne _]%list_elem_of_filter. done. Qed.

Lemma removeListener_subseteq h h' ls : h' ∈ removeListener h ls -> h' ∈ ls.
Proof. unfold removeListener. by intros [_ ?]%list_elem_of_filter. Qed.

(** C9, as the code has it. The scroll effects of [useFixedSizeList]
    without a scroll element subscribe nothing, start no timer and have
    nothing to clean up. With one, teardown unsubscribes both scroll
    handlers and leaves the timer queue as it was: later scroll
    notifications change neither the flag nor the queue, and every timer
    that was pending at teardown still runs its callback when due, as a
    call on the unmounted hook. *)
Theorem teardown_unsubscribes_only props w :
  (DynamicHeight.getScrollElement props = false ->
     DynamicHeight.mountEffects props w = w
     ∧ DynamicHeight.cleanupEffects props w = w)
  ∧ (DynamicHeight.getScrollElement props = true ->
     (ConfigureIsScrolling
        ∉ elementListeners (unmount (DynamicHeight.cleanupEffects props) w))
     ∧ (SyncScrollTop
          ∉ elementListeners (unmount (DynamicHeight.cleanupEffects props) w))
     ∧ timers (unmount (DynamicHeight.cleanupEffects props) w) = timers w
     ∧ (∀ position,
          timers (dispatchScroll (DynamicHeight.handle props) position
                    (unmount (DynamicHeight.cleanupEffects props) w))
          = timers w
          ∧ isScrolling (dispatchScroll (DynamicHeight.handle props) position
                           (unmount (DynamicHeight.cleanupEffects props) w))
            = isScrolling w)
     ∧ ∀ dt,
         staleCalls (elapse dt (unmount (DynamicHeight.cleanupEffects props) w))
         = (staleCalls w
            + length (Timers.due (Timers.clock (timers w) + dt) (timers w)))%nat).
Proof.
  split.
  - intros Hno. unfold DynamicHeight.mountEffects, DynamicHeight.cleanupEffects.
    by rewrite Hno.
  - intros Hel. unfold unmount, DynamicHeight.cleanupEffects. rewrite Hel. simpl.
    split; [apply removeListener_not_elem|].
    split.
    { intros Hin%removeListener_subseteq. by apply removeListener_not_elem in Hin. }
    split; [done|]. split.
    + intros position. unfold dispatchScroll. simpl.
      set (ls := removeListener ConfigureIsScrolling
                   (removeListener SyncScrollTop (elementListeners w))).
      assert (∀ h, h ∈ ls -> h = SimpleHandleScroll) as Hls.
      { intros h Hh. destruct h; [| |done].
        - apply removeListener_subseteq in Hh.
          by apply removeListener_not_elem in Hh.
        - by apply removeListener_not_elem in Hh. }
      assert (∀ l w1, (∀ h, h ∈ l -> h = SimpleHandleScroll) ->
                foldl (fun acc h => DynamicHeight.handle props h acc) w1 l = w1) as Hfold.
      { intros l. induction l as [|h l IH]; intros w1 Hl; simpl; [done|].
        rewrite (Hl h ltac:(left)). simpl. apply IH.
        intros h' Hh'. apply Hl. by right. }
      rewrite Hfold by done. done.
    + intros dt. unfold elapse.
      destruct (stale_timer_callbacks
                  (Timers.due (Timers.clock (timers w) + dt) (timers w))
                  (withTimers (Timers.advance dt (timers w))
                     {| timers := timers w;
                        elementScrollTop := elementScrollTop w;
                        elementListeners :=
                          removeListener ConfigureIsScrolling
                            (removeListener SyncScrollTop (elementListeners w));
                        windowListeners := windowListeners w;
                        mounted := false;
                        scrollTopState := scrollTopState w;
                        isScrolling := isScrolling w;
                        timeoutId := timeoutId w;
                        staleCalls := staleCalls w |})) as [Hs _]; [done|].
      exact Hs.
Qed.

Lemma absent_scroll_element_run :
  elementListeners (DynamicHeight.runHook unmountedProps [Elapse 150; Unmount; Elapse 150])
    = []
  ∧ Timers.pending
      (timers (DynamicHeight.runHook unmountedProps [Elapse 150; Unmount; Elapse 150]))
    = []
  ∧ staleCalls (DynamicHeight.runHook unmountedProps [Elapse 150; Unmount; Elapse 150])
    = 0%nat.
Proof. repeat split; vm_compute; reflexivity. Qed.

(** C9 as the specification states it fails on a scroll followed by
    teardown: the timer started by the scroll is still in the queue, and
    150 time-units later its callback has run on the unmounted hook. *)
Lemma pending_timer_survives_teardown :
  Timers.pending (timers (DynamicHeight.runHook demoProps [Scroll 10; Unmount]))
    = [(1, 150)]
  ∧ mounted (DynamicHeight.runHook demoProps [Scroll 10; Unmount]) = false
  ∧ staleCalls (DynamicHeight.runHook demoProps [Scroll 10; Unmount]) = 0%nat
  ∧ staleCalls (DynamicHeight.runHook demoProps [Scroll 10; Unmount; Elapse 150])
    = 1%nat.
Proof. repeat split; vm_compute; reflexivity. Qed.

(** The cleanup of [useFixedListSize] names [window], where the handler
    was never registered: the element keeps notifying the handler after
    teardown, which keeps starting timers. *)
Lemma Simple_cleanup_keeps_element_listener :
  elementListeners (Simple.runHook (simpleProps 25 35 None) [Unmount])
    = [SimpleHandleScroll]
  ∧ Timers.pending (timers (Simple.runHook (simpleProps 25 35 None)
                              [Unmount; Elapse 100; Scroll 10]))
    = [(2, 200)].
Proof. split; vm_compute; reflexivity. Qed.

End ScrollState.


(** ** Further properties of the code *)

(** *** The window the pass returns *)

Module RangeWindow.
Import DynamicHeight DynamicHeightFacts RangeFacts Examples.

Lemma prefixSum_mono (f : Z -> Z) (a b : nat) :
  (∀ i, (i < b)%nat -> 0 <= f (Z.of_nat i)) ->
  (a <= b)%nat -> prefixSum f a <= prefixSum f b.
Proof.
  intros Hf Hab. induction b as [|b IH].
  - replace a with 0%nat by lia. lia.
  - destruct (decide (a = S b)) as [->|Hne]; [lia|].
    rewrite prefixSum_S.
    specialize (IH ltac:(intros; apply Hf; lia) ltac:(lia)).
    specialize (Hf b ltac:(lia)). lia.
Qed.

(** [slice(-1, stop)] holds at most the last element. *)
Lemma slice_from_minus_one {A} (l : list A) (stop : Z) :
  (length (slice l (-1) stop) <= 1)%nat
  ∧ ∀ k x, slice l (-1) stop !! k = Some x -> l !! (length l - 1)%nat = Some x.
Proof.
  unfold slice. change (relativeIndex (Z.of_nat (length l)) (-1))
    with (Z.max (Z.of_nat (length l) + -1) 0).
  assert (relativeIndex (Z.of_nat (length l)) stop <= Z.of_nat (length l)) as Hfinal.
  { unfold relativeIndex. destruct (Z.ltb_spec stop 0); lia. }
  set (final := relativeIndex (Z.of_nat (length l)) stop) in *.
  split.
  - rewrite length_take, length_drop. lia.
  - intros k x Hk.
    assert (k < Z.to_nat (Z.max (final - Z.max (Z.of_nat (length l) + -1) 0) 0))%nat
      as Hlt.
    { apply lookup_lt_Some in Hk. rewrite length_take in Hk. lia. }
    rewrite lookup_take_lt, lookup_drop in Hk by done.
    assert (Z.to_nat (Z.max (Z.of_nat (length l) + -1) 0) + k < length l)%nat as Hin.
    { by apply lookup_lt_Some in Hk. }
    replace (length l - 1)%nat
      with (Z.to_nat (Z.max (Z.of_nat (length l) + -1) 0) + k)%nat by lia.
    exact Hk.
Qed.

(** The two edges, when both are found. *)
Lemma edges_found props cache scrollTop listHeight :
  validateProps props = inr tt ->
  0 <= overscan' props ->
  (∃ i, (i < elementsQuantity props)%nat
        ∧ scrollTop < prefixSum (resolvedHeight props cache) (S i)) ->
  (∃ i, (i < elementsQuantity props)%nat
        ∧ scrollTop + listHeight <= prefixSum (resolvedHeight props cache) (S i)) ->
  ∃ st top bottom,
    Inv props scrollTop listHeight (resolvedHeight props cache)
        (elementsQuantity props) st
    ∧ useFixedSizeList props cache scrollTop listHeight
      = inr {| virtualItems := slice (allRows st) (startIndex st) (endIndex st + 1);
               r_startIndex := startIndex st;
               r_endIndex := endIndex st;
               r_totalHeight := totalHeight st |}
    ∧ (top < elementsQuantity props)%nat
    ∧ (bottom < elementsQuantity props)%nat
    ∧ firstAt (fun j => scrollTop < prefixSum (resolvedHeight props cache) (S j)) top
    ∧ firstAt (fun j => scrollTop + listHeight
                        <= prefixSum (resolvedHeight props cache) (S j)) bottom
    ∧ startIndex st = Z.max 0 (Z.of_nat top - overscan' props)
    ∧ endIndex st
      = Z.min (Z.of_nat (elementsQuantity props) - 1) (Z.of_nat bottom + overscan' props).
Proof.
  intros Hv Ho (i & Hi & HPi) (e & He & HPe).
  destruct (useFixedSizeList_returns props cache scrollTop listHeight Hv)
    as (st & _ & HI & Hr).
  destruct (decide (startIndex st = -1)) as [Hs|Hs].
  { pose proof (inv_start_none _ _ _ _ _ _ HI Hs i Hi). lia. }
  destruct (inv_start_some _ _ _ _ _ _ HI Hs) as (top & Htop & Hftop & Hstart).
  destruct (inv_end_some _ _ _ _ _ _ HI Ho)
    as [[_ Hall]|(bottom & Hbottom & Hfbottom & Hend)].
  { specialize (Hall e He). lia. }
  exists st, top, bottom. by repeat (split; [done|]).
Qed.

(** The rows handed back are the rows [startIndex .. endIndex] of the
    table, in order: with a non-negative overscan, the top edge inside the
    content and a non-empty viewport that ends inside it, [virtualItems]
    has [endIndex - startIndex + 1] entries and entry [k] is the row of
    index [startIndex + k], with its key, height and offset. *)
Theorem virtualItems_are_the_rows_of_the_range props cache scrollTop listHeight :
  validateProps props = inr tt ->
  0 <= overscan' props ->
  0 <= scrollTop < prefixSum (resolvedHeight props cache) (elementsQuantity props) ->
  0 < listHeight ->
  scrollTop + listHeight
    <= prefixSum (resolvedHeight props cache) (elementsQuantity props) ->
  ∃ r, useFixedSizeList props cache scrollTop listHeight = inr r
       ∧ length (virtualItems r) = Z.to_nat (r_endIndex r - r_startIndex r + 1)
       ∧ ∀ k, (k < length (virtualItems r))%nat ->
           virtualItems r !! k
           = Some (Some (rowAt props (resolvedHeight props cache)
                           (Z.to_nat (r_startIndex r) + k))).
Proof.
  intros Hv Ho Htop Hview Hbottom.
  assert (0 < elementsQuantity props)%nat as Hn.
  { destruct (elementsQuantity props); [|lia].
    unfold prefixSum in Htop, Hbottom. lia. }
  destruct (edges_found props cache scrollTop listHeight Hv Ho)
    as (st & top & bottom & HI & Hr & Ht & Hb & [HPt Hft] & [HPb Hfb] & Hs & He).
  { exists (elementsQuantity props - 1)%nat. split; [lia|].
    replace (S (elementsQuantity props - 1)) with (elementsQuantity props) by lia. lia. }
  { exists (elementsQuantity props - 1)%nat. split; [lia|].
    replace (S (elementsQuantity props - 1)) with (elementsQuantity props) by lia. lia. }
  assert (top <= bottom)%nat as Htb.
  { destruct (decide (top <= bottom)%nat) as [|Hgt]; [done|].
    exfalso. apply (Hft bottom); [lia|]. cbv beta in HPb |- *. lia. }
  eexists. split; [exact Hr|]. simpl.
  destruct (slice_inclusive (allRows st) (startIndex st) (endIndex st))
    as [Hlen Hlook].
  { lia. }
  { rewrite (inv_length _ _ _ _ _ _ HI). lia. }
  split; [exact Hlen|].
  intros k Hk. rewrite Hlen in Hk. rewrite Hlook by done.
  apply (inv_rows _ _ _ _ _ _ HI). lia.
Qed.

Lemma virtualItems_are_the_rows_of_the_range_witness :
  validateProps (fixedProps 100 35 1) = inr tt
  ∧ 0 <= overscan' (fixedProps 100 35 1)
  ∧ 0 <= 70 < prefixSum (resolvedHeight (fixedProps 100 35 1) ∅)
                 (elementsQuantity (fixedProps 100 35 1))
  ∧ 0 < 105
  ∧ 70 + 105 <= prefixSum (resolvedHeight (fixedProps 100 35 1) ∅)
                  (elementsQuantity (fixedProps 100 35 1))
  ∧ ∃ r, useFixedSizeList (fixedProps 100 35 1) ∅ 70 105 = inr r
         ∧ length (virtualItems r) = Z.to_nat (r_endIndex r - r_startIndex r + 1)
         ∧ ∀ k, (k < length (virtualItems r))%nat ->
             virtualItems r !! k
             = Some (Some (rowAt (fixedProps 100 35 1)
                             (resolvedHeight (fixedProps 100 35 1) ∅)
                             (Z.to_nat (r_startIndex r) + k))).
Proof.
  assert (prefixSum (resolvedHeight (fixedProps 100 35 1) ∅)
            (elementsQuantity (fixedProps 100 35 1)) = 3500) as Htotal
    by (vm_compute; reflexivity).
  split; [reflexivity|]. split; [vm_compute; discriminate|].
  split; [rewrite Htotal; lia|]. split; [lia|]. split; [rewrite Htotal; lia|].
  apply (virtualItems_are_the_rows_of_the_range (fixedProps 100 35 1) ∅ 70 105);
    [reflexivity|vm_compute; discriminate|rewrite Htotal; lia|lia|rewrite Htotal; lia].
Defined.

Lemma range_within_bounds_witness :
  validateProps (fixedProps 100 35 1) = inr tt
  ∧ 0 <= overscan' (fixedProps 100 35 1)
  ∧ 0 <= 70 < prefixSum (resolvedHeight (fixedProps 100 35 1) ∅)
                 (elementsQuantity (fixedProps 100 35 1))
  ∧ 0 < 105
  ∧ 70 + 105 <= prefixSum (resolvedHeight (fixedProps 100 35 1) ∅)
                  (elementsQuantity (fixedProps 100 35 1))
  ∧ ∃ r, useFixedSizeList (fixedProps 100 35 1) ∅ 70 105 = inr r
         ∧ 0 <= r_startIndex r <= r_endIndex r
         ∧ r_endIndex r <= Z.of_nat (elementsQuantity (fixedProps 100 35 1)) - 1.
Proof.
  assert (prefixSum (resolvedHeight (fixedProps 100 35 1) ∅)
            (elementsQuantity (fixedProps 100 35 1)) = 3500) as Htotal
    by (vm_compute; reflexivity).
  split; [reflexivity|]. split; [vm_compute; discriminate|].
  split; [rewrite Htotal; lia|]. split; [lia|]. split; [rewrite Htotal; lia|].
  apply (RangeCalculator.range_within_bounds (fixedProps 100 35 1) ∅ 70 105);
    [reflexivity|vm_compute; discriminate|rewrite Htotal; lia|lia|rewrite Htotal; lia].
Defined.

(** Every row that overlaps the viewport is inside the returned range:
    with heights that are not negative, a non-negative overscan and a
    viewport that ends inside the content, a row whose top is above the
    bottom of the viewport and whose bottom is below its top has its index
    between [startIndex] and [endIndex]. *)
Theorem visible_rows_are_in_range props cache scrollTop listHeight (j : nat) :
  validateProps props = inr tt ->
  0 <= overscan' props ->
  (∀ i, (i < elementsQuantity props)%nat ->
        0 <= resolvedHeight props cache (Z.of_nat i)) ->
  scrollTop + listHeight
    <= prefixSum (resolvedHeight props cache) (elementsQuantity props) ->
  (j < elementsQuantity props)%nat ->
  prefixSum (resolvedHeight props cache) j < scrollTop + listHeight ->
  scrollTop < prefixSum (resolvedHeight props cache) (S j) ->
  ∃ r, useFixedSizeList props cache scrollTop listHeight = inr r
       ∧ r_startIndex r <= Z.of_nat j <= r_endIndex r.
Proof.
  intros Hv Ho Hpos Hbottom Hj Habove Hbelow.
  destruct (edges_found props cache scrollTop listHeight Hv Ho)
    as (st & top & bottom & HI & Hr & Ht & Hb & [HPt Hft] & [HPb Hfb] & Hs & He).
  { exists j. done. }
  { exists (elementsQuantity props - 1)%nat. split; [lia|].
    replace (S (elementsQuantity props - 1)) with (elementsQuantity props) by lia. lia. }
  eexists. split; [exact Hr|]. simpl.
  assert (top <= j)%nat as Htj.
  { destruct (decide (top <= j)%nat) as [|Hgt]; [done|].
    exfalso. apply (Hft j); [lia|done]. }
  assert (j <= bottom)%nat as Hjb.
  { destruct (decide (j <= bottom)%nat) as [|Hgt]; [done|].
    exfalso. cbv beta in HPb.
    pose proof (prefixSum_mono (resolvedHeight props cache) (S bottom) j
                  ltac:(intros; apply Hpos; lia) ltac:(lia)).
    lia. }
  lia.
Qed.

Lemma visible_rows_are_in_range_witness :
  validateProps (fixedProps 100 35 1) = inr tt
  ∧ 0 <= overscan' (fixedProps 100 35 1)
  ∧ (∀ i, (i < elementsQuantity (fixedProps 100 35 1))%nat ->
          0 <= resolvedHeight (fixedProps 100 35 1) ∅ (Z.of_nat i))
  ∧ 70 + 105 <= prefixSum (resolvedHeight (fixedProps 100 35 1) ∅)
                  (elementsQuantity (fixedProps 100 35 1))
  ∧ (3 < elementsQuantity (fixedProps 100 35 1))%nat
  ∧ prefixSum (resolvedHeight (fixedProps 100 35 1) ∅) 3 < 70 + 105
  ∧ 70 < prefixSum (resolvedHeight (fixedProps 100 35 1) ∅) 4
  ∧ ∃ r, useFixedSizeList (fixedProps 100 35 1) ∅ 70 105 = inr r
         ∧ r_startIndex r <= Z.of_nat 3 <= r_endIndex r.
Proof.
  assert (prefixSum (resolvedHeight (fixedProps 100 35 1) ∅)
            (elementsQuantity (fixedProps 100 35 1)) = 3500) as Htotal
    by (vm_compute; reflexivity).
  assert (∀ i, (i < elementsQuantity (fixedProps 100 35 1))%nat ->
               0 <= resolvedHeight (fixedProps 100 35 1) ∅ (Z.of_nat i)) as Hpos.
  { intros i _. unfold resolvedHeight. simpl. lia. }
  split; [reflexivity|]. split; [vm_compute; discriminate|].
  split; [exact Hpos|]. split; [rewrite Htotal; lia|].
  split; [simpl; lia|]. split; [vm_compute; reflexivity|].
  split; [vm_compute; reflexivity|].
  apply (visible_rows_are_in_range (fixedProps 100 35 1) ∅ 70 105 3);
    [reflexivity|vm_compute; discriminate|exact Hpos|rewrite Htotal; lia
    |simpl; lia|vm_compute; reflexivity|vm_compute; reflexivity].
Defined.

(** An empty list: whatever the scroll position and the viewport, a
    validated hook with no elements returns both indices as the initial
    [-1], a total height of 0 and no rows. *)
Theorem empty_list_range props cache scrollTop listHeight :
  validateProps props = inr tt ->
  elementsQuantity props = 0%nat ->
  useFixedSizeList props cache scrollTop listHeight
  = inr {| virtualItems := [];
           r_startIndex := -1;
           r_endIndex := -1;
           r_totalHeight := 0 |}.
Proof.
  intros Hv Hn. unfold useFixedSizeList, rangeMemo, pass, initialState.
  rewrite Hv, Hn. reflexivity.
Qed.

Lemma empty_list_range_witness :
  validateProps (fixedProps 0 40 3) = inr tt
  ∧ elementsQuantity (fixedProps 0 40 3) = 0%nat
  ∧ useFixedSizeList (fixedProps 0 40 3) ∅ 25 600
    = inr {| virtualItems := [];
             r_startIndex := -1;
             r_endIndex := -1;
             r_totalHeight := 0 |}.
Proof.
  split; [reflexivity|]. split; [reflexivity|].
  apply (empty_list_range (fixedProps 0 40 3) ∅ 25 600); reflexivity.
Defined.

(** When no row's bottom edge lies below [scrollTop] (the list is scrolled
    to the end of its content or past it), [startIndex] comes back as the
    initial [-1]; [slice] then counts from the end of the table, so at
    most one row, the last, is handed back. *)
Theorem startIndex_unset_at_content_end props cache scrollTop listHeight :
  validateProps props = inr tt ->
  (∀ i, (i < elementsQuantity props)%nat ->
        prefixSum (resolvedHeight props cache) (S i) <= scrollTop) ->
  ∃ r, useFixedSizeList props cache scrollTop listHeight = inr r
       ∧ r_startIndex r = -1
       ∧ (length (virtualItems r) <= 1)%nat
       ∧ ∀ row, Some row ∈ virtualItems r ->
           index row = Z.of_nat (elementsQuantity props) - 1.
Proof.
  intros Hv Hnever.
  destruct (useFixedSizeList_returns props cache scrollTop listHeight Hv)
    as (st & _ & HI & Hr).
  eexists. split; [exact Hr|]. simpl.
  assert (startIndex st = -1) as Hs.
  { destruct (decide (startIndex st = -1)) as [|Hne]; [done|].
    destruct (inv_start_some _ _ _ _ _ _ HI Hne) as (i & Hi & [HP _] & _).
    specialize (Hnever i Hi). cbv beta in HP. lia. }
  split; [exact Hs|]. rewrite Hs.
  pose proof (inv_length _ _ _ _ _ _ HI) as Hlen.
  destruct (slice_from_minus_one (allRows st) (endIndex st + 1)) as [Hle Hlast].
  split; [exact Hle|].
  intros row (k & Hk)%list_elem_of_lookup.
  apply Hlast in Hk.
  assert (length (allRows st) - 1 < elementsQuantity props)%nat as Hin.
  { apply lookup_lt_Some in Hk. lia. }
  rewrite (inv_rows _ _ _ _ _ _ HI _ Hin) in Hk.
  injection Hk as <-. simpl. lia.
Qed.

Lemma startIndex_unset_at_content_end_witness :
  validateProps (fixedProps 3 40 3) = inr tt
  ∧ (∀ i, (i < elementsQuantity (fixedProps 3 40 3))%nat ->
          prefixSum (resolvedHeight (fixedProps 3 40 3) ∅) (S i) <= 120)
  ∧ ∃ r, useFixedSizeList (fixedProps 3 40 3) ∅ 120 0 = inr r
         ∧ r_startIndex r = -1
         ∧ (length (virtualItems r) <= 1)%nat
         ∧ ∀ row, Some row ∈ virtualItems r ->
             index row = Z.of_nat (elementsQuantity (fixedProps 3 40 3)) - 1.
Proof.
  assert (∀ i, (i < elementsQuantity (fixedProps 3 40 3))%nat ->
               prefixSum (resolvedHeight (fixedProps 3 40 3) ∅) (S i) <= 120) as H.
  { intros i Hi. simpl in Hi.
    destruct i as [|[|[|i]]]; [vm_compute; discriminate..|lia]. }
  split; [reflexivity|]. split; [exact H|].
  apply (startIndex_unset_at_content_end (fixedProps 3 40 3) ∅ 120 0);
    [reflexivity|exact H].
Defined.




End RangeWindow.


(** *** Measuring rendered rows *)

Module Measurement.
Import DynamicHeight DynamicHeightFacts RangeFacts Examples MoreExamples.

Ltac each_digit d H :=
  assert (d = 0 ∨ d = 1 ∨ d = 2 ∨ d = 3 ∨ d = 4 ∨ d = 5 ∨ d = 6 ∨ d = 7
          ∨ d = 8 ∨ d = 9) as H by lia;
  repeat (destruct H as [->|H]); [..|subst d].

Lemma digitOf_digitChar (d : Z) : 0 <= d <= 9 -> digitOf (digitChar d) = Some d.
Proof. intros Hd. each_digit d H; reflexivity. Qed.

Lemma parseInt_leading_digit (d : Z) (rest : string) :
  0 <= d <= 9 ->
  parseInt (String (digitChar d) rest) = digits (String (digitChar d) rest) None.
Proof. intros Hd. each_digit d H; reflexivity. Qed.

Lemma decimalDigits_head (fuel : nat) (n : Z) (acc : string) :
  0 <= n ->
  ∃ d rest, 0 <= d <= 9 ∧ decimalDigits (S fuel) n acc = String (digitChar d) rest.
Proof.
  revert n acc. induction fuel as [|fuel IH]; intros n acc Hn.
  - exists (n mod 10), acc. split; [pose proof (Z.mod_pos_bound n 10); lia|].
    simpl. by destruct (n <? 10).
  - change (decimalDigits (S (S fuel)) n acc)
      with (if n <? 10 then String (digitChar (n mod 10)) acc
            else decimalDigits (S fuel) (n / 10) (String (digitChar (n mod 10)) acc)).
    destruct (n <? 10).
    + exists (n mod 10), acc. split; [pose proof (Z.mod_pos_bound n 10); lia|done].
    + apply IH. apply Z.div_pos; lia.
Qed.

(** Reading back the digits that were written. *)
Lemma digits_decimalDigits (fuel : nat) (n : Z) (acc : string) :
  0 <= n < 2 ^ Z.of_nat (S fuel) ->
  digits (decimalDigits (S fuel) n acc) None = digits acc (Some n).
Proof.
  revert n acc. induction fuel as [|fuel IH]; intros n acc Hn.
  - change (2 ^ Z.of_nat 1) with 2 in Hn.
    simpl. destruct (Z.ltb_spec n 10); [|lia].
    simpl. rewrite digitOf_digitChar by (pose proof (Z.mod_pos_bound n 10); lia).
    rewrite Z.mod_small by lia. done.
  - change (decimalDigits (S (S fuel)) n acc)
      with (if n <? 10 then String (digitChar (n mod 10)) acc
            else decimalDigits (S fuel) (n / 10) (String (digitChar (n mod 10)) acc)).
    destruct (Z.ltb_spec n 10) as [Hlt|Hge].
    + simpl. rewrite digitOf_digitChar by (pose proof (Z.mod_pos_bound n 10); lia).
      rewrite Z.mod_small by lia. done.
    + rewrite IH.
      * simpl. rewrite digitOf_digitChar by (pose proof (Z.mod_pos_bound n 10); lia).
        simpl. f_equal. f_equal. pose proof (Z.div_mod n 10). lia.
      * split; [apply Z.div_pos; lia|].
        rewrite Nat2Z.inj_succ, Z.pow_succ_r in Hn by lia.
        apply Z.div_lt_upper_bound; lia.
Qed.

Lemma below_power_of_log2 (n : Z) :
  0 <= n -> n < 2 ^ Z.of_nat (S (Z.to_nat (Z.log2 n))).
Proof.
  intros Hn. pose proof (Z.log2_nonneg n) as Hl.
  rewrite Nat2Z.inj_succ, Z2Nat.id by done.
  destruct (decide (n = 0)) as [->|Hnz].
  - simpl. lia.
  - apply Z.log2_spec. lia.
Qed.

Lemma parseInt_numberToString (n : Z) : parseInt (numberToString n) = Some n.
Proof.
  unfold numberToString. destruct (Z.ltb_spec n 0) as [Hneg|Hpos].
  - change (parseInt (String "-" ?s)) with (Z.opp <$> digits s None).
    rewrite digits_decimalDigits by (split; [lia|apply below_power_of_log2; lia]).
    simpl. f_equal. lia.
  - destruct (decimalDigits_head (Z.to_nat (Z.log2 n)) n EmptyString Hpos)
      as (d & rest & Hd & Heq).
    rewrite Heq, parseInt_leading_digit, <- Heq by done.
    rewrite digits_decimalDigits by (split; [lia|by apply below_power_of_log2]).
    reflexivity.
Qed.

Lemma decimalDigits_append (fuel : nat) (n : Z) (acc rest : string) :
  decimalDigits fuel n (String.append acc rest)
  = String.append (decimalDigits fuel n acc) rest.
Proof.
  revert n acc. induction fuel as [|fuel IH]; intros n acc; simpl; [done|].
  destruct (n <? 10); [done|].
  by rewrite <- IH.
Qed.

(** The [data-index] round trip: the string React writes for an integer
    between [- MAX_SAFE_INTEGER] and [MAX_SAFE_INTEGER], as every row index
    is, is read back by [parseInt] as that integer, also when text that
    does not begin with a digit follows it. *)
Theorem data_index_round_trip (n : Z) (rest : string) :
  - MAX_SAFE_INTEGER <= n <= MAX_SAFE_INTEGER ->
  rest = EmptyString ∨ (∃ c rest', rest = String c rest' ∧ digitOf c = None) ->
  parseInt (String.append (numberToString n) rest) = Some n.
Proof.
  intros _ Hrest.
  assert (∀ v, digits rest (Some v) = Some v) as Hstop.
  { intros v. destruct Hrest as [->|(c & rest' & -> & Hc)]; simpl; [done|].
    by rewrite Hc. }
  unfold numberToString. destruct (Z.ltb_spec n 0) as [Hneg|Hpos].
  - change (parseInt (String.append (String "-" ?s) rest))
      with (Z.opp <$> digits (String.append s rest) None).
    rewrite <- decimalDigits_append.
    rewrite digits_decimalDigits by (split; [lia|apply below_power_of_log2; lia]).
    change (String.append EmptyString rest) with rest.
    rewrite Hstop. simpl. f_equal. lia.
  - rewrite <- decimalDigits_append.
    change (String.append EmptyString rest) with rest.
    destruct (decimalDigits_head (Z.to_nat (Z.log2 n)) n rest Hpos)
      as (d & tail & Hd & Heq).
    rewrite Heq, parseInt_leading_digit, <- Heq by done.
    rewrite digits_decimalDigits by (split; [lia|by apply below_power_of_log2]).
    apply Hstop.
Qed.

Lemma data_index_round_trip_witness :
  - MAX_SAFE_INTEGER <= 137 <= MAX_SAFE_INTEGER
  ∧ ("px"%string = EmptyString
     ∨ (∃ c rest', "px"%string = String c rest' ∧ digitOf c = None))
  ∧ parseInt (String.append (numberToString 137) "px") = Some 137.
Proof.
  assert (- MAX_SAFE_INTEGER <= 137 <= MAX_SAFE_INTEGER) as Hn.
  { vm_compute. split; discriminate. }
  assert ("px"%string = EmptyString
          ∨ (∃ c rest', "px"%string = String c rest' ∧ digitOf c = None)) as H.
  { right. by exists "p"%char, "x"%string. }
  split; [exact Hn|]. split; [exact H|]. apply (data_index_round_trip 137 "px" Hn H).
Defined.

Lemma at_index_Some {A} (l : list A) (i : Z) (x : A) :
  at_index l i = Some x <-> 0 <= i ∧ l !! Z.to_nat i = Some x.
Proof.
  unfold at_index. destruct (Z.ltb_spec i 0) as [Hneg|Hpos]; split.
  - discriminate.
  - intros [? _]. lia.
  - intros Hl. split; [lia|done].
  - by intros [_ ?].
Qed.

(** Measuring the element rendered for a row: the component renders the
    row under the React key that is also its cache key, and measuring that
    element stores the measured height under this key. *)
Theorem measuring_a_rendered_row props items cache row rendered measured :
  Component.KeysOf items props ->
  Component.renderRow items (Some row) = inr rendered ->
  Component.rr_key rendered = getItemKey props (index row)
  ∧ measureElement props (Some (Component.elementOf rendered measured)) cache
    = <[Component.rr_key rendered := measured]> cache
  ∧ measureElement props (Some (Component.elementOf rendered measured)) cache
      !! Component.rr_key rendered
    = Some measured.
Proof.
  intros [Hn Hkeys] Hrender. unfold Component.renderRow in Hrender.
  destruct (at_index items (index row)) as [item|] eqn:Hat; [|discriminate].
  injection Hrender as <-. cbn [Component.rr_key].
  apply at_index_Some in Hat as Hat'. destruct Hat' as [Hnonneg Hlook].
  assert (Component.id item = getItemKey props (index row)) as Hkey.
  { pose proof (lookup_lt_Some _ _ _ Hlook) as Hlt.
    specialize (Hkeys _ Hlt). rewrite Z2Nat.id in Hkeys by done.
    unfold Component.getItemKey in Hkeys. rewrite Hat in Hkeys.
    by injection Hkeys. }
  assert (measureElement props
            (Some (Component.elementOf
                     {| Component.rr_key := Component.id item;
                        Component.rr_dataIndex := numberToString (index row);
                        Component.rr_translateY := offsetTop row;
                        Component.rr_content := Component.content item |} measured))
            cache
          = <[Component.id item := measured]> cache) as Hm.
  { unfold measureElement, Component.elementOf. simpl.
    by rewrite parseInt_numberToString, Hkey. }
  split; [exact Hkey|]. split; [exact Hm|].
  rewrite Hm. apply lookup_insert_eq.
Qed.

Lemma measuring_a_rendered_row_witness :
  Component.KeysOf threeItems threeProps
  ∧ Component.renderRow threeItems (Some row2)
    = inr {| Component.rr_key := 2;
             Component.rr_dataIndex := "2";
             Component.rr_translateY := 32;
             Component.rr_content := 2 |}
  ∧ Component.rr_key {| Component.rr_key := 2;
                        Component.rr_dataIndex := "2";
                        Component.rr_translateY := 32;
                        Component.rr_content := 2 |}
    = getItemKey threeProps (index row2)
  ∧ measureElement threeProps
      (Some (Component.elementOf
               {| Component.rr_key := 2;
                  Component.rr_dataIndex := "2";
                  Component.rr_translateY := 32;
                  Component.rr_content := 2 |} 50)) ∅
    = <[2 := 50]> ∅
  ∧ measureElement threeProps
      (Some (Component.elementOf
               {| Component.rr_key := 2;
                  Component.rr_dataIndex := "2";
                  Component.rr_translateY := 32;
                  Component.rr_content := 2 |} 50)) ∅ !! 2
    = Some 50.
Proof.
  assert (Component.KeysOf threeItems threeProps) as Hkeys.
  { split; [reflexivity|]. intros i Hi. simpl in Hi.
    destruct i as [|[|[|i]]]; [reflexivity..|lia]. }
  split; [exact Hkeys|]. split; [reflexivity|].
  apply (measuring_a_rendered_row threeProps threeItems ∅ row2
           {| Component.rr_key := 2;
              Component.rr_dataIndex := "2";
              Component.rr_translateY := 32;
              Component.rr_content := 2 |} 50 Hkeys).
  reflexivity.
Defined.

(** What a report does to the cache: reporting twice is reporting once, no
    entry is ever removed, at most one entry changes, and a report without
    an element or without a parsable [data-index] changes nothing. *)
Theorem measureElement_cache_discipline props element cache :
  measureElement props element (measureElement props element cache)
  = measureElement props element cache
  ∧ (∀ k, is_Some (cache !! k) -> is_Some (measureElement props element cache !! k))
  ∧ (∀ k k', k ≠ k' ->
       measureElement props element cache !! k ≠ cache !! k ->
       measureElement props element cache !! k' = cache !! k')
  ∧ (element = None
     ∨ (∃ el, element = Some el
              ∧ parseInt (default EmptyString (dataIndex el)) = None) ->
     measureElement props element cache = cache).
Proof.
  unfold measureElement. destruct element as [el|].
  - destruct (parseInt (default EmptyString (dataIndex el))) as [i|] eqn:Hparse.
    + split; [apply insert_insert_eq|]. split; [|split].
      * intros k Hk. rewrite lookup_insert. case_decide; [by eexists|done].
      * intros k k' Hne Hchanged.
        destruct (decide (getItemKey props i = k)) as [<-|Hk].
        -- by rewrite lookup_insert_ne.
        -- by rewrite lookup_insert_ne in Hchanged.
      * intros [?|(el' & [= <-] & Hnone)]; [done|congruence].
    + by repeat split.
  - by repeat split.
Qed.

(** The pass looks at keys and heights of the indices below
    [elementsQuantity] only: two configurations and caches that agree
    there (and on the element count, the overscan and validation) give the
    same range, rows and total height. Cache entries under keys that no
    index has do not matter. *)
Theorem pass_reads_only_its_indices props props' cache cache' scrollTop listHeight :
  validateProps props = validateProps props' ->
  elementsQuantity props = elementsQuantity props' ->
  overscan props = overscan props' ->
  (∀ i, (i < elementsQuantity props)%nat ->
        getItemKey props (Z.of_nat i) = getItemKey props' (Z.of_nat i)) ->
  (∀ i, (i < elementsQuantity props)%nat ->
        getItemHeight props cache (Z.of_nat i)
        = getItemHeight props' cache' (Z.of_nat i)) ->
  useFixedSizeList props cache scrollTop listHeight
  = useFixedSizeList props' cache' scrollTop listHeight.
Proof.
  intros Hv Hn Ho Hkey Hheight.
  assert (∀ r k st, (k + r = elementsQuantity props)%nat ->
            forLoop props cache scrollTop listHeight r (Z.of_nat k) st
            = forLoop props' cache' scrollTop listHeight r (Z.of_nat k) st) as Hloop.
  { intros r. induction r as [|r IH]; intros k st Hk; simpl; [done|].
    assert (loopBody props cache scrollTop listHeight (Z.of_nat k) st
            = loopBody props' cache' scrollTop listHeight (Z.of_nat k) st) as ->.
    { unfold loopBody, overscan'. rewrite Hkey, Hheight, Hn, Ho by lia. done. }
    destruct (loopBody props' cache' scrollTop listHeight (Z.of_nat k) st)
      as [e|st1]; simpl; [done|].
    replace (Z.of_nat k + 1) with (Z.of_nat (S k)) by lia. apply IH. lia. }
  unfold useFixedSizeList, rangeMemo, pass. rewrite <- Hv.
  destruct (validateProps props) as [e|[]]; simpl; [done|].
  rewrite (Hloop (elementsQuantity props) 0%nat) by lia.
  unfold initialState. by rewrite Hn.
Qed.

Lemma pass_reads_only_its_indices_witness :
  validateProps demoProps = validateProps demoProps
  ∧ elementsQuantity demoProps = elementsQuantity demoProps
  ∧ overscan demoProps = overscan demoProps
  ∧ (∀ i, (i < elementsQuantity demoProps)%nat ->
          getItemKey demoProps (Z.of_nat i) = getItemKey demoProps (Z.of_nat i))
  ∧ (∀ i, (i < elementsQuantity demoProps)%nat ->
          getItemHeight demoProps ∅ (Z.of_nat i)
          = getItemHeight demoProps strayCache (Z.of_nat i))
  ∧ useFixedSizeList demoProps ∅ 0 600 = useFixedSizeList demoProps strayCache 0 600.
Proof.
  assert (∀ i, (i < elementsQuantity demoProps)%nat ->
               getItemHeight demoProps ∅ (Z.of_nat i)
               = getItemHeight demoProps strayCache (Z.of_nat i)) as H.
  { intros i Hi. unfold getItemHeight, strayCache. simpl.
    unfold demoProps, ELEMENTS_QUANTITY in Hi. simpl in Hi.
    rewrite lookup_empty, lookup_singleton_ne by lia. done. }
  split; [reflexivity|]. split; [reflexivity|]. split; [reflexivity|].
  split; [done|]. split; [exact H|].
  apply (pass_reads_only_its_indices demoProps demoProps ∅ strayCache 0 600);
    [reflexivity|reflexivity|reflexivity|done|exact H].
Defined.

(** A measurement moves the total height the way it moves the height of
    the measured row, when the key of the measured index belongs to no
    other index: the new total is the sum of the heights with the measured
    one in its place, so it does not shrink when the measured height is at
    least the height used before, does not grow when it is at most that,
    and stays the same when they are equal. *)
Theorem measurement_moves_totalHeight props est cache element (i : nat)
    scrollTop listHeight :
  itemHeight props = None ->
  estimateItemHeight props = Some est ->
  parseInt (default EmptyString (dataIndex element)) = Some (Z.of_nat i) ->
  (i < elementsQuantity props)%nat ->
  (∀ j, (j < elementsQuantity props)%nat ->
        getItemKey props (Z.of_nat j) = getItemKey props (Z.of_nat i) -> j = i) ->
  ∃ r r',
    useFixedSizeList props cache scrollTop listHeight = inr r
    ∧ useFixedSizeList props (measureElement props (Some element) cache)
        scrollTop listHeight = inr r'
    ∧ r_totalHeight r'
      = prefixSum (fun k => if decide (k = Z.of_nat i) then rectHeight element
                            else resolvedHeight props cache k)
          (elementsQuantity props)
    ∧ (resolvedHeight props cache (Z.of_nat i) <= rectHeight element ->
       r_totalHeight r <= r_totalHeight r')
    ∧ (rectHeight element <= resolvedHeight props cache (Z.of_nat i) ->
       r_totalHeight r' <= r_totalHeight r)
    ∧ (rectHeight element = resolvedHeight props cache (Z.of_nat i) ->
       r_totalHeight r' = r_totalHeight r).
Proof.
  intros Hf Hest Hparse Hi Hinj.
  assert (validateProps props = inr tt) as Hv.
  { apply validateProps_inr. right. rewrite Hest. by eexists. }
  assert (∀ c j, getItemHeight props c j
                 = inr (default (est tt) (c !! getItemKey props j))) as Hget.
  { intros c j. unfold getItemHeight. rewrite Hf, Hest.
    by destruct (c !! getItemKey props j). }
  assert (measureElement props (Some element) cache
          = <[getItemKey props (Z.of_nat i) := rectHeight element]> cache) as ->.
  { unfold measureElement. by rewrite Hparse. }
  set (cache' := <[getItemKey props (Z.of_nat i) := rectHeight element]> cache).
  assert (resolvedHeight props cache' (Z.of_nat i) = rectHeight element) as Hnew.
  { unfold resolvedHeight, cache'. by rewrite Hget, lookup_insert_eq. }
  assert (∀ k, (k < elementsQuantity props)%nat -> k ≠ i ->
            resolvedHeight props cache' (Z.of_nat k)
            = resolvedHeight props cache (Z.of_nat k)) as Hold.
  { intros k Hk Hne. unfold resolvedHeight. rewrite !Hget. unfold cache'.
    rewrite lookup_insert_ne; [done|].
    intros Hkey. apply Hne. by apply Hinj. }
  destruct (useFixedSizeList_returns props cache scrollTop listHeight Hv)
    as (st & _ & HI & Hr).
  destruct (useFixedSizeList_returns props cache' scrollTop listHeight Hv)
    as (st' & _ & HI' & Hr').
  eexists _, _. split; [exact Hr|]. split; [exact Hr'|]. simpl.
  rewrite (inv_total _ _ _ _ _ _ HI), (inv_total _ _ _ _ _ _ HI').
  split.
  { apply prefixSum_ext. intros k Hk.
    destruct (decide (Z.of_nat k = Z.of_nat i)) as [Heq|Hne].
    - apply Nat2Z.inj in Heq as ->. exact Hnew.
    - apply Hold; [done|]. intros ->. done. }
  rewrite (prefixSum_shift (resolvedHeight props cache) (resolvedHeight props cache')
             i (elementsQuantity props)) by (intros; apply Hold; lia).
  rewrite bool_decide_eq_true_2 by done. rewrite Hnew.
  repeat split; intros; lia.
Qed.

Lemma measurement_moves_totalHeight_witness :
  itemHeight demoProps = None
  ∧ estimateItemHeight demoProps = Some (fun _ => 16)
  ∧ parseInt (default EmptyString (dataIndex element5)) = Some (Z.of_nat 5)
  ∧ (5 < elementsQuantity demoProps)%nat
  ∧ (∀ j, (j < elementsQuantity demoProps)%nat ->
          getItemKey demoProps (Z.of_nat j) = getItemKey demoProps (Z.of_nat 5) ->
          j = 5%nat)
  ∧ ∃ r r',
      useFixedSizeList demoProps ∅ 0 600 = inr r
      ∧ useFixedSizeList demoProps (measureElement demoProps (Some element5) ∅) 0 600
        = inr r'
      ∧ r_totalHeight r'
        = prefixSum (fun k => if decide (k = Z.of_nat 5) then rectHeight element5
                              else resolvedHeight demoProps ∅ k)
            (elementsQuantity demoProps)
      ∧ (resolvedHeight demoProps ∅ (Z.of_nat 5) <= rectHeight element5 ->
         r_totalHeight r <= r_totalHeight r')
      ∧ (rectHeight element5 <= resolvedHeight demoProps ∅ (Z.of_nat 5) ->
         r_totalHeight r' <= r_totalHeight r)
      ∧ (rectHeight element5 = resolvedHeight demoProps ∅ (Z.of_nat 5) ->
         r_totalHeight r' = r_totalHeight r).
Proof.
  assert (∀ j, (j < elementsQuantity demoProps)%nat ->
               getItemKey demoProps (Z.of_nat j) = getItemKey demoProps (Z.of_nat 5) ->
               j = 5%nat) as Hinj.
  { intros j _ Hj. simpl in Hj. lia. }
  split; [reflexivity|]. split; [reflexivity|]. split; [reflexivity|].
  split; [unfold demoProps, ELEMENTS_QUANTITY; simpl; lia|]. split; [exact Hinj|].
  apply (measurement_moves_totalHeight demoProps (fun _ => 16) ∅ element5 5 0 600);
    [reflexivity|reflexivity|reflexivity
    |unfold demoProps, ELEMENTS_QUANTITY; simpl; lia|exact Hinj].
Defined.

End Measurement.


(** *** The component around the hook *)

Module ComponentFacts.
Import DynamicHeight DynamicHeightFacts RangeFacts Examples MoreExamples.

Lemma mapM_inr {A B} (f : A -> M B) (l : list A) :
  (∀ x, x ∈ l -> ∃ y, f x = inr y) ->
  ∃ ys, mapM f l = inr ys
        ∧ length ys = length l
        ∧ ∀ k y, ys !! k = Some y -> ∃ x, l !! k = Some x ∧ f x = inr y.
Proof.
  induction l as [|x l IH]; intros Hall; simpl.
  - exists []. repeat split; [done..|]. intros k y Hk. done.
  - destruct (Hall x ltac:(left)) as (y & Hy).
    destruct IH as (ys & Hys & Hlen & Hlook).
    { intros x' Hx'. apply Hall. by right. }
    exists (y :: ys). rewrite Hy, Hys. simpl. split; [done|].
    split; [by rewrite Hlen|].
    intros [|k] y' Hk; simpl in Hk.
    + injection Hk as <-. by exists x.
    + by apply Hlook.
Qed.

Lemma createItems_lookup (n i : nat) :
  (i < n)%nat ->
  Component.createItems n !! i
  = Some {| Component.id := Z.of_nat i; Component.content := Z.of_nat i |}.
Proof.
  intros Hi. unfold Component.createItems.
  by rewrite list_lookup_imap, lookup_replicate_2.
Qed.

Lemma createItems_length (n : nat) : length (Component.createItems n) = n.
Proof. unfold Component.createItems. by rewrite length_imap, length_replicate. Qed.

(** The keys of generated items: index [i] has key [i], and after the
    reverse button key [n - 1 - i], so distinct indices have distinct keys
    in both orders; asking for the key of an index without an item throws
    instead of answering. *)
Theorem generated_items_have_distinct_keys (n : nat) :
  (∀ i, (i < n)%nat ->
     Component.getItemKey (Component.createItems n) (Z.of_nat i) = inr (Z.of_nat i)
     ∧ Component.getItemKey
         (Component.handleReverseButtonClick (Component.createItems n)) (Z.of_nat i)
       = inr (Z.of_nat n - 1 - Z.of_nat i))
  ∧ (∀ items i j ki kj,
       items = Component.createItems n
       ∨ items = Component.handleReverseButtonClick (Component.createItems n) ->
       Component.getItemKey items (Z.of_nat i) = inr ki ->
       Component.getItemKey items (Z.of_nat j) = inr kj ->
       ki = kj -> i = j)
  ∧ (∀ items index,
       items = Component.createItems n
       ∨ items = Component.handleReverseButtonClick (Component.createItems n) ->
       index < 0 ∨ Z.of_nat n <= index ->
       Component.getItemKey items index = inl TypeError).
Proof.
  assert (∀ i, (i < n)%nat ->
            Component.getItemKey (Component.createItems n) (Z.of_nat i)
            = inr (Z.of_nat i)) as Hplain.
  { intros i Hi. unfold Component.getItemKey, at_index.
    destruct (Z.ltb_spec (Z.of_nat i) 0); [lia|].
    by rewrite Nat2Z.id, createItems_lookup. }
  assert (∀ i, (i < n)%nat ->
            Component.getItemKey
              (Component.handleReverseButtonClick (Component.createItems n))
              (Z.of_nat i)
            = inr (Z.of_nat n - 1 - Z.of_nat i)) as Hrev.
  { intros i Hi. unfold Component.getItemKey, at_index,
      Component.handleReverseButtonClick.
    destruct (Z.ltb_spec (Z.of_nat i) 0); [lia|].
    rewrite Nat2Z.id, reverse_lookup by (rewrite createItems_length; lia).
    rewrite createItems_length, createItems_lookup by lia.
    simpl. f_equal. lia. }
  assert (∀ items index,
            length items = n -> index < 0 ∨ Z.of_nat n <= index ->
            Component.getItemKey items index = inl TypeError) as Hout.
  { intros items index Hlen Hindex. unfold Component.getItemKey, at_index.
    destruct (Z.ltb_spec index 0); [done|].
    rewrite lookup_ge_None_2; [done|lia]. }
  assert (∀ items i k, length items = n ->
            Component.getItemKey items (Z.of_nat i) = inr k -> (i < n)%nat) as Hin.
  { intros items i k Hlen Hk.
    destruct (decide (i < n)%nat) as [|Hge]; [done|].
    rewrite (Hout items (Z.of_nat i) Hlen) in Hk by lia. discriminate. }
  split; [|split].
  - intros i Hi. split; [by apply Hplain|by apply Hrev].
  - intros items i j ki kj [->| ->] Hi Hj Heq.
    + pose proof (Hin _ _ _ (createItems_length n) Hi) as Hi'.
      pose proof (Hin _ _ _ (createItems_length n) Hj) as Hj'.
      rewrite Hplain in Hi, Hj by done. injection Hi as <-. injection Hj as <-. lia.
    + assert (length (Component.handleReverseButtonClick (Component.createItems n)) = n)
        as Hlen.
      { unfold Component.handleReverseButtonClick.
        by rewrite length_reverse, createItems_length. }
      pose proof (Hin _ _ _ Hlen Hi) as Hi'.
      pose proof (Hin _ _ _ Hlen Hj) as Hj'.
      rewrite Hrev in Hi, Hj by done. injection Hi as <-. injection Hj as <-. lia.
  - intros items index [->| ->] Hindex; apply Hout; try done.
    + apply createItems_length.
    + unfold Component.handleReverseButtonClick.
      by rewrite length_reverse, createItems_length.
Qed.

(** The reverse button: measurements follow their items. With the cache
    left as it is, the height used for index [i] after the reversal is the
    height that was used for index [n - 1 - i] before it; so the hook
    called after the reversal hands back rows that carry the key and the
    height of the mirrored index, and its total height is the sum of the
    heights used before, taken from the last item to the first. *)
Theorem reversal_keeps_measurements props props' items est cache
    scrollTop listHeight :
  Component.KeysOf items props ->
  Component.KeysOf (Component.handleReverseButtonClick items) props' ->
  itemHeight props = None -> itemHeight props' = None ->
  estimateItemHeight props = Some est -> estimateItemHeight props' = Some est ->
  (∀ i, (i < length items)%nat ->
     resolvedHeight props' cache (Z.of_nat i)
     = resolvedHeight props cache (Z.of_nat (length items) - 1 - Z.of_nat i))
  ∧ ∃ r',
      useFixedSizeList props' cache scrollTop listHeight = inr r'
      ∧ (∀ row, Some row ∈ virtualItems r' ->
           0 <= index row < Z.of_nat (length items)
           ∧ key row = getItemKey props (Z.of_nat (length items) - 1 - index row)
           ∧ height row
             = resolvedHeight props cache (Z.of_nat (length items) - 1 - index row))
      ∧ r_totalHeight r'
        = prefixSum (fun i => resolvedHeight props cache
                                (Z.of_nat (length items) - 1 - i))
            (length items).
Proof.
  intros [Hn Hkeys] [Hn' Hkeys'] Hf Hf' Hest Hest'.
  unfold Component.handleReverseButtonClick in Hn', Hkeys'.
  rewrite length_reverse in Hn', Hkeys'.
  assert (∀ i, (i < length items)%nat ->
            getItemKey props' (Z.of_nat i)
            = getItemKey props (Z.of_nat (length items) - 1 - Z.of_nat i)) as Hmirror.
  { intros i Hi.
    specialize (Hkeys' i Hi). specialize (Hkeys (length items - S i)%nat ltac:(lia)).
    unfold Component.getItemKey, at_index in Hkeys, Hkeys'.
    destruct (Z.ltb_spec (Z.of_nat i) 0); [lia|].
    destruct (Z.ltb_spec (Z.of_nat (length items - S i)) 0); [lia|].
    rewrite Nat2Z.id in Hkeys, Hkeys'.
    rewrite reverse_lookup in Hkeys' by done.
    destruct (items !! (length items - S i)%nat) as [item|]; [|discriminate].
    injection Hkeys as Hk. injection Hkeys' as Hk'.
    rewrite <- Hk', Hk. f_equal. lia. }
  assert (∀ p, itemHeight p = None -> estimateItemHeight p = Some est ->
            ∀ j, resolvedHeight p cache j
                 = default (est tt) (cache !! getItemKey p j)) as Hres.
  { intros p Hp Hpe j. unfold resolvedHeight, getItemHeight. rewrite Hp, Hpe.
    by destruct (cache !! getItemKey p j). }
  assert (∀ i, (i < length items)%nat ->
            resolvedHeight props' cache (Z.of_nat i)
            = resolvedHeight props cache (Z.of_nat (length items) - 1 - Z.of_nat i))
    as Hheights.
  { intros i Hi. by rewrite !Hres, Hmirror. }
  split; [exact Hheights|].
  assert (validateProps props' = inr tt) as Hv'.
  { apply validateProps_inr. right. rewrite Hest'. by eexists. }
  destruct (useFixedSizeList_returns props' cache scrollTop listHeight Hv')
    as (st' & _ & HI' & Hr').
  eexists _. split; [exact Hr'|]. simpl. split.
  - intros row Hin%slice_subseteq.
    destruct (Inv_row_elem _ _ _ _ _ _ HI' Hin) as (i & Hi & ->). simpl.
    rewrite Hn' in Hi.
    split; [lia|]. split; [by apply Hmirror|by apply Hheights].
  - rewrite (inv_total _ _ _ _ _ _ HI'), Hn'.
    apply prefixSum_ext. intros j Hj. by apply Hheights.
Qed.

Lemma reversal_keeps_measurements_witness :
  Component.KeysOf threeItems threeProps
  ∧ Component.KeysOf (Component.handleReverseButtonClick threeItems) threePropsReversed
  ∧ itemHeight threeProps = None
  ∧ itemHeight threePropsReversed = None
  ∧ estimateItemHeight threeProps = Some (fun _ => 16)
  ∧ estimateItemHeight threePropsReversed = Some (fun _ => 16)
  ∧ (∀ i, (i < length threeItems)%nat ->
       resolvedHeight threePropsReversed {[2 := 50]} (Z.of_nat i)
       = resolvedHeight threeProps {[2 := 50]}
           (Z.of_nat (length threeItems) - 1 - Z.of_nat i))
  ∧ ∃ r',
      useFixedSizeList threePropsReversed {[2 := 50]} 10 30 = inr r'
      ∧ (∀ row, Some row ∈ virtualItems r' ->
           0 <= index row < Z.of_nat (length threeItems)
           ∧ key row
             = getItemKey threeProps (Z.of_nat (length threeItems) - 1 - index row)
           ∧ height row
             = resolvedHeight threeProps {[2 := 50]}
                 (Z.of_nat (length threeItems) - 1 - index row))
      ∧ r_totalHeight r'
        = prefixSum (fun i => resolvedHeight threeProps {[2 := 50]}
                                (Z.of_nat (length threeItems) - 1 - i))
            (length threeItems).
Proof.
  assert (Component.KeysOf threeItems threeProps) as Hkeys.
  { split; [reflexivity|]. intros i Hi. simpl in Hi.
    destruct i as [|[|[|i]]]; [reflexivity..|lia]. }
  assert (Component.KeysOf (Component.handleReverseButtonClick threeItems)
            threePropsReversed) as Hkeys'.
  { split; [reflexivity|]. intros i Hi. simpl in Hi.
    destruct i as [|[|[|i]]]; [reflexivity..|lia]. }
  split; [exact Hkeys|]. split; [exact Hkeys'|].
  split; [reflexivity|]. split; [reflexivity|].
  split; [reflexivity|]. split; [reflexivity|].
  apply (reversal_keeps_measurements threeProps threePropsReversed threeItems
           (fun _ => 16) {[2 := 50]} 10 30 Hkeys Hkeys');
    reflexivity.
Defined.

(** After the reversal of three items of which the last was measured 50
    high, the hook at scroll offset 10 with a viewport of 30 hands back the
    three rows, the measured one first. *)
Example reversed_scenario_rows :
  ∃ r', useFixedSizeList threePropsReversed {[2 := 50]} 10 30 = inr r'
        ∧ virtualItems r'
          = [Some {| key := 2; height := 50; offsetTop := 0; index := 0 |};
             Some {| key := 1; height := 16; offsetTop := 50; index := 1 |};
             Some {| key := 0; height := 16; offsetTop := 66; index := 2 |}].
Proof. eexists. split; vm_compute; reflexivity. Qed.

(** Rendering what the hook hands back never throws when the hook was
    given as many elements as there are items: every virtual item is a row
    with an item behind it, and each rendered row carries the row's cache
    key as React key, a [data-index] that parses back to the row's index,
    and the row's offset as translation. *)
Theorem rendering_the_range_never_throws props items cache scrollTop listHeight :
  validateProps props = inr tt ->
  Component.KeysOf items props ->
  ∃ r rendered,
    useFixedSizeList props cache scrollTop listHeight = inr r
    ∧ Component.render items (virtualItems r) = inr rendered
    ∧ length rendered = length (virtualItems r)
    ∧ ∀ k rr, rendered !! k = Some rr ->
        ∃ row, virtualItems r !! k = Some (Some row)
               ∧ Component.rr_key rr = getItemKey props (index row)
               ∧ parseInt (Component.rr_dataIndex rr) = Some (index row)
               ∧ Component.rr_translateY rr = offsetTop row.
Proof.
  intros Hv [Hn Hkeys].
  destruct (useFixedSizeList_returns props cache scrollTop listHeight Hv)
    as (st & _ & HI & Hr).
  assert (∀ x, x ∈ slice (allRows st) (startIndex st) (endIndex st + 1) ->
            ∃ row item, x = Some row
                        ∧ at_index items (index row) = Some item
                        ∧ Component.id item = getItemKey props (index row)) as Hrows.
  { intros x Hx%slice_subseteq.
    apply list_elem_of_lookup in Hx as (i & Hi).
    assert (i < elementsQuantity props)%nat as Hlt.
    { rewrite <- (inv_length _ _ _ _ _ _ HI). by eapply lookup_lt_Some. }
    rewrite (inv_rows _ _ _ _ _ _ HI i Hlt) in Hi. injection Hi as <-.
    specialize (Hkeys i ltac:(lia)).
    unfold Component.getItemKey in Hkeys. simpl.
    destruct (at_index items (Z.of_nat i)) as [item|] eqn:Hat; [|discriminate].
    exists (rowAt props (resolvedHeight props cache) i), item.
    split; [done|]. split; [done|]. simpl. by injection Hkeys. }
  destruct (mapM_inr (Component.renderRow items)
              (slice (allRows st) (startIndex st) (endIndex st + 1)))
    as (rendered & Hrendered & Hlen & Hlook).
  { intros x (row & item & -> & Hat & _)%Hrows.
    unfold Component.renderRow. rewrite Hat. by eexists. }
  eexists _, rendered. split; [exact Hr|]. simpl.
  split; [exact Hrendered|]. split; [exact Hlen|].
  intros k rr Hk. destruct (Hlook k rr Hk) as (x & Hx & Hfx).
  destruct (Hrows x) as (row & item & -> & Hat & Hid).
  { apply list_elem_of_lookup. by exists k. }
  exists row. split; [exact Hx|].
  unfold Component.renderRow in Hfx. rewrite Hat in Hfx. injection Hfx as <-.
  simpl. split; [exact Hid|]. split; [apply Measurement.parseInt_numberToString|done].
Qed.

Lemma rendering_the_range_never_throws_witness :
  validateProps threeProps = inr tt
  ∧ Component.KeysOf threeItems threeProps
  ∧ ∃ r rendered,
      useFixedSizeList threeProps ∅ 0 30 = inr r
      ∧ Component.render threeItems (virtualItems r) = inr rendered
      ∧ length rendered = length (virtualItems r)
      ∧ ∀ k rr, rendered !! k = Some rr ->
          ∃ row, virtualItems r !! k = Some (Some row)
                 ∧ Component.rr_key rr = getItemKey threeProps (index row)
                 ∧ parseInt (Component.rr_dataIndex rr) = Some (index row)
                 ∧ Component.rr_translateY rr = offsetTop row.
Proof.
  assert (Component.KeysOf threeItems threeProps) as Hkeys.
  { split; [reflexivity|]. intros i Hi. simpl in Hi.
    destruct i as [|[|[|i]]]; [reflexivity..|lia]. }
  split; [reflexivity|]. split; [exact Hkeys|].
  apply (rendering_the_range_never_throws threeProps threeItems ∅ 0 30);
    [reflexivity|exact Hkeys].
Defined.

(** Three items of estimated height 16 under a viewport of 30: the hook
    hands back the rows 0 to 2 and the component renders the three of
    them. *)
Example three_rows_rendered :
  ∃ r rendered,
    useFixedSizeList threeProps ∅ 0 30 = inr r
    ∧ (r_startIndex r, r_endIndex r) = (0, 2)
    ∧ Component.render threeItems (virtualItems r) = inr rendered
    ∧ length rendered = 3%nat.
Proof. eexists _, _. repeat split; vm_compute; reflexivity. Qed.

End ComponentFacts.


(** *** The revision before the measurement cache *)

Module EasyFacts.
Import MoreExamples.

Lemma slice_fmap {A B} (f : A -> B) (l : list A) (start stop : Z) :
  slice (f <$> l) start stop = f <$> slice l start stop.
Proof. unfold slice. by rewrite length_fmap, fmap_take, fmap_drop. Qed.

(** The states of the two passes that correspond after [k] iterations. *)
Lemma passes_correspond props callsBefore getItemKey cache scrollTop listHeight
    (r k : nat) (st : DynamicHeightEasy.PassState) (st' : DynamicHeight.PassState) :
  DynamicHeightEasy.calls st = (callsBefore + k)%nat ->
  DynamicHeightEasy.startIndex st = DynamicHeight.startIndex st' ->
  DynamicHeightEasy.endIndex st = DynamicHeight.endIndex st' ->
  DynamicHeightEasy.totalHeight st = DynamicHeight.totalHeight st' ->
  DynamicHeightEasy.allRows st
    = DynamicHeightEasy.forgetKeys (DynamicHeight.allRows st') ->
  ∃ st1',
    DynamicHeight.forLoop
      (DynamicHeightEasy.laterProps props callsBefore getItemKey)
      cache scrollTop listHeight r (Z.of_nat k) st' = inr st1'
    ∧ DynamicHeightEasy.calls
        (DynamicHeightEasy.forLoop props scrollTop listHeight r (Z.of_nat k) st)
      = (callsBefore + k + r)%nat
    ∧ DynamicHeightEasy.startIndex
        (DynamicHeightEasy.forLoop props scrollTop listHeight r (Z.of_nat k) st)
      = DynamicHeight.startIndex st1'
    ∧ DynamicHeightEasy.endIndex
        (DynamicHeightEasy.forLoop props scrollTop listHeight r (Z.of_nat k) st)
      = DynamicHeight.endIndex st1'
    ∧ DynamicHeightEasy.totalHeight
        (DynamicHeightEasy.forLoop props scrollTop listHeight r (Z.of_nat k) st)
      = DynamicHeight.totalHeight st1'
    ∧ DynamicHeightEasy.allRows
        (DynamicHeightEasy.forLoop props scrollTop listHeight r (Z.of_nat k) st)
      = DynamicHeightEasy.forgetKeys (DynamicHeight.allRows st1').
Proof.
  revert k st st'. induction r as [|r IH]; intros k st st' Hc Hs He Ht Hrows.
  - exists st'. simpl. repeat split; try done. lia.
  - cbn [DynamicHeight.forLoop DynamicHeightEasy.forLoop].
    rewrite (DynamicHeightFacts.loopBody_afterIteration
               (DynamicHeightEasy.laterProps props callsBefore getItemKey) cache
               scrollTop listHeight
               (fun i => DynamicHeightEasy.itemHeight props (callsBefore + Z.to_nat i)))
      by reflexivity.
    cbn [bind].
    replace (Z.of_nat k + 1) with (Z.of_nat (S k)) by lia.
    edestruct (IH (S k) (DynamicHeightEasy.loopBody props scrollTop listHeight
                           (Z.of_nat k) st)) as (st1' & Hloop & Hc1 & Hrest);
      [..|exists st1'; split; [exact Hloop|]; split; [lia|exact Hrest]].
    + simpl. lia.
    + simpl. rewrite Hc, Hs, Ht, Nat2Z.id. reflexivity.
    + simpl. rewrite Hc, He, Ht, Nat2Z.id. reflexivity.
    + simpl. rewrite Hc, Ht, Nat2Z.id. reflexivity.
    + simpl. unfold DynamicHeightEasy.forgetKeys.
      rewrite Hc, Ht, Hrows, !Nat2Z.id, list_fmap_insert. reflexivity.
Qed.

(** The two revisions of the hook agree: from a point where [itemHeight]
    has been called [callsBefore] times, the earlier revision returns the
    indices, the total height and, but for the keys, the rows that the
    later one returns when its [itemHeight] answers for index [i] what the
    [i]-th of the coming calls answers; and it calls [itemHeight] exactly
    once for every element. *)
Theorem earlier_revision_agrees props callsBefore getItemKey cache scrollTop listHeight :
  ∃ r',
    DynamicHeight.useFixedSizeList
      (DynamicHeightEasy.laterProps props callsBefore getItemKey)
      cache scrollTop listHeight = inr r'
    ∧ DynamicHeightEasy.r_startIndex
        (DynamicHeightEasy.rangeMemo props scrollTop listHeight callsBefore).1
      = DynamicHeight.r_startIndex r'
    ∧ DynamicHeightEasy.r_endIndex
        (DynamicHeightEasy.rangeMemo props scrollTop listHeight callsBefore).1
      = DynamicHeight.r_endIndex r'
    ∧ DynamicHeightEasy.r_totalHeight
        (DynamicHeightEasy.rangeMemo props scrollTop listHeight callsBefore).1
      = DynamicHeight.r_totalHeight r'
    ∧ DynamicHeightEasy.virtualItems
        (DynamicHeightEasy.rangeMemo props scrollTop listHeight callsBefore).1
      = DynamicHeightEasy.forgetKeys (DynamicHeight.virtualItems r')
    ∧ (DynamicHeightEasy.rangeMemo props scrollTop listHeight callsBefore).2
      = (callsBefore + DynamicHeightEasy.elementsQuantity props)%nat.
Proof.
  destruct (passes_correspond props callsBefore getItemKey cache scrollTop listHeight
              (DynamicHeightEasy.elementsQuantity props) 0
              (DynamicHeightEasy.initialState props callsBefore)
              (DynamicHeight.initialState
                 (DynamicHeightEasy.laterProps props callsBefore getItemKey)))
    as (st' & Hloop & Hc & Hs & He & Ht & Hrows).
  { simpl. lia. }
  { reflexivity. }
  { reflexivity. }
  { reflexivity. }
  { simpl. unfold DynamicHeightEasy.forgetKeys. by rewrite fmap_replicate. }
  eexists. split.
  - unfold DynamicHeight.useFixedSizeList, DynamicHeight.rangeMemo, DynamicHeight.pass.
    change (DynamicHeight.elementsQuantity
              (DynamicHeightEasy.laterProps props callsBefore getItemKey))
      with (DynamicHeightEasy.elementsQuantity props).
    change (Z.of_nat 0) with 0 in Hloop. rewrite Hloop. reflexivity.
  - unfold DynamicHeightEasy.rangeMemo, DynamicHeightEasy.pass.
    change (Z.of_nat 0) with 0 in *. simpl.
    unfold DynamicHeightEasy.forgetKeys in *.
    rewrite Hs, He, Ht, Hrows, Hc, slice_fmap. repeat split; lia.
Qed.

(** A pass of the earlier revision over 20 elements whose heights vary
    between 40 and 50, after 7 earlier calls of [itemHeight]. *)
Example easy_demo_pass :
  (DynamicHeightEasy.r_startIndex (DynamicHeightEasy.rangeMemo easyProps 100 200 7).1,
   DynamicHeightEasy.r_endIndex (DynamicHeightEasy.rangeMemo easyProps 100 200 7).1,
   DynamicHeightEasy.r_totalHeight (DynamicHeightEasy.rangeMemo easyProps 100 200 7).1,
   (DynamicHeightEasy.rangeMemo easyProps 100 200 7).2)
  = (0, 9, 899, 27%nat).
Proof. vm_compute. reflexivity. Qed.

End EasyFacts.


(** *** Whole runs of the scroll effects *)

Module ScrollRuns.
Import Examples MoreExamples ScrollState.

Lemma run_invariant (I : World -> Prop) handle cleanup :
  (∀ w e, I w -> I (step handle cleanup w e)) ->
  ∀ es w, I w -> I (run handle cleanup es w).
Proof.
  intros Hstep es. induction es as [|e es IH]; intros w Hw; [done|].
  simpl. apply IH. by apply Hstep.
Qed.

Lemma run_app handle cleanup es es' w :
  run handle cleanup (es ++ es') w = run handle cleanup es' (run handle cleanup es w).
Proof. unfold run. apply foldl_app. Qed.

Lemma restartTimer_frame delay w :
  elementListeners (restartTimer delay w) = elementListeners w
  ∧ windowListeners (restartTimer delay w) = windowListeners w
  ∧ mounted (restartTimer delay w) = mounted w
  ∧ elementScrollTop (restartTimer delay w) = elementScrollTop w
  ∧ scrollTopState (restartTimer delay w) = scrollTopState w.
Proof.
  unfold restartTimer, windowSetTimeout, windowClearTimeout. simpl.
  by destruct (truthy (timeoutId w)).
Qed.

Lemma timer_callbacks_frame (fired : list (Z * Z)) w :
  elementListeners (foldl (fun acc _ => setIsScrolling false acc) w fired)
    = elementListeners w
  ∧ mounted (foldl (fun acc _ => setIsScrolling false acc) w fired) = mounted w
  ∧ elementScrollTop (foldl (fun acc _ => setIsScrolling false acc) w fired)
    = elementScrollTop w
  ∧ scrollTopState (foldl (fun acc _ => setIsScrolling false acc) w fired)
    = scrollTopState w
  ∧ timeoutId (foldl (fun acc _ => setIsScrolling false acc) w fired)
    = timeoutId w.
Proof.
  revert w. induction fired as [|x fired IH]; intros w; simpl; [done|].
  destruct (IH (setIsScrolling false w)) as (-> & -> & -> & -> & ->). done.
Qed.

Lemma elapse_frame dt w :
  elementListeners (elapse dt w) = elementListeners w
  ∧ mounted (elapse dt w) = mounted w
  ∧ elementScrollTop (elapse dt w) = elementScrollTop w
  ∧ scrollTopState (elapse dt w) = scrollTopState w
  ∧ timeoutId (elapse dt w) = timeoutId w.
Proof.
  unfold elapse.
  destruct (timer_callbacks_frame
              (Timers.due (Timers.clock (timers w) + dt) (timers w))
              (withTimers (Timers.advance dt (timers w)) w))
    as (-> & -> & -> & -> & ->).
  done.
Qed.

Lemma elapse_SingleTimer dt w : SingleTimer w -> SingleTimer (elapse dt w).
Proof.
  intros [Hone Hlen]. split; [by apply elapse_OneTimer|].
  rewrite elapse_timers. simpl.
  etrans; [apply length_filter|done].
Qed.

Lemma restartTimer_SingleTimer delay w :
  SingleTimer w -> SingleTimer (restartTimer delay w).
Proof.
  intros [Hone _]. split; [by apply restartTimer_OneTimer|].
  destruct (restartTimer_spec delay w Hone) as (-> & _). done.
Qed.

Lemma DynamicHeight_handlers_SingleTimer props (ls : list Listener) w :
  SingleTimer w ->
  SingleTimer (foldl (fun acc h => DynamicHeight.handle props h acc) w ls).
Proof.
  revert w. induction ls as [|h ls IH]; intros w Hw; [done|].
  simpl. apply IH. destruct h; simpl.
  - exact Hw.
  - by apply restartTimer_SingleTimer.
  - exact Hw.
Qed.

Lemma DynamicHeight_run_SingleTimer props es :
  SingleTimer (DynamicHeight.runHook props es).
Proof.
  unfold DynamicHeight.runHook. apply run_invariant.
  - intros w [position|dt|] Hw; simpl.
    + unfold dispatchScroll. by apply DynamicHeight_handlers_SingleTimer.
    + by apply elapse_SingleTimer.
    + unfold unmount, DynamicHeight.cleanupEffects.
      by destruct (DynamicHeight.getScrollElement props).
  - unfold DynamicHeight.mountEffects.
    assert (SingleTimer initialWorld) as Hinit.
    { split; [split; [done|]|simpl; lia]. intros p Hp. inversion Hp. }
    by destruct (DynamicHeight.getScrollElement props).
Qed.

Lemma Simple_handlers_SingleTimer props (ls : list Listener) w :
  SingleTimer w ->
  SingleTimer (foldl (fun acc h => Simple.handle props h acc) w ls).
Proof.
  revert w. induction ls as [|h ls IH]; intros w Hw; [done|].
  simpl. apply IH. destruct h; simpl; [exact Hw|exact Hw|].
  rewrite Simple_handleScroll_restartTimer. by apply restartTimer_SingleTimer.
Qed.

Lemma Simple_run_SingleTimer props es : SingleTimer (Simple.runHook props es).
Proof.
  unfold Simple.runHook. apply run_invariant.
  - intros w [position|dt|] Hw; simpl.
    + unfold dispatchScroll. by apply Simple_handlers_SingleTimer.
    + by apply elapse_SingleTimer.
    + unfold unmount, Simple.cleanupEffect.
      by destruct (Simple.getScrollElement props).
  - unfold Simple.mountEffect.
    assert (SingleTimer initialWorld) as Hinit.
    { split; [split; [done|]|simpl; lia]. intros p Hp. inversion Hp. }
    destruct (Simple.getScrollElement props); [|done].
    rewrite Simple_handleScroll_restartTimer.
    pose proof (restartTimer_SingleTimer (Simple.scrollingDelay' props)
                  (setScrollTop (elementScrollTop (withTimeoutId None initialWorld))
                     (withTimeoutId None initialWorld)) Hinit) as [Hone Hlen].
    split; [exact Hone|exact Hlen].
Qed.

(** Timers never overlap: whatever happens to either hook (scrolls, time
    passing, teardown, in any order), at most one debounce timer is
    pending. *)
Theorem at_most_one_pending_timer es :
  (∀ props,
     (length (Timers.pending (timers (DynamicHeight.runHook props es))) <= 1)%nat)
  ∧ (∀ props,
       (length (Timers.pending (timers (Simple.runHook props es))) <= 1)%nat).
Proof.
  split; intros props.
  - apply DynamicHeight_run_SingleTimer.
  - apply Simple_run_SingleTimer.
Qed.

Lemma OneTimer_ext w w1 :
  timers w1 = timers w -> timeoutId w1 = timeoutId w -> OneTimer w -> OneTimer w1.
Proof. unfold OneTimer. by intros -> ->. Qed.

(** A scroll notification with [useFixedListSize] subscribed. *)
Lemma Simple_dispatch props position w :
  elementListeners w = [SimpleHandleScroll] ->
  ∃ w1,
    dispatchScroll (Simple.handle props) position w
    = restartTimer (Simple.scrollingDelay' props) w1
    ∧ timers w1 = timers w
    ∧ timeoutId w1 = timeoutId w
    ∧ elementListeners w1 = elementListeners w
    ∧ mounted w1 = mounted w.
Proof.
  intros Hls. unfold dispatchScroll. rewrite Hls.
  eexists. split; [reflexivity|]. done.
Qed.

Lemma Simple_run_listeners props es :
  Simple.getScrollElement props = true ->
  elementListeners (Simple.runHook props es) = [SimpleHandleScroll].
Proof.
  intros Hel. unfold Simple.runHook.
  apply (run_invariant (fun w => elementListeners w = [SimpleHandleScroll])).
  - intros w [position|dt|] Hw; simpl.
    + destruct (Simple_dispatch props position w Hw) as (w1 & -> & _ & _ & Hls & _).
      destruct (restartTimer_frame (Simple.scrollingDelay' props) w1) as (-> & _).
      by rewrite Hls.
    + by destruct (elapse_frame dt w) as (-> & _).
    + unfold unmount, Simple.cleanupEffect. by rewrite Hel.
  - unfold Simple.mountEffect. rewrite Hel. reflexivity.
Qed.

(** [useFixedListSize] never unsubscribes: after any history, teardown
    included, its handler is still the element's scroll listener, and the
    next scroll notification leaves exactly one pending timer, due one
    [scrollingDelay] later. *)
Theorem Simple_scroll_always_restarts_the_timer props es position :
  Simple.getScrollElement props = true ->
  elementListeners (Simple.runHook props es) = [SimpleHandleScroll]
  ∧ Timers.pending (timers (Simple.runHook props (es ++ [Scroll position])))
    = [(Timers.nextId (timers (Simple.runHook props es)),
        Timers.clock (timers (Simple.runHook props es))
        + Z.max 0 (Simple.scrollingDelay' props))].
Proof.
  intros Hel. pose proof (Simple_run_listeners props es Hel) as Hls.
  split; [exact Hls|].
  destruct (Simple_run_SingleTimer props es) as [Hone _].
  unfold Simple.runHook in *. rewrite run_app.
  set (w := run (Simple.handle props) (Simple.cleanupEffect props) es
              (Simple.mountEffect props initialWorld)) in *.
  cbn [run foldl step].
  destruct (Simple_dispatch props position w Hls) as (w1 & -> & Ht & Hid & _).
  destruct (restartTimer_spec (Simple.scrollingDelay' props) w1) as (-> & _).
  { by apply (OneTimer_ext w). }
  by rewrite Ht.
Qed.

Lemma Simple_scroll_always_restarts_the_timer_witness :
  Simple.getScrollElement (simpleProps 25 35 (Some 500)) = true
  ∧ elementListeners (Simple.runHook (simpleProps 25 35 (Some 500))
                        [Scroll 10; Unmount; Elapse 700])
    = [SimpleHandleScroll]
  ∧ Timers.pending
      (timers (Simple.runHook (simpleProps 25 35 (Some 500))
                 ([Scroll 10; Unmount; Elapse 700] ++ [Scroll 20])))
    = [(Timers.nextId
          (timers (Simple.runHook (simpleProps 25 35 (Some 500))
                     [Scroll 10; Unmount; Elapse 700])),
        Timers.clock
          (timers (Simple.runHook (simpleProps 25 35 (Some 500))
                     [Scroll 10; Unmount; Elapse 700]))
        + Z.max 0 (Simple.scrollingDelay' (simpleProps 25 35 (Some 500))))].
Proof.
  split; [reflexivity|].
  apply (Simple_scroll_always_restarts_the_timer (simpleProps 25 35 (Some 500))
           [Scroll 10; Unmount; Elapse 700] 20).
  reflexivity.
Defined.

(** A scroll notification with both handlers of [useFixedSizeList]
    subscribed. *)
Lemma DynamicHeight_dispatch props position w :
  elementListeners w = [SyncScrollTop; ConfigureIsScrolling] ->
  ∃ w1,
    dispatchScroll (DynamicHeight.handle props) position w
    = restartTimer DynamicHeight.SCROLLING_DELAY w1
    ∧ timers w1 = timers w
    ∧ timeoutId w1 = timeoutId w
    ∧ elementListeners w1 = elementListeners w
    ∧ mounted w1 = mounted w
    ∧ elementScrollTop w1 = position
    ∧ scrollTopState w1 = (if mounted w then position else scrollTopState w).
Proof.
  intros Hls. unfold dispatchScroll. rewrite Hls.
  eexists. split; [reflexivity|]. done.
Qed.

Lemma DynamicHeight_step_Attached props w e :
  DynamicHeight.getScrollElement props = true ->
  Attached w ->
  Attached (step (DynamicHeight.handle props) (DynamicHeight.cleanupEffects props) w e).
Proof.
  intros Hel Hw. destruct e as [position|dt|]; simpl.
  - destruct Hw as [(Hm & Hls & Hsync)|(Hm & Hls)].
    + destruct (DynamicHeight_dispatch props position w Hls)
        as (w1 & -> & _ & _ & Hls1 & Hm1 & Hpos & Hstate).
      destruct (restartTimer_frame DynamicHeight.SCROLLING_DELAY w1)
        as (Hf1 & _ & Hf2 & Hf3 & Hf4).
      left. rewrite Hf1, Hf2, Hf3, Hf4, Hls1, Hm1, Hpos, Hstate, Hm. done.
    + right. unfold dispatchScroll. rewrite Hls. done.
  - destruct (elapse_frame dt w) as (Hf1 & Hf2 & Hf3 & Hf4 & _).
    unfold Attached. by rewrite Hf1, Hf2, Hf3, Hf4.
  - right. unfold unmount, DynamicHeight.cleanupEffects. rewrite Hel. simpl.
    split; [done|].
    destruct Hw as [(_ & -> & _)|(_ & ->)]; reflexivity.
Qed.

Lemma DynamicHeight_run_Attached props es :
  DynamicHeight.getScrollElement props = true ->
  Attached (DynamicHeight.runHook props es).
Proof.
  intros Hel. unfold DynamicHeight.runHook. apply run_invariant.
  - intros w e. by apply DynamicHeight_step_Attached.
  - unfold DynamicHeight.mountEffects. rewrite Hel. by left.
Qed.

(** While [useFixedSizeList] is mounted on a scroll element, its
    [scrollTop] state is the element's scroll position after every event,
    and a scroll notification raises [isScrolling] and leaves one pending
    timer, due [SCROLLING_DELAY] later. *)
Theorem scrollTop_follows_the_element props es position :
  DynamicHeight.getScrollElement props = true ->
  Unmount ∉ es ->
  scrollTopState (DynamicHeight.runHook props es)
    = elementScrollTop (DynamicHeight.runHook props es)
  ∧ scrollTopState (DynamicHeight.runHook props (es ++ [Scroll position])) = position
  ∧ isScrolling (DynamicHeight.runHook props (es ++ [Scroll position])) = true
  ∧ Timers.pending (timers (DynamicHeight.runHook props (es ++ [Scroll position])))
    = [(Timers.nextId (timers (DynamicHeight.runHook props es)),
        Timers.clock (timers (DynamicHeight.runHook props es))
        + DynamicHeight.SCROLLING_DELAY)].
Proof.
  intros Hel Hno.
  pose proof (DynamicHeight_run_Attached props es Hel) as Hatt.
  destruct (DynamicHeight_run_SingleTimer props es) as [Hone _].
  assert (mounted (DynamicHeight.runHook props es) = true) as Hm.
  { destruct Hatt as [(Hm & _)|(Hm & _)]; [done|].
    exfalso. revert Hm. unfold DynamicHeight.runHook.
    assert (∀ l w, Unmount ∉ l -> mounted w = true ->
              mounted (run (DynamicHeight.handle props)
                         (DynamicHeight.cleanupEffects props) l w) = true) as Hrun.
    { intros l. induction l as [|e l IH]; intros w Hl Hw; [done|].
      simpl. apply IH; [intros Hin; apply Hl; by right|].
      destruct e as [p|dt|]; simpl.
      - unfold dispatchScroll.
        assert (∀ ls w0, mounted w0 = true ->
                  mounted (foldl (fun acc h => DynamicHeight.handle props h acc)
                             w0 ls) = true) as Hfold.
        { intros ls. induction ls as [|h ls IHls]; intros w0 Hw0; [done|].
          simpl. apply IHls. destruct h; [by simpl| |by simpl].
          change (DynamicHeight.handle props ConfigureIsScrolling w0)
            with (restartTimer DynamicHeight.SCROLLING_DELAY w0).
          by destruct (restartTimer_frame DynamicHeight.SCROLLING_DELAY w0)
            as (_ & _ & -> & _). }
        by apply Hfold.
      - by destruct (elapse_frame dt w) as (_ & -> & _).
      - exfalso. apply Hl. by left. }
    rewrite Hrun; [done|done|].
    unfold DynamicHeight.mountEffects. by rewrite Hel. }
  destruct Hatt as [(_ & Hls & Hsync)|(Hm' & _)]; [|congruence].
  split; [exact Hsync|].
  unfold DynamicHeight.runHook in *. rewrite run_app.
  set (w := run (DynamicHeight.handle props) (DynamicHeight.cleanupEffects props) es
              (DynamicHeight.mountEffects props initialWorld)) in *.
  cbn [run foldl step].
  destruct (DynamicHeight_dispatch props position w Hls)
    as (w1 & -> & Ht & Hid & _ & Hm1 & _ & Hstate).
  assert (OneTimer w1) as Hone1 by (by apply (OneTimer_ext w)).
  destruct (restartTimer_spec DynamicHeight.SCROLLING_DELAY w1 Hone1)
    as (-> & _ & _ & _ & _ & Hflag).
  destruct (restartTimer_frame DynamicHeight.SCROLLING_DELAY w1)
    as (_ & _ & _ & _ & ->).
  rewrite Hstate, Hm, Ht. split; [done|]. split; [|done].
  apply Hflag. congruence.
Qed.

Lemma scrollTop_follows_the_element_witness :
  DynamicHeight.getScrollElement delayedProps = true
  ∧ (Unmount ∉ [Scroll 10; Elapse 100])
  ∧ scrollTopState (DynamicHeight.runHook delayedProps [Scroll 10; Elapse 100])
    = elementScrollTop (DynamicHeight.runHook delayedProps [Scroll 10; Elapse 100])
  ∧ scrollTopState
      (DynamicHeight.runHook delayedProps ([Scroll 10; Elapse 100] ++ [Scroll 20]))
    = 20
  ∧ isScrolling
      (DynamicHeight.runHook delayedProps ([Scroll 10; Elapse 100] ++ [Scroll 20]))
    = true
  ∧ Timers.pending
      (timers (DynamicHeight.runHook delayedProps
                 ([Scroll 10; Elapse 100] ++ [Scroll 20])))
    = [(Timers.nextId
          (timers (DynamicHeight.runHook delayedProps [Scroll 10; Elapse 100])),
        Timers.clock
          (timers (DynamicHeight.runHook delayedProps [Scroll 10; Elapse 100]))
        + DynamicHeight.SCROLLING_DELAY)].
Proof.
  assert (Unmount ∉ [Scroll 10; Elapse 100]) as Hno.
  { intros Hin%list_elem_of_In. simpl in Hin.
    destruct Hin as [H|[H|[]]]; discriminate. }
  split; [reflexivity|]. split; [exact Hno|].
  apply (scrollTop_follows_the_element delayedProps [Scroll 10; Elapse 100] 20);
    [reflexivity|exact Hno].
Defined.

(** Teardown freezes [useFixedSizeList]: once unmounted, whatever happens
    next, its handlers stay unsubscribed, [isScrolling] and [scrollTop]
    keep the values they had, and no timer is ever started again. *)
Theorem teardown_freezes_the_hook props es es' :
  DynamicHeight.getScrollElement props = true ->
  elementListeners (DynamicHeight.runHook props (es ++ [Unmount] ++ es')) = []
  ∧ mounted (DynamicHeight.runHook props (es ++ [Unmount] ++ es')) = false
  ∧ isScrolling (DynamicHeight.runHook props (es ++ [Unmount] ++ es'))
    = isScrolling (DynamicHeight.runHook props (es ++ [Unmount]))
  ∧ scrollTopState (DynamicHeight.runHook props (es ++ [Unmount] ++ es'))
    = scrollTopState (DynamicHeight.runHook props (es ++ [Unmount]))
  ∧ Timers.nextId (timers (DynamicHeight.runHook props (es ++ [Unmount] ++ es')))
    = Timers.nextId (timers (DynamicHeight.runHook props (es ++ [Unmount]))).
Proof.
  intros Hel.
  pose proof (DynamicHeight_run_Attached props (es ++ [Unmount]) Hel) as Hatt.
  assert (mounted (DynamicHeight.runHook props (es ++ [Unmount])) = false) as Hm.
  { unfold DynamicHeight.runHook. rewrite run_app. reflexivity. }
  destruct Hatt as [(Hm' & _)|(_ & Hls)]; [congruence|].
  rewrite app_assoc. unfold DynamicHeight.runHook in *.
  rewrite (run_app _ _ (es ++ [Unmount]) es').
  set (w0 := run (DynamicHeight.handle props) (DynamicHeight.cleanupEffects props)
               (es ++ [Unmount]) (DynamicHeight.mountEffects props initialWorld)) in *.
  apply (run_invariant
           (fun w => elementListeners w = []
                     ∧ mounted w = false
                     ∧ isScrolling w = isScrolling w0
                     ∧ scrollTopState w = scrollTopState w0
                     ∧ Timers.nextId (timers w) = Timers.nextId (timers w0)));
    [|done].
  intros w e (Hl & Hmw & Hs & Hst & Hid). destruct e as [position|dt|]; simpl.
  - unfold dispatchScroll. rewrite Hl. done.
  - destruct (elapse_frame dt w) as (-> & -> & _ & -> & _).
    rewrite elapse_timers. unfold elapse.
    destruct (stale_timer_callbacks
                (Timers.due (Timers.clock (timers w) + dt) (timers w))
                (withTimers (Timers.advance dt (timers w)) w)) as [_ ->]; [done|].
    done.
  - unfold unmount, DynamicHeight.cleanupEffects. rewrite Hel, Hl. done.
Qed.

Lemma teardown_freezes_the_hook_witness :
  DynamicHeight.getScrollElement demoProps = true
  ∧ elementListeners
      (DynamicHeight.runHook demoProps
         ([Scroll 10] ++ [Unmount] ++ [Scroll 30; Elapse 150])) = []
  ∧ mounted
      (DynamicHeight.runHook demoProps
         ([Scroll 10] ++ [Unmount] ++ [Scroll 30; Elapse 150])) = false
  ∧ isScrolling
      (DynamicHeight.runHook demoProps
         ([Scroll 10] ++ [Unmount] ++ [Scroll 30; Elapse 150]))
    = isScrolling (DynamicHeight.runHook demoProps ([Scroll 10] ++ [Unmount]))
  ∧ scrollTopState
      (DynamicHeight.runHook demoProps
         ([Scroll 10] ++ [Unmount] ++ [Scroll 30; Elapse 150]))
    = scrollTopState (DynamicHeight.runHook demoProps ([Scroll 10] ++ [Unmount]))
  ∧ Timers.nextId
      (timers (DynamicHeight.runHook demoProps
                 ([Scroll 10] ++ [Unmount] ++ [Scroll 30; Elapse 150])))
    = Timers.nextId
        (timers (DynamicHeight.runHook demoProps ([Scroll 10] ++ [Unmount]))).
Proof.
  split; [reflexivity|].
  apply (teardown_freezes_the_hook demoProps [Scroll 10] [Scroll 30; Elapse 150]).
  reflexivity.
Defined.

Lemma mounted_world_OneTimer props :
  OneTimer (DynamicHeight.mountEffects props initialWorld).
Proof.
  unfold DynamicHeight.mountEffects.
  destruct (DynamicHeight.getScrollElement props);
    (split; [done|intros p Hp; inversion Hp]).
Qed.

Lemma DynamicHeight_window_is_constant_witness :
  OneTimer (DynamicHeight.mountEffects delayedProps initialWorld)
  ∧ mounted (DynamicHeight.mountEffects delayedProps initialWorld) = true
  ∧ isScrolling (DynamicHeight.handleScroll delayedProps
                   (DynamicHeight.mountEffects delayedProps initialWorld)) = true
  ∧ isScrolling (elapse 200 (DynamicHeight.handleScroll delayedProps
                               (DynamicHeight.mountEffects delayedProps initialWorld)))
    = bool_decide (200 < DynamicHeight.SCROLLING_DELAY).
Proof.
  split; [apply mounted_world_OneTimer|]. split; [reflexivity|].
  apply (DynamicHeight_window_is_constant delayedProps
           (DynamicHeight.mountEffects delayedProps initialWorld) 200);
    [apply mounted_world_OneTimer|reflexivity].
Defined.

Lemma Simple_window_is_scrollingDelay_witness :
  OneTimer initialWorld
  ∧ mounted initialWorld = true
  ∧ isScrolling (Simple.handleScroll (simpleProps 25 35 (Some 500)) initialWorld) = true
  ∧ isScrolling (elapse 200 (Simple.handleScroll (simpleProps 25 35 (Some 500))
                               initialWorld))
    = bool_decide (200 < Z.max 0 (Simple.scrollingDelay' (simpleProps 25 35 (Some 500)))).
Proof.
  assert (OneTimer initialWorld) as H.
  { split; [done|intros p Hp; inversion Hp]. }
  split; [exact H|]. split; [reflexivity|].
  apply (Simple_window_is_scrollingDelay (simpleProps 25 35 (Some 500)) initialWorld 200);
    [exact H|reflexivity].
Defined.

End ScrollRuns.


(** *** The fixed-height hook and its component *)

Module SimpleRange.
Import Examples MoreExamples.

(** What the 'Calculations' memo returns for an [elementHeight] other than
    zero (with zero the divisions give [NaN] or an infinity and no item is
    produced): [START_INDEX] is not negative, [END_INDEX] is at most
    [list.length] (not [list.length - 1]), and the virtual items are the
    ids from [START_INDEX] to [END_INDEX] in order, each at
    [id * elementHeight]; none when the range is inverted. *)
Theorem Simple_range_enumerates props (items : list Simple.IItem) scrollTop :
  Simple.elementHeight props ≠ 0 ->
  0 <= (Simple.rangeMemo props items scrollTop).1.1
  ∧ (Simple.rangeMemo props items scrollTop).1.2 <= Z.of_nat (length items)
  ∧ length (Simple.rangeMemo props items scrollTop).2
    = Z.to_nat ((Simple.rangeMemo props items scrollTop).1.2
                - (Simple.rangeMemo props items scrollTop).1.1 + 1)
  ∧ ∀ k, (k < length (Simple.rangeMemo props items scrollTop).2)%nat ->
      (Simple.rangeMemo props items scrollTop).2 !! k
      = Some {| Simple.v_offsetTop :=
                  ((Simple.rangeMemo props items scrollTop).1.1 + Z.of_nat k)
                  * Simple.elementHeight props;
                Simple.v_id := (Simple.rangeMemo props items scrollTop).1.1 + Z.of_nat k;
                Simple.v_content :=
                  (Simple.rangeMemo props items scrollTop).1.1 + Z.of_nat k |}.
Proof.
  intros _. unfold Simple.rangeMemo. cbn [fst snd].
  split; [lia|]. split; [lia|].
  rewrite length_fmap, length_seqZ. split; [done|].
  intros k Hk. rewrite list_lookup_fmap, lookup_seqZ_lt by lia. done.
Qed.

Lemma Simple_range_enumerates_witness :
  Simple.elementHeight (simpleProps 25 40 None) ≠ 0
  ∧ 0 <= (Simple.rangeMemo (simpleProps 25 40 None) Simple.items 110).1.1
  ∧ (Simple.rangeMemo (simpleProps 25 40 None) Simple.items 110).1.2
    <= Z.of_nat (length Simple.items)
  ∧ length (Simple.rangeMemo (simpleProps 25 40 None) Simple.items 110).2
    = Z.to_nat ((Simple.rangeMemo (simpleProps 25 40 None) Simple.items 110).1.2
                - (Simple.rangeMemo (simpleProps 25 40 None) Simple.items 110).1.1 + 1)
  ∧ ∀ k, (k < length (Simple.rangeMemo (simpleProps 25 40 None) Simple.items 110).2)%nat ->
      (Simple.rangeMemo (simpleProps 25 40 None) Simple.items 110).2 !! k
      = Some {| Simple.v_offsetTop :=
                  ((Simple.rangeMemo (simpleProps 25 40 None) Simple.items 110).1.1
                   + Z.of_nat k)
                  * Simple.elementHeight (simpleProps 25 40 None);
                Simple.v_id :=
                  (Simple.rangeMemo (simpleProps 25 40 None) Simple.items 110).1.1
                  + Z.of_nat k;
                Simple.v_content :=
                  (Simple.rangeMemo (simpleProps 25 40 None) Simple.items 110).1.1
                  + Z.of_nat k |}.
Proof.
  split; [discriminate|].
  apply (Simple_range_enumerates (simpleProps 25 40 None) Simple.items 110).
  discriminate.
Defined.

(** At scroll offset 110 with rows of 40 the memo returns the ids 0 to 46,
    47 items in all. *)
Example Simple_range_at_110 :
  (Simple.rangeMemo (simpleProps 25 40 None) Simple.items 110).1 = (0, 46)
  ∧ length (Simple.rangeMemo (simpleProps 25 40 None) Simple.items 110).2 = 47%nat.
Proof. split; vm_compute; reflexivity. Qed.

Lemma roundDiv_bounds (a h : Z) :
  0 < h -> a / h <= Simple.roundDiv a h <= a / h + 1.
Proof.
  intros Hh. unfold Simple.roundDiv.
  pose proof (Z.mul_div_le a h Hh) as Hlow.
  pose proof (Z.mul_succ_div_gt a h Hh) as Hhigh.
  split.
  - apply Z.div_le_lower_bound; lia.
  - assert ((2 * a + h) / (2 * h) < a / h + 2); [|lia].
    apply Z.div_lt_upper_bound; lia.
Qed.

(** With an overscan of at least one row the row that holds the top edge
    is rendered: [START_INDEX] is not below it, and at most [overscan]
    rows above it. *)
Theorem Simple_top_row_is_rendered props (items : list Simple.IItem) scrollTop :
  0 < Simple.elementHeight props ->
  0 <= scrollTop ->
  1 <= Simple.overscan' props ->
  Z.max 0 (scrollTop / Simple.elementHeight props - Simple.overscan' props)
    <= (Simple.rangeMemo props items scrollTop).1.1
    <= scrollTop / Simple.elementHeight props.
Proof.
  intros Hh Htop Ho. unfold Simple.rangeMemo. cbn [fst snd].
  pose proof (roundDiv_bounds scrollTop (Simple.elementHeight props) Hh).
  pose proof (Z.div_pos scrollTop (Simple.elementHeight props) Htop Hh).
  lia.
Qed.

Lemma Simple_top_row_is_rendered_witness :
  0 < Simple.elementHeight (simpleProps 25 40 None)
  ∧ 0 <= 110
  ∧ 1 <= Simple.overscan' (simpleProps 25 40 None)
  ∧ Z.max 0 (110 / Simple.elementHeight (simpleProps 25 40 None)
             - Simple.overscan' (simpleProps 25 40 None))
      <= (Simple.rangeMemo (simpleProps 25 40 None) Simple.items 110).1.1
      <= 110 / Simple.elementHeight (simpleProps 25 40 None).
Proof.
  split; [reflexivity|]. split; [lia|]. split; [vm_compute; discriminate|].
  apply (Simple_top_row_is_rendered (simpleProps 25 40 None) Simple.items 110);
    [reflexivity|lia|vm_compute; discriminate].
Defined.

Lemma mapM_inl {A B} (f : A -> M B) (l : list A) (x : A) (e : Exn) :
  x ∈ l -> f x = inl e -> ∃ e', mapM f l = inl e'.
Proof.
  induction l as [|y l IH]; intros Hx Hfx; [inversion Hx|].
  simpl. destruct (f y) as [e'|b] eqn:Hfy; simpl; [by eexists|].
  apply elem_of_cons in Hx as [->|Hx]; [congruence|].
  destruct (IH Hx Hfx) as (e' & ->). simpl. by eexists.
Qed.

(** Rendering the range of the fixed-height hook, for an [elementHeight]
    other than zero: while scrolling it never throws; once scrolling has
    stopped it throws exactly when the range is not empty and [END_INDEX]
    has reached [list.length], the id for which the list has no item. *)
Theorem Simple_render_throws_exactly_at_list_length props
    (hookItems items : list Simple.IItem) scrollTop :
  Simple.elementHeight props ≠ 0 ->
  length items = length hookItems ->
  (∃ cells,
     SimpleComponent.render items true (Simple.rangeMemo props hookItems scrollTop).2
     = inr cells
     ∧ length cells = length (Simple.rangeMemo props hookItems scrollTop).2)
  ∧ ((∃ cells,
        SimpleComponent.render items false
          (Simple.rangeMemo props hookItems scrollTop).2 = inr cells)
     <-> (Simple.rangeMemo props hookItems scrollTop).1.2
           < (Simple.rangeMemo props hookItems scrollTop).1.1
         ∨ (Simple.rangeMemo props hookItems scrollTop).1.2
           < Z.of_nat (length items)).
Proof.
  intros _ Hlen. unfold Simple.rangeMemo. cbn [fst snd].
  set (h := Simple.elementHeight props).
  set (first := Z.max 0 (Simple.roundDiv scrollTop h - Simple.overscan' props)).
  set (last := Z.min (Z.of_nat (length hookItems))
                 (Simple.roundDiv (scrollTop + h * h) h + Simple.overscan' props)).
  set (mk := fun i => {| Simple.v_offsetTop := i * h; Simple.v_id := i;
                          Simple.v_content := i |}).
  assert (0 <= first) as Hfirst by (unfold first; lia).
  assert (last <= Z.of_nat (length items)) as Hlast by (unfold last; lia).
  split.
  - destruct (ComponentFacts.mapM_inr (SimpleComponent.renderItem items true)
                (mk <$> seqZ first (last - first + 1)))
      as (cells & Hcells & Hl & _).
    { intros x _. by eexists. }
    by exists cells.
  - split.
    + intros (cells & Hcells).
      destruct (decide (last < first)) as [|Hne]; [by left|]. right.
      destruct (decide (last < Z.of_nat (length items))) as [|Hge]; [done|].
      exfalso.
      destruct (mapM_inl (SimpleComponent.renderItem items false)
                  (mk <$> seqZ first (last - first + 1)) (mk last) TypeError)
        as (e & He).
      * apply list_elem_of_fmap_2. apply elem_of_seqZ. lia.
      * unfold SimpleComponent.renderItem, at_index. simpl.
        destruct (Z.ltb_spec last 0); [done|].
        rewrite lookup_ge_None_2; [done|lia].
      * unfold SimpleComponent.render in Hcells. congruence.
    + intros Hok.
      destruct (ComponentFacts.mapM_inr (SimpleComponent.renderItem items false)
                  (mk <$> seqZ first (last - first + 1)))
        as (cells & Hcells & _).
      * intros x (i & -> & Hi%elem_of_seqZ)%list_elem_of_fmap.
        unfold SimpleComponent.renderItem, at_index. simpl.
        destruct (Z.ltb_spec i 0); [lia|].
        destruct (lookup_lt_is_Some_2 items (Z.to_nat i)) as (item & ->); [lia|].
        by eexists.
      * by exists cells.
Qed.

Lemma Simple_render_throws_exactly_at_list_length_witness :
  Simple.elementHeight (simpleProps 25 40 None) ≠ 0
  ∧ length (SimpleComponent.handleClick Simple.items) = length Simple.items
  ∧ (∃ cells,
       SimpleComponent.render (SimpleComponent.handleClick Simple.items) true
         (Simple.rangeMemo (simpleProps 25 40 None) Simple.items 399990).2
       = inr cells
       ∧ length cells
         = length (Simple.rangeMemo (simpleProps 25 40 None) Simple.items 399990).2)
  ∧ ((∃ cells,
        SimpleComponent.render (SimpleComponent.handleClick Simple.items) false
          (Simple.rangeMemo (simpleProps 25 40 None) Simple.items 399990).2
        = inr cells)
     <-> (Simple.rangeMemo (simpleProps 25 40 None) Simple.items 399990).1.2
           < (Simple.rangeMemo (simpleProps 25 40 None) Simple.items 399990).1.1
         ∨ (Simple.rangeMemo (simpleProps 25 40 None) Simple.items 399990).1.2
           < Z.of_nat (length (SimpleComponent.handleClick Simple.items))).
Proof.
  assert (length (SimpleComponent.handleClick Simple.items) = length Simple.items) as H.
  { unfold SimpleComponent.handleClick. apply length_reverse. }
  split; [discriminate|]. split; [exact H|].
  apply (Simple_render_throws_exactly_at_list_length (simpleProps 25 40 None)
           Simple.items (SimpleComponent.handleClick Simple.items) 399990);
    [discriminate|exact H].
Defined.

(** The window of the fixed-height hook is [elementHeight] rows tall, for
    an [elementHeight] that is a positive integer and a scroll offset that
    is a non-negative integer, both small enough for the divisions and
    roundings of the memo to be exact
    ([2 * (scrollTop + elementHeight * elementHeight) + 2 * elementHeight]
    at most [MAX_SAFE_INTEGER]): the container height is taken as
    [elementHeight * elementHeight], so [END_INDEX - START_INDEX] is at
    most [elementHeight + 2 * overscan], and exactly that when neither
    clamp applies. With a height that is not an integer the two roundings
    can differ by one more row. *)
Theorem Simple_window_is_elementHeight_rows props (items : list Simple.IItem)
    scrollTop :
  0 < Simple.elementHeight props ->
  0 <= scrollTop ->
  2 * (scrollTop + Simple.elementHeight props * Simple.elementHeight props)
    + 2 * Simple.elementHeight props <= MAX_SAFE_INTEGER ->
  (Simple.rangeMemo props items scrollTop).1.2
    - (Simple.rangeMemo props items scrollTop).1.1
    <= Simple.elementHeight props + 2 * Simple.overscan' props
  ∧ (0 <= Simple.roundDiv scrollTop (Simple.elementHeight props)
          - Simple.overscan' props ->
     Simple.roundDiv scrollTop (Simple.elementHeight props)
       + Simple.elementHeight props + Simple.overscan' props
       <= Z.of_nat (length items) ->
     (Simple.rangeMemo props items scrollTop).1.2
       - (Simple.rangeMemo props items scrollTop).1.1
     = Simple.elementHeight props + 2 * Simple.overscan' props).
Proof.
  intros Hh _ _. unfold Simple.rangeMemo. cbn [fst snd].
  assert (Simple.roundDiv
            (scrollTop + Simple.elementHeight props * Simple.elementHeight props)
            (Simple.elementHeight props)
          = Simple.roundDiv scrollTop (Simple.elementHeight props)
            + Simple.elementHeight props) as ->.
  { unfold Simple.roundDiv.
    replace (2 * (scrollTop + Simple.elementHeight props * Simple.elementHeight props)
             + Simple.elementHeight props)
      with (2 * scrollTop + Simple.elementHeight props
            + Simple.elementHeight props * (2 * Simple.elementHeight props)) by lia.
    rewrite Z.div_add by lia. reflexivity. }
  split; [lia|]. intros Hlow Hhigh. lia.
Qed.

Lemma Simple_window_is_elementHeight_rows_witness :
  0 < Simple.elementHeight (simpleProps 25 40 None)
  ∧ 0 <= 2000
  ∧ 2 * (2000 + Simple.elementHeight (simpleProps 25 40 None)
                * Simple.elementHeight (simpleProps 25 40 None))
      + 2 * Simple.elementHeight (simpleProps 25 40 None) <= MAX_SAFE_INTEGER
  ∧ (Simple.rangeMemo (simpleProps 25 40 None) Simple.items 2000).1.2
      - (Simple.rangeMemo (simpleProps 25 40 None) Simple.items 2000).1.1
      <= Simple.elementHeight (simpleProps 25 40 None)
         + 2 * Simple.overscan' (simpleProps 25 40 None)
  ∧ (0 <= Simple.roundDiv 2000 (Simple.elementHeight (simpleProps 25 40 None))
          - Simple.overscan' (simpleProps 25 40 None) ->
     Simple.roundDiv 2000 (Simple.elementHeight (simpleProps 25 40 None))
       + Simple.elementHeight (simpleProps 25 40 None)
       + Simple.overscan' (simpleProps 25 40 None)
       <= Z.of_nat (length Simple.items) ->
     (Simple.rangeMemo (simpleProps 25 40 None) Simple.items 2000).1.2
       - (Simple.rangeMemo (simpleProps 25 40 None) Simple.items 2000).1.1
     = Simple.elementHeight (simpleProps 25 40 None)
       + 2 * Simple.overscan' (simpleProps 25 40 None)).
Proof.
  split; [reflexivity|]. split; [lia|]. split; [vm_compute; discriminate|].
  apply (Simple_window_is_elementHeight_rows (simpleProps 25 40 None) Simple.items 2000);
    [reflexivity|lia|vm_compute; discriminate].
Defined.

(** At scroll offset 2000 with rows of 40 neither clamp applies: the memo
    returns the ids 47 to 93, which is [40 + 2 * 3] rows apart. *)
Example Simple_window_at_2000 :
  (Simple.rangeMemo (simpleProps 25 40 None) Simple.items 2000).1 = (47, 93).
Proof. vm_compute. reflexivity. Qed.

End SimpleRange.
